(** * SafeCircle: presence registry, location router and SOS dispatch

    A shallow embedding of the backend of SafeCircle:
    - [backend/server.js]: the Socket.IO handlers [join], [location_update],
      [sos_alert] and [disconnect] over the in-memory map [activeUsers];
    - [backend/src/routes/locations.js]: [checkLocationPermission];
    - [backend/src/routes/sos.js]: [POST /trigger], [PUT /alerts/:id/resolve],
      [sendSOSNotification] and [sendResolutionNotification].

    Conventions of the embedding:
    - The relational store (Supabase) is a record of tables, each a list of
      rows; a query is a filter over the table it reads and answers, unless
      putting the query together already throws (see [filter_in]).
      A write whose [error] the source tests is accepted or refused by the
      environment [Env]; so is every HTTP post to FCM.
    - Handlers are written in a state-and-exception monad over the world
      (store, presence map, open sockets, log of outgoing effects).  One
      handler run sees one clock value, [now], and runs to its end before
      the next event is handled.
    - Where the source awaits a family of promises ([Promise.all],
      [Promise.allSettled]) the tasks are run one after the other in list
      order.  The real promises start together and interleave at every
      [await], so rows and effects of different tasks can come out in another
      order; every task only appends to the store and to the effect log, so
      which rows are written and how each task settles do not depend on the
      interleaving.  The statements about such a family are therefore made
      up to the order of the rows and effects (membership, counts,
      permutations).
    - Identifiers are strings; a nullable column is an [option].
      Coordinates and timestamps are integers.  The pictographs that open
      some literal texts of the source are left out. *)

From stdpp Require Import gmap strings list sorting pretty.
From Stdlib Require Import ZArith.

Open Scope Z_scope.
Open Scope string_scope.

(** ** JavaScript truthiness of the values the handlers test *)

Module Js.

(** [if (s)] on a string: only the empty string is falsy. *)
Definition truthy_str (s : string) : bool := negb (String.eqb s "").

(** [if (x)] on a nullable string ([null], [undefined] or a string). *)
Definition truthy (o : option string) : bool :=
  match o with
  | Some s => truthy_str s
  | None => false
  end.

(** [if (x)] on a nullable number: [null], [undefined] and [0] are falsy.
    Coordinates are carried as integers (fixed-point degrees); the handlers
    never compute with them. *)
Definition truthy_num (o : option Z) : bool :=
  match o with
  | Some z => negb (Z.eqb z 0)
  | None => false
  end.

End Js.

(** ** The store: one list of rows per table of [database/schema.sql] *)

Inductive conn_status := Pending | Accepted | Blocked.
Inductive alert_status := Active | Resolved | FalseAlarm.
Inductive channel := Push | Sms.

#[global] Instance conn_status_eq_dec : EqDecision conn_status.
Proof. solve_decision. Defined.
#[global] Instance alert_status_eq_dec : EqDecision alert_status.
Proof. solve_decision. Defined.
#[global] Instance channel_eq_dec : EqDecision channel.
Proof. solve_decision. Defined.

Record user_row := {
  u_id : string;
  full_name : string;
  phone_number : string;
  fcm_token : option string
}.

Record connection_row := {
  requester_id : string;
  addressee_id : string;
  conn_state : conn_status
}.

Record family_member_row := {
  family_id : string;
  fm_user_id : string
}.

Record permission_row := {
  lp_user_id : string;
  shared_with_user_id : option string;
  is_enabled : bool;
  expires_at : option Z
}.

Record location_row := {
  l_user_id : string;
  l_latitude : option Z;
  l_longitude : option Z;
  l_accuracy : option Z;
  l_altitude : option Z;
  l_speed : option Z;
  l_heading : option Z;
  l_timestamp : Z
}.

Record contact_row := {
  ec_user_id : string;
  contact_user_id : option string;
  contact_name : string;
  contact_phone : option string;
  contact_email : option string;
  priority : Z
}.

Record alert_row := {
  a_id : nat;
  a_user_id : string;
  a_latitude : option Z;
  a_longitude : option Z;
  a_message : string;
  a_status : alert_status;
  is_resolved : bool;
  resolved_at : option Z;
  created_at : Z
}.

Record notification_row := {
  sos_alert_id : nat;
  recipient_user_id : option string;
  recipient_phone : option string;
  recipient_email : option string;
  notification_type : channel;
  is_delivered : bool;
  delivered_at : option Z
}.

Record Store := {
  users : list user_row;
  user_connections : list connection_row;
  family_members : list family_member_row;
  location_permissions : list permission_row;
  user_locations : list location_row;
  emergency_contacts : list contact_row;
  sos_alerts : list alert_row;
  sos_notifications : list notification_row
}.

Definition empty_store : Store :=
  {| users := []; user_connections := []; family_members := [];
     location_permissions := []; user_locations := [];
     emergency_contacts := []; sos_alerts := []; sos_notifications := [] |}.

Module Query.

(** [.single()]: the data is the row when exactly one row matches, and
    [null] (with an error the callers here ignore) when none or several do. *)
Definition single {A} (rows : list A) : option A :=
  match rows with
  | [r] => Some r
  | _ => None
  end.

(** [.eq(col, v)] against a nullable column. *)
Definition eq_opt (col : option string) (v : string) : bool :=
  match col with
  | Some s => String.eqb s v
  | None => false
  end.

Definition user_by_id (s : Store) (id : string) : option user_row :=
  single (List.filter (fun u => String.eqb (u_id u) id) (users s)).

(** [.eq('id', contact.contact_user_id)] with the truthy id of a contact. *)
Definition user_by_opt_id (s : Store) (id : option string) : option user_row :=
  match id with
  | Some i => user_by_id s i
  | None => None
  end.

Definition priority_le (a b : contact_row) : Prop := (priority a <= priority b)%Z.

#[global] Instance priority_le_dec : RelDecision priority_le.
Proof. intros a b. unfold priority_le. apply _. Defined.

(** [from('emergency_contacts').select('*').eq('user_id', u).order('priority')] *)
Definition contacts_of (s : Store) (u : string) : list contact_row :=
  merge_sort priority_le
    (List.filter (fun c => String.eqb (ec_user_id c) u) (emergency_contacts s)).

Definition alert_by_id (s : Store) (id : nat) : option alert_row :=
  single (List.filter (fun a => Nat.eqb (a_id a) id) (sos_alerts s)).

Definition notifications_of (s : Store) (id : nat) : list notification_row :=
  List.filter (fun n => Nat.eqb (sos_alert_id n) id) (sos_notifications s).

End Query.

(** ** The world and the handler monad *)

(** Everything a handler sends out of the process. *)
Record location_payload := {
  lu_userId : string;
  lu_latitude : option Z;
  lu_longitude : option Z;
  lu_accuracy : option Z;
  lu_timestamp : Z
}.

Record sos_payload := {
  sr_alertId : nat;
  sr_from : string;
  sr_fromPhone : string;
  sr_latitude : option Z;
  sr_longitude : option Z;
  sr_message : string;
  sr_timestamp : Z
}.

Inductive effect :=
  | FcmPost (token title body : string)
  | SmsSend (phone text : string)
  | EmitLocationUpdated (to : string) (p : location_payload)
  | EmitSosReceived (to : string) (p : sos_payload)
  | EmitSosSent (to : string) (alertId : nat)
  | EmitError (to : string) (message : string).

Record World := {
  db : Store;
  activeUsers : gmap string string;
  sockets : gmap string (option string);
  out : list effect
}.

Inductive exn :=
  | TypeError (what : string)
  | DbError (table : string)
  | NetworkError (url : string).

Inductive outcome (A : Type) :=
  | Ok (a : A)
  | Throw (e : exn).
Arguments Ok {A} a.
Arguments Throw {A} e.

Definition M (A : Type) : Type := World -> outcome A * World.

#[global] Instance M_ret : MRet M := fun A a w => (Ok a, w).

#[global] Instance M_bind : MBind M := fun A B f m w =>
  match m w with
  | (Ok a, w') => f a w'
  | (Throw e, w') => (Throw e, w')
  end.

Definition throw {A} (e : exn) : M A := fun w => (Throw e, w).

(** [try { body } catch (e) { handler e }]: what the body did before it
    threw stays done. *)
Definition try_catch {A} (body : M A) (handler : exn -> M A) : M A := fun w =>
  match body w with
  | (Ok a, w') => (Ok a, w')
  | (Throw e, w') => handler e w'
  end.

Definition get_db : M Store := fun w => (Ok (db w), w).

Definition get_active : M (gmap string string) := fun w => (Ok (activeUsers w), w).

Definition set_db (f : Store -> Store) : M unit := fun w =>
  (Ok tt, {| db := f (db w); activeUsers := activeUsers w;
             sockets := sockets w; out := out w |}).

Definition emit (e : effect) : M unit := fun w =>
  (Ok tt, {| db := db w; activeUsers := activeUsers w;
             sockets := sockets w; out := out w ++ [e] |}).

(** Property access on a possibly-null object: [x.f] throws when [x] is
    [null]. *)
Definition deref {A} (what : string) (o : option A) : M A :=
  match o with
  | Some a => mret a
  | None => throw (TypeError what)
  end.

(** The second argument of [.in(column, values)]: an array of values, or
    (as [checkLocationPermission] passes it) another query builder. *)
Inductive in_values :=
  | InArray (values : list string)
  | InBuilder.

(** [.in(column, values)] of supabase-js goes through the elements of
    [values] to write the filter, while the query is being put together.
    With an array the query keeps the rows whose column is one of the
    elements; a query builder is not a collection of values, and the call
    throws a [TypeError] before any request is sent. *)
Definition filter_in {A} (column : A -> string) (values : in_values)
    (rows : list A) : M (list A) :=
  match values with
  | InArray vs => mret (List.filter (fun r => bool_decide (column r ∈ vs)) rows)
  | InBuilder => throw (TypeError "values")
  end.

(** What the collaborators outside the process decide: whether the HTTP
    post to FCM for a token resolves, and whether the store accepts each
    write whose [error] the handlers test. *)
Record Env := {
  fcm_ok : string -> bool;
  insert_location_ok : bool;
  insert_alert_ok : bool;
  insert_notification_ok : bool;
  update_alert_ok : bool;
  now : Z
}.

(** A promise that is left to settle: its rejection becomes a value. *)
Definition settle {A} (m : M A) : M (outcome A) := fun w =>
  let '(r, w') := m w in (Ok r, w').

(** [await Promise.allSettled(tasks)]: every task runs to its end, its
    outcome is kept. *)
Fixpoint allSettled {A} (tasks : list (M A)) : M (list (outcome A)) :=
  match tasks with
  | [] => mret []
  | t :: rest => r ← settle t; rs ← allSettled rest; mret (r :: rs)
  end.

Fixpoint first_rejection {A} (rs : list (outcome A)) : option exn :=
  match rs with
  | [] => None
  | Throw e :: _ => Some e
  | Ok _ :: rest => first_rejection rest
  end.

(** [await Promise.all(tasks)]: every task still runs to its end; the
    await throws when one of them rejected. *)
Definition promiseAll {A} (tasks : list (M A)) : M (list A) :=
  rs ← allSettled tasks;
  match first_rejection rs with
  | Some e => throw e
  | None => mret (omap (fun r => match r with Ok a => Some a | Throw _ => None end) rs)
  end.

(** [list.forEach(f)] *)
Fixpoint forEach {A} (f : A -> M unit) (l : list A) : M unit :=
  match l with
  | [] => mret tt
  | x :: rest => _ ← f x; forEach f rest
  end.

(** A number inside a template string. *)
Definition show_num (o : option Z) : string :=
  match o with
  | Some z => pretty z
  | None => "undefined"
  end.

(** ** Writes to the store *)

Module Db.

Definition add_location (r : location_row) (s : Store) : Store :=
  {| users := users s; user_connections := user_connections s;
     family_members := family_members s;
     location_permissions := location_permissions s;
     user_locations := user_locations s ++ [r];
     emergency_contacts := emergency_contacts s;
     sos_alerts := sos_alerts s; sos_notifications := sos_notifications s |}.

Definition add_alert (r : alert_row) (s : Store) : Store :=
  {| users := users s; user_connections := user_connections s;
     family_members := family_members s;
     location_permissions := location_permissions s;
     user_locations := user_locations s;
     emergency_contacts := emergency_contacts s;
     sos_alerts := sos_alerts s ++ [r]; sos_notifications := sos_notifications s |}.

Definition add_notification (r : notification_row) (s : Store) : Store :=
  {| users := users s; user_connections := user_connections s;
     family_members := family_members s;
     location_permissions := location_permissions s;
     user_locations := user_locations s;
     emergency_contacts := emergency_contacts s;
     sos_alerts := sos_alerts s; sos_notifications := sos_notifications s ++ [r] |}.

Definition map_alerts (f : alert_row -> alert_row) (s : Store) : Store :=
  {| users := users s; user_connections := user_connections s;
     family_members := family_members s;
     location_permissions := location_permissions s;
     user_locations := user_locations s;
     emergency_contacts := emergency_contacts s;
     sos_alerts := List.map f (sos_alerts s);
     sos_notifications := sos_notifications s |}.

(** The primary key the store generates for a new alert: one no row has. *)
Definition fresh_alert_id (s : Store) : nat :=
  S (foldr Nat.max 0%nat (List.map a_id (sos_alerts s))).

(** [from('user_locations').insert(row).select().single()], then
    [if (error) throw error]. *)
Definition insert_location (env : Env) (r : location_row) : M location_row :=
  if insert_location_ok env
  then _ ← set_db (add_location r); mret r
  else throw (DbError "user_locations").

(** [from('sos_alerts').insert(row).select().single()], then
    [if (error) throw error].  The store fills in [id] and [created_at]. *)
Definition insert_alert (env : Env) (user_id : string) (lat lon : option Z)
    (message : string) : M alert_row :=
  if insert_alert_ok env
  then
    s ← get_db;
    let r := {| a_id := fresh_alert_id s; a_user_id := user_id;
                a_latitude := lat; a_longitude := lon; a_message := message;
                a_status := Active; is_resolved := false; resolved_at := None;
                created_at := now env |} in
    _ ← set_db (add_alert r); mret r
  else throw (DbError "sos_alerts").

(** [from('sos_notifications').insert(row)]: the result is never inspected,
    a write the store refuses is lost silently. *)
Definition insert_notification (env : Env) (r : notification_row) : M unit :=
  if insert_notification_ok env then set_db (add_notification r) else mret tt.

End Db.

(** ** backend/server.js: the Socket.IO handlers *)

Module Server.

(** [io.on('connection', socket => ...)]: a new socket, [socket.userId]
    still undefined. *)
Definition connection (sid : string) : M unit := fun w =>
  (Ok tt, {| db := db w; activeUsers := activeUsers w;
             sockets := <[sid := None]> (sockets w); out := out w |}).

(** [socket.on('join', userId => { activeUsers.set(userId, socket.id);
    socket.userId = userId })] *)
Definition join (sid userId : string) : M unit := fun w =>
  (Ok tt, {| db := db w; activeUsers := <[userId := sid]> (activeUsers w);
             sockets := <[sid := Some userId]> (sockets w); out := out w |}).

(** [socket.on('disconnect', () => { if (socket.userId)
    activeUsers.delete(socket.userId) })]; the socket itself is gone. *)
Definition disconnect (sid : string) : M unit := fun w =>
  (Ok tt, {| db := db w;
             activeUsers := match sockets w !! sid ≫= id with
                            | Some userId =>
                                if Js.truthy_str userId
                                then delete userId (activeUsers w)
                                else activeUsers w
                            | None => activeUsers w
                            end;
             sockets := delete sid (sockets w); out := out w |}).

(** The presence registry of the specification, read off the handlers. *)
Definition lookup (w : World) (u : string) : option string := activeUsers w !! u.

(** [sendFCMNotification] of server.js: the post is wrapped in a
    [try]/[catch] that only logs. *)
Definition post_fcm (env : Env) (token title body : string) : M unit :=
  _ ← emit (FcmPost token title body);
  if fcm_ok env token then mret tt
  else throw (NetworkError "https://fcm.googleapis.com/fcm/send").

Definition sendFCMNotification (env : Env) (token title body : string) : M unit :=
  try_catch (post_fcm env token title body) (fun _ => mret tt).

(** [sendSMS]: a placeholder that logs the message and returns. *)
Definition sendSMS (phone text : string) : M unit := emit (SmsSend phone text).

Record location_data := {
  ld_userId : string;
  ld_latitude : option Z;
  ld_longitude : option Z;
  ld_accuracy : option Z;
  ld_altitude : option Z;
  ld_speed : option Z;
  ld_heading : option Z
}.

(** [from('location_permissions').select('shared_with_user_id')
    .eq('user_id', userId).eq('is_enabled', true)] *)
Definition enabled_permissions (s : Store) (userId : string) : list permission_row :=
  List.filter (fun p => String.eqb (lp_user_id p) userId && is_enabled p)
    (location_permissions s).

(** The body of [permissions.forEach(perm => ...)]. *)
Definition push_location (payload : location_payload) (perm : permission_row) : M unit :=
  active ← get_active;
  match shared_with_user_id perm ≫= (fun v => active !! v) with
  | Some targetSocketId =>
      if Js.truthy_str targetSocketId
      then emit (EmitLocationUpdated targetSocketId payload)
      else mret tt
  | None => mret tt
  end.

(** [socket.on('location_update', async data => ...)] on socket [sid]. *)
Definition location_update (env : Env) (sid : string) (data : location_data) : M unit :=
  try_catch
    (location ← Db.insert_location env
        {| l_user_id := ld_userId data;
           l_latitude := ld_latitude data; l_longitude := ld_longitude data;
           l_accuracy := ld_accuracy data; l_altitude := ld_altitude data;
           l_speed := ld_speed data; l_heading := ld_heading data;
           l_timestamp := now env |};
     s ← get_db;
     forEach
       (push_location
          {| lu_userId := ld_userId data;
             lu_latitude := ld_latitude data; lu_longitude := ld_longitude data;
             lu_accuracy := ld_accuracy data;
             lu_timestamp := l_timestamp location |})
       (enabled_permissions s (ld_userId data)))
    (fun _ => emit (EmitError sid "Failed to update location")).

Record sos_data := {
  sd_userId : string;
  sd_latitude : option Z;
  sd_longitude : option Z;
  sd_message : option string
}.

(** [message || 'Emergency! I need help!'] *)
Definition message_or (message : option string) (dflt : string) : string :=
  match message with
  | Some m => if Js.truthy_str m then m else dflt
  | None => dflt
  end.

(** The live push to a contact that is present ([io.to(id).emit]).
    [user.full_name] throws when the sender's row was not found. *)
Definition push_sos (data : sos_data) (alert : alert_row) (user : option user_row)
    (contact : contact_row) : M unit :=
  active ← get_active;
  match contact_user_id contact ≫= (fun v => active !! v) with
  | Some targetSocketId =>
      if Js.truthy_str targetSocketId
      then
        u ← deref "user" user;
        emit (EmitSosReceived targetSocketId
                {| sr_alertId := a_id alert; sr_from := full_name u;
                   sr_fromPhone := phone_number u;
                   sr_latitude := sd_latitude data;
                   sr_longitude := sd_longitude data;
                   sr_message := a_message alert;
                   sr_timestamp := created_at alert |})
      else mret tt
  | None => mret tt
  end.

(** The FCM push to a contact whose user row carries a token.  The
    arguments are built first: [user.full_name] and [latitude.toString()]
    throw on [null]. *)
Definition fcm_sos (env : Env) (data : sos_data) (user : option user_row)
    (contact : contact_row) : M unit :=
  s ← get_db;
  match Query.user_by_opt_id s (contact_user_id contact) ≫= fcm_token with
  | Some token =>
      if Js.truthy_str token
      then
        u ← deref "user" user;
        _ ← deref "latitude" (sd_latitude data);
        _ ← deref "longitude" (sd_longitude data);
        sendFCMNotification env token "SOS ALERT"
          (full_name u ++ " needs help! Location: "
             ++ show_num (sd_latitude data) ++ ", " ++ show_num (sd_longitude data))
      else mret tt
  | None => mret tt
  end.

(** The callback of [contacts.map(async contact => ...)]. *)
Definition notify_contact (env : Env) (data : sos_data) (alert : alert_row)
    (user : option user_row) (contact : contact_row) : M unit :=
  _ ← (if Js.truthy (contact_user_id contact)
       then _ ← push_sos data alert user contact; fcm_sos env data user contact
       else mret tt);
  _ ← (match contact_phone contact with
       | Some phone =>
           if Js.truthy_str phone
           then
             u ← deref "user" user;
             sendSMS phone
               ("SOS: " ++ full_name u
                  ++ " needs help! Location: https://maps.google.com/?q="
                  ++ show_num (sd_latitude data) ++ "," ++ show_num (sd_longitude data))
           else mret tt
       | None => mret tt
       end);
  Db.insert_notification env
    {| sos_alert_id := a_id alert;
       recipient_user_id := contact_user_id contact;
       recipient_phone := contact_phone contact;
       recipient_email := None;
       notification_type := if Js.truthy (contact_user_id contact) then Push else Sms;
       is_delivered := true;
       delivered_at := Some (now env) |}.

(** [socket.on('sos_alert', async data => ...)] on socket [sid]. *)
Definition sos_alert (env : Env) (sid : string) (data : sos_data) : M unit :=
  try_catch
    (alert ← Db.insert_alert env (sd_userId data) (sd_latitude data)
        (sd_longitude data) (message_or (sd_message data) "Emergency! I need help!");
     s ← get_db;
     let user := Query.user_by_id s (sd_userId data) in
     let contacts := Query.contacts_of s (sd_userId data) in
     _ ← promiseAll (List.map (notify_contact env data alert user) contacts);
     emit (EmitSosSent sid (a_id alert)))
    (fun _ => emit (EmitError sid "Failed to send SOS alert")).

(** The events a socket delivers to the server. *)
Inductive event :=
  | Connection (sid : string)
  | Join (sid userId : string)
  | LocationUpdate (sid : string) (data : location_data)
  | SosAlert (sid : string) (data : sos_data)
  | Disconnect (sid : string).

Definition socket_of (ev : event) : string :=
  match ev with
  | Connection sid | Join sid _ | LocationUpdate sid _ | SosAlert sid _
  | Disconnect sid => sid
  end.

Definition handler (env : Env) (ev : event) : M unit :=
  match ev with
  | Connection sid => connection sid
  | Join sid userId => join sid userId
  | LocationUpdate sid data => location_update env sid data
  | SosAlert sid data => sos_alert env sid data
  | Disconnect sid => disconnect sid
  end.

(** One event: the handlers of a socket exist from its [connection] to its
    [disconnect]; an event for a socket that is not open reaches no
    handler. *)
Definition step (env : Env) (w : World) (ev : event) : World :=
  match ev with
  | Connection _ => (handler env ev w).2
  | _ => if decide (is_Some (sockets w !! socket_of ev))
         then (handler env ev w).2
         else w
  end.

Definition run (env : Env) (w : World) (evs : list event) : World :=
  foldl (step env) w evs.

(** The process at start-up: no socket, an empty presence map. *)
Definition boot (s : Store) : World :=
  {| db := s; activeUsers := ∅; sockets := ∅; out := [] |}.

End Server.

(** ** backend/src/routes/locations.js *)

Module Locations.

(** [.or(and(requester_id.eq.a,addressee_id.eq.b),
         and(requester_id.eq.b,addressee_id.eq.a)).eq('status','accepted')] *)
Definition accepted_between (a b : string) (c : connection_row) : bool :=
  (String.eqb (requester_id c) a && String.eqb (addressee_id c) b
   || String.eqb (requester_id c) b && String.eqb (addressee_id c) a)
  && bool_decide (conn_state c = Accepted).

(** [.eq('user_id', target).eq('shared_with_user_id', requester)
     .eq('is_enabled', true)] *)
Definition permission_for (requesterId targetUserId : string) (p : permission_row) : bool :=
  String.eqb (lp_user_id p) targetUserId
  && Query.eq_opt (shared_with_user_id p) requesterId
  && is_enabled p.

(** [checkLocationPermission(requesterId, targetUserId)].  The family
    query is [from('family_members').select('family_id')
    .eq('user_id', requesterId).in('family_id', <builder>)], where the second
    argument of [.in] is the query builder for the families of
    [targetUserId], not an array: putting the query together throws, the
    function rejects there, and the lines after it are never reached. *)
Definition checkLocationPermission (requesterId targetUserId : string) : M bool :=
  if String.eqb requesterId targetUserId then mret true
  else
    s ← get_db;
    let connection :=
      Query.single (List.filter (accepted_between requesterId targetUserId)
                      (user_connections s)) in
    if bool_decide (is_Some connection) then mret true
    else
      sharedFamily ← filter_in family_id InBuilder
                       (List.filter (fun m => String.eqb (fm_user_id m) requesterId)
                          (family_members s));
      if (0 <? length sharedFamily)%nat then mret true
      else
        let permission :=
          Query.single (List.filter (permission_for requesterId targetUserId)
                          (location_permissions s)) in
        mret (bool_decide (is_Some permission)).

End Locations.

(** ** backend/src/routes/sos.js *)

Module Sos.

Inductive body :=
  | ErrorBody (error : string)
  | MessageBody (message : string)
  | TriggerBody (alertId : nat) (message : string)
      (notificationsSent totalContacts : nat) (alert : alert_row).

Record response := { status : nat; json : body }.

Record trigger_body := {
  latitude : option Z;
  longitude : option Z;
  message : option string
}.

(** [sendFCMNotification] of sos.js: the post is awaited bare, a failed
    post rejects. *)
Definition sendFCMNotification (env : Env) (token title body : string) : M unit :=
  _ ← emit (FcmPost token title body);
  if fcm_ok env token then mret tt
  else throw (NetworkError "https://fcm.googleapis.com/fcm/send").

(** [sendSMS]: logs the message and returns. *)
Definition sendSMS (phone text : string) : M unit := emit (SmsSend phone text).

(** The two locals of [sendSOSNotification]. *)
Record locals := { notificationType : channel; isDelivered : bool }.

(** [if (contact.contact_user_id) { ... }]: the locals are assigned after
    the awaited post, so a post that throws leaves them untouched. *)
Definition push_step (env : Env) (contact : contact_row) (user : user_row)
    (alert : alert_row) (l : locals) : M locals :=
  if Js.truthy (contact_user_id contact)
  then
    s ← get_db;
    match Query.user_by_opt_id s (contact_user_id contact) ≫= fcm_token with
    | Some token =>
        if Js.truthy_str token
        then
          _ ← deref "alert.latitude" (a_latitude alert);
          _ ← deref "alert.longitude" (a_longitude alert);
          _ ← sendFCMNotification env token "SOS ALERT" (full_name user ++ " needs help!");
          mret {| notificationType := Push; isDelivered := true |}
        else mret l
    | None => mret l
    end
  else mret l.

(** [if (contact.contact_phone) { ... }] *)
Definition sms_step (contact : contact_row) (text : string) (l : locals) : M locals :=
  match contact_phone contact with
  | Some phone =>
      if Js.truthy_str phone
      then
        _ ← sendSMS phone text;
        mret {| notificationType :=
                  (if bool_decide (notificationType l ≠ Push) then Sms
                   else notificationType l);
                isDelivered := true |}
      else mret l
  | None => mret l
  end.

(** The value a fulfilled [sendSOSNotification] returns. *)
Record sent := { success : bool; contact : string }.

(** [sendSOSNotification(contact, user, alert)].  The message template
    reads [user.full_name] before the [try]: with no user row the call
    rejects there.  Inside the [try] only the push step can throw, and it
    does so before it assigns, so the [catch] sees the initial locals. *)
Definition sendSOSNotification (env : Env) (c : contact_row)
    (user : option user_row) (alert : alert_row) : M sent :=
  u ← deref "user" user;
  let text :=
    "SOS ALERT: " ++ full_name u ++ " needs help! Message: " ++ a_message alert
      ++ " Location: https://maps.google.com/?q="
      ++ show_num (a_latitude alert) ++ "," ++ show_num (a_longitude alert)
      ++ " Time: " ++ pretty (created_at alert) in
  let l0 := {| notificationType := Sms; isDelivered := false |} in
  try_catch
    (l1 ← push_step env c u alert l0;
     l2 ← sms_step c text l1;
     _ ← Db.insert_notification env
           {| sos_alert_id := a_id alert;
              recipient_user_id := contact_user_id c;
              recipient_phone := contact_phone c;
              recipient_email := contact_email c;
              notification_type := notificationType l2;
              is_delivered := isDelivered l2;
              delivered_at := if isDelivered l2 then Some (now env) else None |};
     mret {| success := true; contact := contact_name c |})
    (fun error =>
       _ ← Db.insert_notification env
             {| sos_alert_id := a_id alert;
                recipient_user_id := contact_user_id c;
                recipient_phone := contact_phone c;
                recipient_email := None;
                notification_type := notificationType l0;
                is_delivered := false;
                delivered_at := None |};
       throw error).

Definition fulfilled {A} (r : outcome A) : bool :=
  match r with
  | Ok _ => true
  | Throw _ => false
  end.

Definition no_contacts : response :=
  {| status := 400;
     json := ErrorBody
       "No emergency contacts configured. Please add emergency contacts first." |}.

(** [router.post('/trigger', ...)] for the authenticated [userId]. *)
Definition trigger (env : Env) (userId : string) (req : trigger_body) : M response :=
  try_catch
    (if negb (Js.truthy_num (latitude req)) || negb (Js.truthy_num (longitude req))
     then mret {| status := 400; json := ErrorBody "Location coordinates required" |}
     else
       s ← get_db;
       let user := Query.user_by_id s userId in
       text ← match message req with
              | Some m =>
                  if Js.truthy_str m then mret m
                  else u ← deref "user" user;
                       mret ("EMERGENCY! " ++ full_name u ++ " needs help!")
              | None => u ← deref "user" user;
                        mret ("EMERGENCY! " ++ full_name u ++ " needs help!")
              end;
       alert ← Db.insert_alert env userId (latitude req) (longitude req) text;
       s' ← get_db;
       let contacts := Query.contacts_of s' userId in
       if (length contacts =? 0)%nat
       then mret no_contacts
       else
         notificationResults ← allSettled
           (List.map (fun c => sendSOSNotification env c user alert) contacts);
         let successCount := length (List.filter fulfilled notificationResults) in
         mret {| status := 200;
                 json := TriggerBody (a_id alert) "SOS alert triggered"
                           successCount (length contacts) alert |})
    (fun _ => mret {| status := 500; json := ErrorBody "Failed to trigger SOS alert" |}).

(** [sendResolutionNotification(recipientUserId, userName)] *)
Definition sendResolutionNotification (env : Env) (recipientUserId : option string)
    (userName : string) : M unit :=
  s ← get_db;
  match Query.user_by_opt_id s recipientUserId ≫= fcm_token with
  | Some token =>
      if Js.truthy_str token
      then sendFCMNotification env token "SOS Resolved" (userName ++ " is now safe")
      else mret tt
  | None => mret tt
  end.

(** The update of [PUT /alerts/:alertId/resolve]:
    [.update({status:'resolved', is_resolved:true, resolved_at: now})
     .eq('id', alertId)], then [if (error) throw error]. *)
Definition mark_resolved (env : Env) (alertId : nat) (a : alert_row) : alert_row :=
  if Nat.eqb (a_id a) alertId
  then {| a_id := a_id a; a_user_id := a_user_id a; a_latitude := a_latitude a;
          a_longitude := a_longitude a; a_message := a_message a;
          a_status := Resolved; is_resolved := true;
          resolved_at := Some (now env); created_at := created_at a |}
  else a.

Definition update_resolved (env : Env) (alertId : nat) : M unit :=
  if update_alert_ok env
  then set_db (Db.map_alerts (mark_resolved env alertId))
  else throw (DbError "sos_alerts").

(** [notif.sos_alert.user.full_name], through the embedded selects. *)
Definition owner_name (s : Store) (n : notification_row) : option string :=
  a ← Query.alert_by_id s (sos_alert_id n);
  u ← Query.user_by_id s (a_user_id a);
  Some (full_name u).

(** [Promise.allSettled(notifications.map(notif =>
    sendResolutionNotification(notif.recipient_user_id,
                               notif.sos_alert.user.full_name)))]:
    the arguments are read as the array is built, a [null] on the way
    throws out of the [map]. *)
Fixpoint notify_resolved (env : Env) (s : Store) (ns : list notification_row)
    : M (list (outcome unit)) :=
  match ns with
  | [] => mret []
  | n :: rest =>
      name ← deref "notif.sos_alert.user" (owner_name s n);
      r ← settle (sendResolutionNotification env (recipient_user_id n) name);
      rs ← notify_resolved env s rest;
      mret (r :: rs)
  end.

(** [router.put('/alerts/:alertId/resolve', ...)] for the authenticated
    [userId]. *)
Definition resolve (env : Env) (userId : string) (alertId : nat) : M response :=
  try_catch
    (s ← get_db;
     match Query.alert_by_id s alertId with
     | Some alert =>
         if negb (String.eqb (a_user_id alert) userId)
         then mret {| status := 403; json := ErrorBody "Unauthorized to resolve this alert" |}
         else
           _ ← update_resolved env alertId;
           s' ← get_db;
           _ ← notify_resolved env s' (Query.notifications_of s' alertId);
           mret {| status := 200; json := MessageBody "Alert resolved successfully" |}
     | None => mret {| status := 403; json := ErrorBody "Unauthorized to resolve this alert" |}
     end)
    (fun _ => mret {| status := 500; json := ErrorBody "Failed to resolve alert" |}).

End Sos.

(** ** Relations between the world before and after a handler *)

(** [m] takes every world to one related to it by [R]. *)
Definition respects (R : World -> World -> Prop) {A} (m : M A) : Prop :=
  forall w, R w (m w).2.

(** The presence map and the open sockets are the same. *)
Definition same_presence (w w' : World) : Prop :=
  activeUsers w' = activeUsers w /\ sockets w' = sockets w.

(** The store is the same. *)
Definition same_db (w w' : World) : Prop := db w' = db w.

(** The notification table grew, and every new row satisfies [P]. *)
Definition notes_added (P : notification_row -> Prop) (w w' : World) : Prop :=
  exists recs,
    sos_notifications (db w') = (sos_notifications (db w) ++ recs)%list
    /\ Forall P recs.

(** ** Vocabulary of the statements *)

(** The [location_updated] events among the effects. *)
Definition is_broadcast (e : effect) : bool :=
  match e with
  | EmitLocationUpdated _ _ => true
  | _ => false
  end.

Definition broadcasts (l : list effect) : list effect := List.filter is_broadcast l.

(** What [location_update] sends to the viewers. *)
Definition payload_of (env : Env) (data : Server.location_data) : location_payload :=
  {| lu_userId := Server.ld_userId data;
     lu_latitude := Server.ld_latitude data;
     lu_longitude := Server.ld_longitude data;
     lu_accuracy := Server.ld_accuracy data;
     lu_timestamp := now env |}.

(** The row [location_update] persists. *)
Definition row_of (env : Env) (data : Server.location_data) : location_row :=
  {| l_user_id := Server.ld_userId data;
     l_latitude := Server.ld_latitude data; l_longitude := Server.ld_longitude data;
     l_accuracy := Server.ld_accuracy data; l_altitude := Server.ld_altitude data;
     l_speed := Server.ld_speed data; l_heading := Server.ld_heading data;
     l_timestamp := now env |}.

(** The effects a handler run added to the log [before]. *)
Definition added (before after : list effect) : list effect :=
  drop (length before) after.

(** The world after a handler sent [sent] and touched nothing else. *)
Definition with_out (w : World) (sent : list effect) : World :=
  {| db := db w; activeUsers := activeUsers w; sockets := sockets w;
     out := (out w ++ sent)%list |}.

(** The first clause of the registry property as the specification words
    it: a user that no open socket carries is absent. *)
Definition absent_without_connection (w : World) : Prop :=
  forall u,
    (forall sid, sockets w !! sid <> Some (Some u)) ->
    Server.lookup w u = None.



(** The row [r] is the record of contact [c] as the [sos_alert] handler
    writes it: addressed to the contact, marked as delivered at the time of
    the run, of type [push] when the contact is an app user and [sms]
    otherwise. *)
Definition recorded_as_delivered (env : Env) (c : contact_row)
    (r : notification_row) : Prop :=
  recipient_user_id r = contact_user_id c
  /\ recipient_phone r = contact_phone c
  /\ is_delivered r = true
  /\ delivered_at r = Some (now env)
  /\ notification_type r = (if Js.truthy (contact_user_id c) then Push else Sms).

(** The pushes among the effects: the live [sos_received] event and the
    FCM post. *)
Definition is_push (e : effect) : bool :=
  match e with
  | EmitSosReceived _ _ | FcmPost _ _ _ => true
  | _ => false
  end.

(** A contact no push can reach: the presence map has no socket for it and
    no user row gives a token for it. *)
Definition unreachable (w : World) (c : contact_row) : Prop :=
  contact_user_id c ≫= (fun v => activeUsers w !! v) = None
  /\ Query.user_by_opt_id (db w) (contact_user_id c) ≫= fcm_token = None.

(** A world reached from [w] by effects that are no pushes, with the
    presence map and the user table untouched. *)
Definition quiet_from (w w' : World) : Prop :=
  activeUsers w' = activeUsers w
  /\ users (db w') = users (db w)
  /\ exists sent, out w' = (out w ++ sent)%list
                  /\ Forall (fun e => is_push e = false) sent.

(** The push and SMS calls among the effects: the delivery attempts. *)
Definition is_attempt (e : effect) : bool :=
  match e with
  | FcmPost _ _ _ | SmsSend _ _ => true
  | _ => false
  end.

Definition is_sms (e : effect) : bool :=
  match e with
  | SmsSend _ _ => true
  | _ => false
  end.

(** The rows a handler run added to the notification table. *)
Definition new_notifications (before after : World) : list notification_row :=
  drop (length (sos_notifications (db before))) (sos_notifications (db after)).

(** The record rule as the specification words it: one row per attempted
    channel. *)
Definition one_record_per_attempt (env : Env) (w : World) (userId : string)
    (req : Sos.trigger_body) : Prop :=
  let w' := (Sos.trigger env userId req w).2 in
  length (new_notifications w w')
  = length (List.filter is_attempt (added (out w) (out w'))).

(** The row [r] is the record of contact [c] for the alert [alertId]. *)
Definition record_of_contact (alertId : nat) (r : notification_row)
    (c : contact_row) : Prop :=
  sos_alert_id r = alertId
  /\ recipient_user_id r = contact_user_id c
  /\ recipient_phone r = contact_phone c.

(** The record rule the dispatcher implements: the rows can be matched one
    to one with the contacts, whatever was attempted for each contact and
    in whatever order the rows were written. *)
Definition one_record_per_contact (alertId : nat) (recs : list notification_row)
    (contacts : list contact_row) : Prop :=
  exists paired,
    recs ≡ₚ paired /\ Forall2 (record_of_contact alertId) paired contacts.

Definition status_of (r : outcome Sos.response) : option nat :=
  match r with
  | Ok resp => Some (Sos.status resp)
  | Throw _ => None
  end.

Definition resolved_at_of (s : Store) (alertId : nat) : option Z :=
  Query.alert_by_id s alertId ≫= resolved_at.

(** Resolution as the specification words it: on an alert that is already
    resolved the owner's call is answered with something other than
    success and [resolved_at] keeps its value. *)
Definition resolved_is_final (env : Env) (w : World) (userId : string)
    (alertId : nat) : Prop :=
  forall alert,
    Query.alert_by_id (db w) alertId = Some alert ->
    a_user_id alert = userId ->
    a_status alert = Resolved ->
    status_of (Sos.resolve env userId alertId w).1 <> Some 200%nat
    /\ resolved_at_of (db (Sos.resolve env userId alertId w).2) alertId
       = resolved_at alert.

(** The row [resolve] leaves for an alert. *)
Definition resolved_row (env : Env) (a : alert_row) : alert_row :=
  {| a_id := a_id a; a_user_id := a_user_id a; a_latitude := a_latitude a;
     a_longitude := a_longitude a; a_message := a_message a;
     a_status := Resolved; is_resolved := true;
     resolved_at := Some (now env); created_at := created_at a |}.

(** ** Concrete worlds used as witnesses and counterexamples *)

Module Scenario.

Definition env_up : Env :=
  {| fcm_ok := fun _ => true; insert_location_ok := true;
     insert_alert_ok := true; insert_notification_ok := true;
     update_alert_ok := true; now := 9 |}.

(** FCM unreachable, everything else as in [env_up]. *)
Definition env_fcm_down : Env :=
  {| fcm_ok := fun _ => false; insert_location_ok := true;
     insert_alert_ok := true; insert_notification_ok := true;
     update_alert_ok := true; now := 9 |}.

Definition ada : user_row :=
  {| u_id := "a"; full_name := "Ada"; phone_number := "+1"; fcm_token := None |}.

(** Two clients connected, nobody joined yet. *)
Definition two_sockets : World :=
  Server.run env_up (Server.boot empty_store)
    [Server.Connection "h1"; Server.Connection "h2"].

(** A subject "s" and a viewer "v1" with an accepted connection and no
    permission row; "v1" is present on socket "k1". *)
Definition connected_store : Store :=
  {| users := [ {| u_id := "s"; full_name := "Sub"; phone_number := "+1";
                   fcm_token := None |};
                {| u_id := "v1"; full_name := "Viewer"; phone_number := "+2";
                   fcm_token := None |} ];
     user_connections := [ {| requester_id := "v1"; addressee_id := "s";
                              conn_state := Accepted |} ];
     family_members := []; location_permissions := []; user_locations := [];
     emergency_contacts := []; sos_alerts := []; sos_notifications := [] |}.


(** As [connected_store], with a second viewer "v2" that holds an enabled
    permission row of "s" and is present on socket "k2". *)
Definition shared_store : Store :=
  {| users := users connected_store
              ++ [ {| u_id := "v2"; full_name := "Second"; phone_number := "+3";
                      fcm_token := None |} ];
     user_connections := user_connections connected_store;
     family_members := [];
     location_permissions :=
       [ {| lp_user_id := "s"; shared_with_user_id := Some "v2";
            is_enabled := true; expires_at := None |} ];
     user_locations := []; emergency_contacts := []; sos_alerts := [];
     sos_notifications := [] |}.

Definition shared_world : World :=
  Server.run env_up (Server.boot shared_store)
    [Server.Connection "k0"; Server.Join "k0" "s";
     Server.Connection "k1"; Server.Join "k1" "v1";
     Server.Connection "k2"; Server.Join "k2" "v2"].

Definition sample : Server.location_data :=
  {| Server.ld_userId := "s"; Server.ld_latitude := Some 65244;
     Server.ld_longitude := Some 33792; Server.ld_accuracy := Some 5;
     Server.ld_altitude := None; Server.ld_speed := None;
     Server.ld_heading := None |}.

(** The owner "a" has one emergency contact: the app user "b", who has no
    FCM token and is not connected.  Only "a" is present. *)
Definition contact_b : contact_row :=
  {| ec_user_id := "a"; contact_user_id := Some "b"; contact_name := "Bee";
     contact_phone := Some "+2348000000000"; contact_email := None;
     priority := 1 |}.

Definition sos_store : Store :=
  {| users := [ ada;
                {| u_id := "b"; full_name := "Bee"; phone_number := "+2348000000000";
                   fcm_token := None |} ];
     user_connections := []; family_members := []; location_permissions := [];
     user_locations := [];
     emergency_contacts := [contact_b];
     sos_alerts := []; sos_notifications := [] |}.

Definition sos_world : World :=
  Server.run env_up (Server.boot sos_store)
    [Server.Connection "k0"; Server.Join "k0" "a"].

Definition sos_sample : Server.sos_data :=
  {| Server.sd_userId := "a"; Server.sd_latitude := Some 65244;
     Server.sd_longitude := Some 33792; Server.sd_message := None |}.

Definition request : Sos.trigger_body :=
  {| Sos.latitude := Some 65244; Sos.longitude := Some 33792;
     Sos.message := None |}.

(** The owner "a" has no emergency contact at all. *)
Definition lonely_store : Store :=
  {| users := [ada];
     user_connections := []; family_members := []; location_permissions := [];
     user_locations := []; emergency_contacts := []; sos_alerts := [];
     sos_notifications := [] |}.

(** The contact "b" of "a" is an app user with an FCM token and a phone. *)
Definition reachable_store : Store :=
  {| users := [ ada;
                {| u_id := "b"; full_name := "Bee"; phone_number := "+2348000000000";
                   fcm_token := Some "tok-b" |} ];
     user_connections := []; family_members := []; location_permissions := [];
     user_locations := [];
     emergency_contacts := [contact_b];
     sos_alerts := []; sos_notifications := [] |}.

(** The alert of "a" the dispatch examples start from. *)
Definition alert_1 : alert_row :=
  {| a_id := 1; a_user_id := "a"; a_latitude := Some 65244;
     a_longitude := Some 33792; a_message := "Help!"; a_status := Active;
     is_resolved := false; resolved_at := None; created_at := 3 |}.

Definition alerted_store : Store :=
  {| users := users reachable_store;
     user_connections := []; family_members := []; location_permissions := [];
     user_locations := [];
     emergency_contacts := [contact_b];
     sos_alerts := [alert_1]; sos_notifications := [] |}.

(** The same collaborators at time 5 (the first resolution). *)
Definition env_at_5 : Env :=
  {| fcm_ok := fun _ => true; insert_location_ok := true;
     insert_alert_ok := true; insert_notification_ok := true;
     update_alert_ok := true; now := 5 |}.

(** [alert_1] after its owner resolved it at time 5. *)
Definition resolved_world : World :=
  (Sos.resolve env_at_5 "a" 1 (Server.boot alerted_store)).2.

(** One client connects, joins as "u", joins again as "v" and
    disconnects. *)
Definition rejoined_world : World :=
  Server.run env_up (Server.boot empty_store)
    [Server.Connection "h"; Server.Join "h" "u"; Server.Join "h" "v";
     Server.Disconnect "h"].

(** "v" and "s" are members of the family "f"; they have no connection. *)
Definition family_store : Store :=
  {| users := []; user_connections := [];
     family_members := [ {| family_id := "f"; fm_user_id := "s" |};
                         {| family_id := "f"; fm_user_id := "v" |} ];
     location_permissions := [];
     user_locations := []; emergency_contacts := []; sos_alerts := [];
     sos_notifications := [] |}.

(** "v" holds an enabled grant of "s" with no expiry; they have no
    connection and no family in common. *)
Definition granted_store : Store :=
  {| users := []; user_connections := []; family_members := [];
     location_permissions :=
       [ {| lp_user_id := "s"; shared_with_user_id := Some "v";
            is_enabled := true; expires_at := None |} ];
     user_locations := []; emergency_contacts := []; sos_alerts := [];
     sos_notifications := [] |}.

(** "v" holds an enabled grant of "s" that expired at time 5; they have no
    connection and no family in common. *)
Definition expired_grant : permission_row :=
  {| lp_user_id := "s"; shared_with_user_id := Some "v"; is_enabled := true;
     expires_at := Some 5 |}.

Definition expired_store : Store :=
  {| users := []; user_connections := []; family_members := [];
     location_permissions := [expired_grant];
     user_locations := []; emergency_contacts := []; sos_alerts := [];
     sos_notifications := [] |}.

End Scenario.

(** ** backend/src/routes/auth.js: the routes that write [fcm_token] *)

Module Auth.

(** [.update({ fcm_token: t }).eq('id', userId)] on one row. *)
Definition set_token (userId : string) (t : option string) (u : user_row) : user_row :=
  if String.eqb (u_id u) userId
  then {| u_id := u_id u; full_name := full_name u;
          phone_number := phone_number u; fcm_token := t |}
  else u.

Definition map_users (f : user_row -> user_row) (s : Store) : Store :=
  {| users := List.map f (users s); user_connections := user_connections s;
     family_members := family_members s;
     location_permissions := location_permissions s;
     user_locations := user_locations s;
     emergency_contacts := emergency_contacts s;
     sos_alerts := sos_alerts s; sos_notifications := sos_notifications s |}.

(** [router.post('/update-fcm-token', ...)] for the authenticated
    [userId]; [store_ok] says whether the store accepts the update, whose
    [error] the handler tests. *)
Definition update_fcm_token (store_ok : bool) (userId : string)
    (fcmToken : option string) : M Sos.response :=
  try_catch
    (if negb (Js.truthy fcmToken)
     then mret {| Sos.status := 400; Sos.json := Sos.ErrorBody "FCM token is required" |}
     else
       _ ← (if store_ok
            then set_db (map_users (set_token userId fcmToken))
            else throw (DbError "users"));
       mret {| Sos.status := 200;
               Sos.json := Sos.MessageBody "FCM token updated successfully" |})
    (fun _ => mret {| Sos.status := 500;
                      Sos.json := Sos.ErrorBody "Failed to update FCM token" |}).

(** [router.post('/logout', ...)]: the result of the update is not
    inspected, a refused update is lost silently. *)
Definition logout (store_ok : bool) (userId : string) : M Sos.response :=
  try_catch
    (_ ← (if store_ok
          then set_db (map_users (set_token userId None))
          else mret tt);
     mret {| Sos.status := 200; Sos.json := Sos.MessageBody "Logged out successfully" |})
    (fun _ => mret {| Sos.status := 500; Sos.json := Sos.ErrorBody "Failed to logout" |}).

End Auth.

(** ** The read routes of sos.js and locations.js *)

Module Views.

(** [.order('created_at', { ascending: false })] *)
Definition newest_alert_first (a b : alert_row) : Prop := created_at b <= created_at a.

#[global] Instance newest_alert_first_dec : RelDecision newest_alert_first.
Proof. intros a b. unfold newest_alert_first. apply _. Defined.

(** [router.get('/active', ...)] of sos.js:
    [from('sos_alerts').select('*, user:users(...)').eq('status','active')
     .order('created_at', { ascending: false })].  The caller's identity is
    not read. *)
Definition active (s : Store) : list (alert_row * option user_row) :=
  List.map (fun a => (a, Query.user_by_id s (a_user_id a)))
    (merge_sort newest_alert_first
       (List.filter (fun a => bool_decide (a_status a = Active)) (sos_alerts s))).

(** The value of the [status] column. *)
Definition status_name (st : alert_status) : string :=
  match st with
  | Active => "active"
  | Resolved => "resolved"
  | FalseAlarm => "false_alarm"
  end.

(** [if (status) query = query.eq('status', status)] *)
Definition status_filter (status : option string) (a : alert_row) : bool :=
  match status with
  | Some st => if Js.truthy_str st then String.eqb (status_name (a_status a)) st else true
  | None => true
  end.

(** [router.get('/alerts', ...)] of sos.js for the authenticated [userId]:
    the caller's alerts, newest first, [limit] of them at most
    ([const { status, limit = 50 } = req.query], [limit] given parsed). *)
Definition alerts (s : Store) (userId : string) (status : option string)
    (limit : option nat) : list alert_row :=
  take (default 50%nat limit)
    (merge_sort newest_alert_first
       (List.filter (fun a => String.eqb (a_user_id a) userId && status_filter status a)
          (sos_alerts s))).

(** [.order('timestamp', { ascending: false })] *)
Definition newest_sample_first (a b : location_row) : Prop :=
  l_timestamp b <= l_timestamp a.

#[global] Instance newest_sample_first_dec : RelDecision newest_sample_first.
Proof. intros a b. unfold newest_sample_first. apply _. Defined.

(** [if (startDate) query = query.gte('timestamp', startDate)] and
    [if (endDate) query = query.lte('timestamp', endDate)] *)
Definition in_range (startDate endDate : option Z) (r : location_row) : bool :=
  match startDate with
  | Some t => bool_decide (t <= l_timestamp r)
  | None => true
  end
  && match endDate with
     | Some t => bool_decide (l_timestamp r <= t)
     | None => true
     end.

(** [router.get('/history', ...)] of locations.js for the authenticated
    [userId] ([const { startDate, endDate, limit = 100 } = req.query]). *)
Definition history (s : Store) (userId : string) (startDate endDate : option Z)
    (limit : option nat) : list location_row :=
  take (default 100%nat limit)
    (merge_sort newest_sample_first
       (List.filter (fun r => String.eqb (l_user_id r) userId
                              && in_range startDate endDate r)
          (user_locations s))).

(** The object [latestLocations] of [GET /family/:familyId], as the list
    of its entries in insertion order: what [Object.values] walks when the
    keys are user ids, which are neither array indices nor names the empty
    object inherits. *)
Definition has_key {V} (k : string) (acc : list (string * V)) : bool :=
  existsb (fun e => String.eqb e.1 k) acc.

(** [locations.forEach(loc => { if (!latestLocations[loc.user_id])
      latestLocations[loc.user_id] = {...} })] *)
Fixpoint group_first {V} (acc : list (string * V)) (rows : list (string * V))
    : list (string * V) :=
  match rows with
  | [] => acc
  | (k, v) :: rest =>
      group_first (if has_key k acc then acc else acc ++ [(k, v)])%list rest
  end.

(** [Object.values(latestLocations)] over the rows the query returned. *)
Definition latestLocations {V} (rows : list (string * V)) : list V :=
  List.map snd (group_first [] rows).

End Views.
(** ** Vocabulary of the further statements *)

(** The FCM posts among the effects. *)
Definition is_fcm (e : effect) : bool :=
  match e with
  | FcmPost _ _ _ => true
  | _ => false
  end.

(** The contact is an app user whose row carries a token that FCM
    refuses: the one case in which [Sos.sendSOSNotification] rejects for a
    known sender and an alert with coordinates. *)
Definition push_refused (env : Env) (s : Store) (c : contact_row) : bool :=
  Js.truthy (contact_user_id c)
  && match Query.user_by_opt_id s (contact_user_id c) ≫= fcm_token with
     | Some token => Js.truthy_str token && negb (fcm_ok env token)
     | None => false
     end.

(** The row [Sos.sendSOSNotification] writes in its [catch] block. *)
Definition failed_row (alert : alert_row) (c : contact_row) : notification_row :=
  {| sos_alert_id := a_id alert; recipient_user_id := contact_user_id c;
     recipient_phone := contact_phone c; recipient_email := None;
     notification_type := Sms; is_delivered := false; delivered_at := None |}.

(** The tables [resolve] has no business with. *)
Definition same_but_alerts (s s' : Store) : Prop :=
  users s' = users s
  /\ user_connections s' = user_connections s
  /\ family_members s' = family_members s
  /\ location_permissions s' = location_permissions s
  /\ user_locations s' = user_locations s
  /\ emergency_contacts s' = emergency_contacts s
  /\ sos_notifications s' = sos_notifications s.

(** The alert and user tables are the same. *)
Definition keeps_alerts_and_users (w w' : World) : Prop :=
  sos_alerts (db w') = sos_alerts (db w) /\ users (db w') = users (db w).

(** The alerts other than [alertId]. *)
Definition other_alerts (alertId : nat) (s : Store) : list alert_row :=
  List.filter (fun a => negb (Nat.eqb (a_id a) alertId)) (sos_alerts s).

(** A trace in which every client behaves as the mobile app does: a
    socket id is never reused, a socket joins once, with a non-empty user
    id, and a user joins only while absent. *)
Definition orderly_event (w : World) (ev : Server.event) : Prop :=
  match ev with
  | Server.Connection sid => sockets w !! sid = None
  | Server.Join sid userId =>
      sockets w !! sid = Some None
      /\ activeUsers w !! userId = None
      /\ Js.truthy_str userId = true
  | _ => True
  end.

Fixpoint orderly (env : Env) (w : World) (evs : list Server.event) : Prop :=
  match evs with
  | [] => True
  | ev :: rest => orderly_event w ev /\ orderly env (Server.step env w ev) rest
  end.

(** The presence map and the open sockets agree: every entry points to an
    open socket that joined as that user, and every joined socket is its
    user's entry. *)
Definition exact_presence (w : World) : Prop :=
  (forall u sid, activeUsers w !! u = Some sid ->
     sockets w !! sid = Some (Some u) /\ Js.truthy_str u = true)
  /\ (forall sid u, sockets w !! sid = Some (Some u) -> activeUsers w !! u = Some sid).

(** The events that only carry data. *)
Definition carries_data (ev : Server.event) : bool :=
  match ev with
  | Server.LocationUpdate _ _ | Server.SosAlert _ _ => true
  | _ => false
  end.

(** The error events among the effects. *)
Definition is_error (e : effect) : bool :=
  match e with
  | EmitError _ _ => true
  | _ => false
  end.

(** The row the [sos_alert] handler writes for a contact. *)
Definition delivered_row (env : Env) (alert : alert_row) (c : contact_row)
    : notification_row :=
  {| sos_alert_id := a_id alert; recipient_user_id := contact_user_id c;
     recipient_phone := contact_phone c; recipient_email := None;
     notification_type := if Js.truthy (contact_user_id c) then Push else Sms;
     is_delivered := true; delivered_at := Some (now env) |}.

(** The store with more notification rows. *)
Definition add_notifications (rs : list notification_row) (s : Store) : Store :=
  {| users := users s; user_connections := user_connections s;
     family_members := family_members s;
     location_permissions := location_permissions s;
     user_locations := user_locations s;
     emergency_contacts := emergency_contacts s;
     sos_alerts := sos_alerts s;
     sos_notifications := (sos_notifications s ++ rs)%list |}.

(** The world with another store. *)
Definition with_db (w : World) (s : Store) : World :=
  {| db := s; activeUsers := activeUsers w; sockets := sockets w; out := out w |}.

(** A contact with a phone number has an SMS among the effects. *)
Definition texted (sent : list effect) (c : contact_row) : Prop :=
  forall phone, contact_phone c = Some phone -> Js.truthy_str phone = true ->
    exists text, SmsSend phone text ∈ sent.

(** ** Further concrete worlds *)

Module Cases.

(** The app user behind [Scenario.contact_b] in [Scenario.reachable_store]. *)
Definition bee : user_row :=
  {| u_id := "b"; full_name := "Bee"; phone_number := "+2348000000000";
     fcm_token := Some "tok-b" |}.

(** [Scenario.reachable_store] with its owner "a" present on socket "k0". *)
Definition reachable_world : World :=
  Server.run Scenario.env_up (Server.boot Scenario.reachable_store)
    [Server.Connection "k0"; Server.Join "k0" "a"].

End Cases.

(** * Theorems *)

Section Frame.
Context (R : World -> World -> Prop) `{!Reflexive R, !Transitive R}.

Lemma respects_ret {A} (a : A) : respects R (mret a : M A).
Proof. intros w. reflexivity. Qed.

Lemma respects_throw {A} (e : exn) : respects R (throw e : M A).
Proof. intros w. reflexivity. Qed.

Lemma respects_bind {A B} (m : M A) (f : A -> M B) :
  respects R m -> (forall a, respects R (f a)) -> respects R (m ≫= f).
Proof.
  intros Hm Hf w. specialize (Hm w). unfold mbind, M_bind.
  destruct (m w) as [[a|e] w1]; simpl in *; [|done].
  etrans; [exact Hm | apply Hf].
Qed.

Lemma respects_try_catch {A} (m : M A) (h : exn -> M A) :
  respects R m -> (forall e, respects R (h e)) -> respects R (try_catch m h).
Proof.
  intros Hm Hh w. specialize (Hm w). unfold try_catch.
  destruct (m w) as [[a|e] w1]; simpl in *; [done|].
  etrans; [exact Hm | apply Hh].
Qed.

Lemma respects_get_db : respects R get_db.
Proof. intros w. reflexivity. Qed.

Lemma respects_get_active : respects R get_active.
Proof. intros w. reflexivity. Qed.

Lemma respects_deref {A} what (o : option A) : respects R (deref what o).
Proof. destruct o; [apply respects_ret | apply respects_throw]. Qed.

Lemma respects_settle {A} (m : M A) : respects R m -> respects R (settle m).
Proof.
  intros Hm w. specialize (Hm w). unfold settle.
  destruct (m w) as [r w1]. exact Hm.
Qed.

Lemma respects_allSettled {A} (tasks : list (M A)) :
  Forall (respects R) tasks -> respects R (allSettled tasks).
Proof.
  induction 1 as [|t rest Ht _ IH]; simpl.
  - apply respects_ret.
  - apply respects_bind; [by apply respects_settle|]. intros r.
    apply respects_bind; [exact IH|]. intros rs. apply respects_ret.
Qed.

Lemma respects_promiseAll {A} (tasks : list (M A)) :
  Forall (respects R) tasks -> respects R (promiseAll tasks).
Proof.
  intros H. unfold promiseAll. apply respects_bind.
  - by apply respects_allSettled.
  - intros rs. destruct (first_rejection rs);
      [apply respects_throw | apply respects_ret].
Qed.

Lemma respects_forEach {A} (f : A -> M unit) (l : list A) :
  (forall a, respects R (f a)) -> respects R (forEach f l).
Proof.
  intros Hf. induction l as [|x rest IH]; simpl.
  - apply respects_ret.
  - apply respects_bind; [apply Hf | intros _; exact IH].
Qed.
End Frame.

(** *** Handlers other than [join] and [disconnect] leave presence alone *)

#[global] Instance same_presence_refl : Reflexive same_presence.
Proof. by intros w. Qed.

#[global] Instance same_presence_trans : Transitive same_presence.
Proof. intros w1 w2 w3 [H1 H2] [H3 H4]. split; congruence. Qed.

Lemma presence_set_db f : respects same_presence (set_db f).
Proof. by intros w. Qed.

Lemma presence_emit e : respects same_presence (emit e).
Proof. by intros w. Qed.

Ltac frame_with prims :=
  repeat first
    [ match goal with
      | |- Reflexive _ => exact _
      | |- Transitive _ => exact _
      | |- forall _, _ => intro
      | |- respects _ (match ?x with _ => _ end) => destruct x
      end
    | apply respects_ret | apply respects_throw | apply respects_get_db
    | apply respects_get_active | apply respects_deref | prims
    | apply respects_bind | apply respects_try_catch | apply respects_settle
    | apply respects_forEach | apply respects_promiseAll
    | apply respects_allSettled
    | apply List.Forall_map, List.Forall_forall ].

Ltac presence_frame :=
  frame_with ltac:(first [apply presence_set_db | apply presence_emit]).

Lemma presence_insert_notification env r :
  respects same_presence (Db.insert_notification env r).
Proof. unfold Db.insert_notification. presence_frame. Qed.

Lemma presence_location_update env sid data :
  respects same_presence (Server.location_update env sid data).
Proof.
  unfold Server.location_update, Db.insert_location, Server.push_location.
  presence_frame.
Qed.

Lemma presence_sos_alert env sid data :
  respects same_presence (Server.sos_alert env sid data).
Proof.
  unfold Server.sos_alert, Db.insert_alert, Server.notify_contact,
    Server.push_sos, Server.fcm_sos, Server.sendFCMNotification,
    Server.post_fcm, Server.sendSMS, Db.insert_notification.
  presence_frame.
Qed.

(** *** The presence registry *)

Lemma step_lookup_other env w ev u :
  (forall sid, ev <> Server.Join sid u) ->
  Server.lookup w u = None ->
  Server.lookup (Server.step env w ev) u = None.
Proof.
  intros Hev Hw. unfold Server.lookup in *.
  assert (Hframe : forall m : M unit,
             respects same_presence m -> activeUsers (m w).2 !! u = None).
  { intros m Hm. destruct (Hm w) as [-> _]. exact Hw. }
  destruct ev as [sid|sid v|sid data|sid data|sid]; simpl;
    try case_decide; simpl; try exact Hw.
  - rewrite lookup_insert_ne; [exact Hw|]. intros ->. by apply (Hev sid).
  - by apply Hframe, presence_location_update.
  - by apply Hframe, presence_sos_alert.
  - destruct (sockets w !! sid ≫= id) as [v|]; [|exact Hw].
    destruct (Js.truthy_str v); [|exact Hw].
    rewrite lookup_delete. case_decide; [done | exact Hw].
Qed.

Lemma run_lookup_never_joined env evs w u :
  (forall sid, Server.Join sid u ∉ evs) ->
  Server.lookup w u = None ->
  Server.lookup (Server.run env w evs) u = None.
Proof.
  revert w. induction evs as [|ev evs IH]; intros w Hevs Hw; [exact Hw|].
  simpl. apply IH.
  - intros sid Hin. apply (Hevs sid). by right.
  - apply step_lookup_other; [|exact Hw].
    intros sid ->. apply (Hevs sid). by left.
Qed.

Lemma step_join_open env w sid u :
  is_Some (sockets w !! sid) ->
  Server.step env w (Server.Join sid u) = (Server.join sid u w).2.
Proof. intros H. simpl. by rewrite decide_True. Qed.

(** C7, as stated, fails: a client connects, joins as "u", joins again as
    "v" and disconnects.  No socket is open any more, yet the registry
    still maps "u" to the closed socket "h": the [disconnect] handler
    deletes the entry of the socket's latest [userId] only. *)
Lemma rejoined_socket_leaves_stale_entry :
  ~ absent_without_connection Scenario.rejoined_world.
Proof.
  intros H.
  assert (Hstale : Server.lookup Scenario.rejoined_world "u" = Some "h")
    by (vm_compute; reflexivity).
  rewrite (H "u") in Hstale; [discriminate|].
  intros sid. replace (sockets Scenario.rejoined_world) with (∅ : gmap string (option string))
    by (vm_compute; reflexivity).
  by rewrite lookup_empty.
Qed.

(** C7, amended.  A user that never joined since start-up is absent from
    the registry, and a user becomes absent when a socket whose current
    [userId] is that user disconnects, while the disconnect of any other
    socket (one that joined as that user before its latest join included)
    leaves the user's entry as it is; a join on an open socket [h] makes
    the lookup return [h]; a later join of the same user on another open
    socket [h2] makes it return [h2] and no longer [h], while socket [h]
    stays open and keeps its [userId]: the registry neither closes nor
    untags it. *)
Theorem presence_latest_join_wins env s evs w u h h2 :
  (forall sid, Server.Join sid u ∉ evs) ->
  is_Some (sockets w !! h) ->
  is_Some (sockets w !! h2) ->
  h <> h2 ->
  Server.lookup (Server.run env (Server.boot s) evs) u = None
  /\ (forall w0 k,
        sockets w0 !! k = Some (Some u) ->
        Js.truthy_str u = true ->
        Server.lookup (Server.step env w0 (Server.Disconnect k)) u = None)
  /\ (forall w0 k,
        sockets w0 !! k <> Some (Some u) ->
        Server.lookup (Server.step env w0 (Server.Disconnect k)) u
        = Server.lookup w0 u)
  /\ Server.lookup (Server.run env w [Server.Join h u]) u = Some h
  /\ Server.lookup (Server.run env w [Server.Join h u; Server.Join h2 u]) u = Some h2
  /\ Server.lookup (Server.run env w [Server.Join h u; Server.Join h2 u]) u <> Some h
  /\ sockets (Server.run env w [Server.Join h u; Server.Join h2 u]) !! h = Some (Some u).
Proof.
  intros Hevs Hh Hh2 Hne.
  split; [by apply run_lookup_never_joined|].
  split.
  { intros w0 k Hk Hu.
    unfold Server.step, Server.handler, Server.socket_of, Server.lookup.
    rewrite decide_True by (rewrite Hk; eauto).
    simpl. rewrite Hk. simpl. rewrite Hu.
    by rewrite lookup_delete_eq. }
  split.
  { intros w0 k Hk.
    unfold Server.step, Server.handler, Server.socket_of, Server.lookup.
    case_decide as Hopen; [|done]. simpl.
    destruct (sockets w0 !! k) as [[v|]|]; simpl; try done.
    destruct (Js.truthy_str v); [|done].
    rewrite lookup_delete_ne; [done|]. intros ->. by apply Hk. }
  unfold Server.run. cbn [foldl].
  rewrite (step_join_open env w h u Hh).
  assert (Hopen : is_Some (sockets (Server.join h u w).2 !! h2)).
  { simpl. by rewrite lookup_insert_ne. }
  rewrite (step_join_open env _ h2 u Hopen).
  unfold Server.lookup. simpl.
  rewrite !lookup_insert_eq.
  rewrite lookup_insert_ne by congruence. rewrite lookup_insert_eq.
  repeat split; congruence.
Qed.

Lemma presence_latest_join_wins_witness :
  (forall sid, Server.Join sid "alice" ∉
                 [Server.Connection "h1"; Server.Join "h1" "bob"])
  /\ is_Some (sockets Scenario.two_sockets !! "h1")
  /\ is_Some (sockets Scenario.two_sockets !! "h2")
  /\ "h1" <> "h2"
  /\ Server.lookup
       (Server.run Scenario.env_up (Server.boot empty_store)
          [Server.Connection "h1"; Server.Join "h1" "bob"]) "alice" = None
  /\ Server.lookup
       (Server.step Scenario.env_up
          (Server.run Scenario.env_up Scenario.two_sockets [Server.Join "h1" "alice"])
          (Server.Disconnect "h1")) "alice" = None
  /\ Server.lookup
       (Server.step Scenario.env_up
          (Server.run Scenario.env_up Scenario.two_sockets
             [Server.Join "h1" "alice"; Server.Join "h1" "bob"])
          (Server.Disconnect "h1")) "alice" = Some "h1"
  /\ Server.lookup
       (Server.run Scenario.env_up Scenario.two_sockets
          [Server.Join "h1" "alice"; Server.Join "h2" "alice"]) "alice" = Some "h2".
Proof.
  assert (H1 : forall sid, Server.Join sid "alice" ∉
                 [Server.Connection "h1"; Server.Join "h1" "bob"]).
  { intros sid Hin.
    repeat (apply elem_of_cons in Hin as [Hin|Hin]; [discriminate|]).
    by apply elem_of_nil in Hin. }
  assert (H2 : is_Some (sockets Scenario.two_sockets !! "h1")) by (vm_compute; eauto).
  assert (H3 : is_Some (sockets Scenario.two_sockets !! "h2")) by (vm_compute; eauto).
  assert (H4 : "h1" <> "h2") by discriminate.
  assert (H5 : sockets (Server.run Scenario.env_up Scenario.two_sockets
                          [Server.Join "h1" "alice"]) !! "h1" = Some (Some "alice"))
    by (vm_compute; reflexivity).
  assert (H6 : Js.truthy_str "alice" = true) by reflexivity.
  assert (H7 : sockets (Server.run Scenario.env_up Scenario.two_sockets
                          [Server.Join "h1" "alice"; Server.Join "h1" "bob"]) !! "h1"
               <> Some (Some "alice"))
    by (vm_compute; discriminate).
  assert (H8 : Server.lookup
                 (Server.run Scenario.env_up Scenario.two_sockets
                    [Server.Join "h1" "alice"; Server.Join "h1" "bob"]) "alice"
               = Some "h1")
    by (vm_compute; reflexivity).
  destruct (presence_latest_join_wins Scenario.env_up empty_store
              [Server.Connection "h1"; Server.Join "h1" "bob"]
              Scenario.two_sockets "alice" "h1" "h2" H1 H2 H3 H4)
    as (R1 & R2 & R2' & _ & R3 & _).
  exact (conj H1 (conj H2 (conj H3 (conj H4 (conj R1
           (conj (R2 _ "h1" H5 H6)
              (conj (eq_trans (R2' _ "h1" H7) H8) R3))))))).
Defined.

(** C8.  A user joins on socket [h1] and then again on socket [h2]; when
    the stale socket [h1] disconnects, the handler deletes the entry of
    its [userId], so the lookup returns absent although [h2] is still open
    and still carries the user. *)
Theorem stale_disconnect_clears_presence env w u h1 h2 :
  is_Some (sockets w !! h1) ->
  is_Some (sockets w !! h2) ->
  h1 <> h2 ->
  Js.truthy_str u = true ->
  let w' := Server.run env w
              [Server.Join h1 u; Server.Join h2 u; Server.Disconnect h1] in
  Server.lookup w' u = None
  /\ sockets w' !! h2 = Some (Some u)
  /\ sockets w' !! h1 = None.
Proof.
  intros Hh1 Hh2 Hne Hu. unfold Server.run. cbn [foldl].
  rewrite (step_join_open env w h1 u Hh1).
  assert (Hopen : is_Some (sockets (Server.join h1 u w).2 !! h2)).
  { simpl. by rewrite lookup_insert_ne. }
  rewrite (step_join_open env _ h2 u Hopen).
  unfold Server.step, Server.handler, Server.socket_of, Server.lookup.
  rewrite decide_True; last first.
  { simpl. rewrite lookup_insert_ne by congruence. rewrite lookup_insert_eq. eauto. }
  simpl. rewrite lookup_insert_ne by congruence. rewrite lookup_insert_eq. simpl.
  rewrite Hu. rewrite lookup_delete_eq.
  rewrite lookup_delete_ne by congruence. rewrite lookup_insert_eq.
  rewrite lookup_delete_eq. done.
Qed.

Lemma stale_disconnect_clears_presence_witness :
  is_Some (sockets Scenario.two_sockets !! "h1")
  /\ is_Some (sockets Scenario.two_sockets !! "h2")
  /\ "h1" <> "h2"
  /\ Js.truthy_str "alice" = true
  /\ Server.lookup
       (Server.run Scenario.env_up Scenario.two_sockets
          [Server.Join "h1" "alice"; Server.Join "h2" "alice";
           Server.Disconnect "h1"]) "alice" = None.
Proof.
  assert (H1 : is_Some (sockets Scenario.two_sockets !! "h1")) by (vm_compute; eauto).
  assert (H2 : is_Some (sockets Scenario.two_sockets !! "h2")) by (vm_compute; eauto).
  assert (H3 : "h1" <> "h2") by discriminate.
  assert (H4 : Js.truthy_str "alice" = true) by reflexivity.
  exact (conj H1 (conj H2 (conj H3 (conj H4
           (proj1 (stale_disconnect_clears_presence Scenario.env_up
                     Scenario.two_sockets "alice" "h1" "h2" H1 H2 H3 H4)))))).
Defined.

(** *** The location router *)

Lemma with_out_nil w : with_out w [] = w.
Proof. destruct w. unfold with_out. simpl. by rewrite app_nil_r. Qed.

Lemma with_out_app w l1 l2 : with_out (with_out w l1) l2 = with_out w (l1 ++ l2)%list.
Proof. unfold with_out. simpl. by rewrite app_assoc. Qed.

Lemma forEach_push_location payload perms w :
  exists sent,
    forEach (Server.push_location payload) perms w = (Ok tt, with_out w sent)
    /\ forall e,
         e ∈ sent <->
         exists perm viewer target,
           perm ∈ perms
           /\ shared_with_user_id perm = Some viewer
           /\ activeUsers w !! viewer = Some target
           /\ Js.truthy_str target = true
           /\ e = EmitLocationUpdated target payload.
Proof.
  revert w. induction perms as [|p rest IH]; intros w.
  - exists []. split; [by rewrite with_out_nil|].
    intros e. split; [by intros ?%elem_of_nil|].
    intros (perm & _ & _ & Hin & _). by apply elem_of_nil in Hin.
  - pose (hit := match shared_with_user_id p with
                  | Some v =>
                      match activeUsers w !! v with
                      | Some t => if Js.truthy_str t then Some t else None
                      | None => None
                      end
                  | None => None
                  end).
    pose (now_sent := match hit with
                      | Some t => [EmitLocationUpdated t payload]
                      | None => []
                      end).
    assert (Hhead : Server.push_location payload p w = (Ok tt, with_out w now_sent)).
    { unfold Server.push_location, now_sent, hit, mbind at 1, M_bind, get_active.
      simpl. destruct (shared_with_user_id p) as [v|]; simpl;
        [|by rewrite with_out_nil].
      destruct (activeUsers w !! v) as [t|]; simpl; [|by rewrite with_out_nil].
      destruct (Js.truthy_str t); simpl; [done | by rewrite with_out_nil]. }
    destruct (IH (with_out w now_sent)) as (sent & Hrun & Hsent).
    exists (now_sent ++ sent)%list. split.
    + cbn [forEach]. unfold mbind at 1, M_bind. rewrite Hhead, Hrun.
      by rewrite with_out_app.
    + intros e. rewrite elem_of_app, Hsent. simpl. split.
      * intros [Hnow | (perm & v & t & Hin & H1 & H2 & H3 & H4)].
        -- unfold now_sent, hit in Hnow.
           destruct (shared_with_user_id p) as [v|] eqn:Hv; simpl in Hnow;
             [|by apply elem_of_nil in Hnow].
           destruct (activeUsers w !! v) as [t|] eqn:Ht; simpl in Hnow;
             [|by apply elem_of_nil in Hnow].
           destruct (Js.truthy_str t) eqn:Htt; simpl in Hnow;
             [|by apply elem_of_nil in Hnow].
           apply list_elem_of_singleton in Hnow.
           exists p, v, t. repeat split; try done. by left.
        -- exists perm, v, t. repeat split; try done. by right.
      * intros (perm & v & t & Hin & H1 & H2 & H3 & H4).
        apply elem_of_cons in Hin as [-> | Hin].
        -- left. unfold now_sent, hit. rewrite H1. simpl. rewrite H2. simpl.
           rewrite H3. rewrite H4. by apply list_elem_of_singleton.
        -- right. exists perm, v, t. done.
Qed.

Lemma location_update_accepted env data w :
  insert_location_ok env = true ->
  exists sent,
    (forall sid,
       Server.location_update env sid data w
       = (Ok tt, with_out {| db := Db.add_location (row_of env data) (db w);
                             activeUsers := activeUsers w; sockets := sockets w;
                             out := out w |} sent))
    /\ forall e,
         e ∈ sent <->
         exists perm viewer target,
           perm ∈ Server.enabled_permissions (db w) (Server.ld_userId data)
           /\ shared_with_user_id perm = Some viewer
           /\ activeUsers w !! viewer = Some target
           /\ Js.truthy_str target = true
           /\ e = EmitLocationUpdated target (payload_of env data).
Proof.
  intros Hok.
  set (w1 := {| db := Db.add_location (row_of env data) (db w);
                activeUsers := activeUsers w; sockets := sockets w;
                out := out w |}).
  destruct (forEach_push_location (payload_of env data)
              (Server.enabled_permissions (db w) (Server.ld_userId data)) w1)
    as (sent & Hrun & Hsent).
  exists sent. split; [|exact Hsent]. intros sid.
  unfold Server.location_update, try_catch, Db.insert_location.
  rewrite Hok. unfold mbind, M_bind, set_db, get_db, mret, M_ret. cbn beta iota.
  match goal with
  | |- (let (_, _) := ?X in _) = _ =>
      change X with
        (forEach (Server.push_location (payload_of env data))
           (Server.enabled_permissions (db w) (Server.ld_userId data)) w1)
  end.
  by rewrite Hrun.
Qed.

Lemma location_update_refused env sid data w :
  insert_location_ok env = false ->
  Server.location_update env sid data w
  = (Ok tt, with_out w [EmitError sid "Failed to update location"]).
Proof.
  intros Hno. unfold Server.location_update, try_catch, Db.insert_location.
  rewrite Hno. reflexivity.
Qed.

Lemma enabled_permissions_spec s userId perm :
  perm ∈ Server.enabled_permissions s userId
  <-> perm ∈ location_permissions s /\ lp_user_id perm = userId
      /\ is_enabled perm = true.
Proof.
  unfold Server.enabled_permissions.
  rewrite list_elem_of_In, List.filter_In, <- list_elem_of_In.
  rewrite andb_true_iff, String.eqb_eq. tauto.
Qed.

(** C9.  The [location_update] handler never looks at the socket it runs
    on, nor at the user that joined on it.  When the store accepts the
    sample, the row it persists carries the [userId] of the payload, and the
    broadcasts of the run are exactly one [location_updated] event, again
    under the [userId] of the payload, to the live socket of every viewer
    that an enabled permission row of that user names; when the store
    refuses it, nothing is persisted or broadcast.  So for any two sockets
    the same payload leaves the same store and the same broadcasts. *)
Theorem location_update_trusts_payload env w sid1 sid2 data :
  let w1 := (Server.location_update env sid1 data w).2 in
  let w2 := (Server.location_update env sid2 data w).2 in
  db w1 = db w2
  /\ broadcasts (added (out w) (out w1)) = broadcasts (added (out w) (out w2))
  /\ user_locations (db w1)
     = (if insert_location_ok env
        then user_locations (db w)
             ++ [ {| l_user_id := Server.ld_userId data;
                     l_latitude := Server.ld_latitude data;
                     l_longitude := Server.ld_longitude data;
                     l_accuracy := Server.ld_accuracy data;
                     l_altitude := Server.ld_altitude data;
                     l_speed := Server.ld_speed data;
                     l_heading := Server.ld_heading data;
                     l_timestamp := now env |} ]
        else user_locations (db w))%list
  /\ forall e,
       e ∈ broadcasts (added (out w) (out w1))
       <-> insert_location_ok env = true
           /\ exists perm viewer target,
                perm ∈ location_permissions (db w)
                /\ lp_user_id perm = Server.ld_userId data
                /\ is_enabled perm = true
                /\ shared_with_user_id perm = Some viewer
                /\ Server.lookup w viewer = Some target
                /\ Js.truthy_str target = true
                /\ e = EmitLocationUpdated target
                         {| lu_userId := Server.ld_userId data;
                            lu_latitude := Server.ld_latitude data;
                            lu_longitude := Server.ld_longitude data;
                            lu_accuracy := Server.ld_accuracy data;
                            lu_timestamp := now env |}.
Proof.
  cbv zeta.
  assert (Hsock : db (Server.location_update env sid1 data w).2
                  = db (Server.location_update env sid2 data w).2
                  /\ broadcasts (added (out w) (out (Server.location_update env sid1 data w).2))
                     = broadcasts (added (out w)
                                     (out (Server.location_update env sid2 data w).2))).
  { destruct (insert_location_ok env) eqn:Hok.
    - destruct (location_update_accepted env data w Hok) as (sent & E & _).
      by rewrite !E.
    - rewrite !(location_update_refused env _ data w Hok).
      unfold added, with_out. simpl. by rewrite !drop_app_length. }
  destruct Hsock as [Hdb Hout]. split; [exact Hdb|]. split; [exact Hout|].
  destruct (insert_location_ok env) eqn:Hok.
  - destruct (location_update_accepted env data w Hok) as (sent & E & Hsent).
    rewrite E. split; [reflexivity|]. intros e.
    unfold added, with_out, broadcasts. simpl. rewrite drop_app_length.
    rewrite list_elem_of_In, List.filter_In, <- list_elem_of_In, Hsent.
    unfold Server.lookup, payload_of. split.
    + intros [(perm & v & t & Hin & H1 & H2 & H3 & H4) _].
      apply enabled_permissions_spec in Hin as (Hin & Hu & He).
      split; [done|]. by exists perm, v, t.
    + intros [_ (perm & v & t & Hin & Hu & He & H1 & H2 & H3 & H4)].
      split; [|by rewrite H4].
      exists perm, v, t. repeat split; try done.
      by apply enabled_permissions_spec.
  - rewrite (location_update_refused env sid1 data w Hok).
    split; [reflexivity|]. intros e.
    unfold added, with_out, broadcasts. simpl. rewrite drop_app_length. simpl.
    split; [by intros ?%elem_of_nil | by intros [? _]].
Qed.

(** Socket "k1" joined as "v1"; it sends a sample that names "s".  The row
    is stored under "s" and broadcast to the viewer of "s" on "k2". *)
Lemma forged_sample_is_accepted :
  let w' := (Server.location_update Scenario.env_up "k1" Scenario.sample
               Scenario.shared_world).2 in
  sockets Scenario.shared_world !! "k1" = Some (Some "v1")
  /\ List.map l_user_id (user_locations (db w')) = ["s"]
  /\ added (out Scenario.shared_world) (out w')
     = [EmitLocationUpdated "k2" (payload_of Scenario.env_up Scenario.sample)].
Proof. repeat split; vm_compute; reflexivity. Qed.




(** *** The authorization resolver *)

Lemma single_Some {A} (l : list A) (x : A) : Query.single l = Some x -> l = [x].
Proof. destruct l as [|y [|z l]]; simpl; congruence. Qed.

Lemma single_is_Some {A} (l : list A) :
  is_Some (Query.single l) <-> exists x, l = [x].
Proof.
  split.
  - intros [x Hx]. exists x. by apply single_Some.
  - intros [x ->]. by eexists.
Qed.

Lemma accepted_between_comm a b c :
  Locations.accepted_between a b c = Locations.accepted_between b a c.
Proof. unfold Locations.accepted_between. f_equal. apply orb_comm. Qed.

(** What [checkLocationPermission] does: it answers [true] for the user
    themself and for a pair that exactly one accepted connection row links
    (the connection is read with [.single()]); for every other pair it
    rejects where the family query is put together.  It changes nothing. *)
Lemma checkLocationPermission_run requesterId targetUserId w :
  Locations.checkLocationPermission requesterId targetUserId w
  = (if String.eqb requesterId targetUserId
        || bool_decide
             (is_Some (Query.single
                         (List.filter
                            (Locations.accepted_between requesterId targetUserId)
                            (user_connections (db w)))))
     then Ok true
     else Throw (TypeError "values"), w).
Proof.
  unfold Locations.checkLocationPermission.
  destruct (String.eqb requesterId targetUserId); [reflexivity|].
  unfold mbind, M_bind, get_db. cbn beta iota.
  by case_bool_decide.
Qed.

(** C5.  "v" asks for "s".  Whether the two share the family "f", or "v"
    holds an enabled grant of "s" with no expiry, or the grant of "v"
    expired at time 5, or nothing relates them: with no accepted connection
    between them [checkLocationPermission] rejects with the [TypeError] of
    the family query.  It answers neither [true] nor [false]; the family
    rule and the permission rule never decide. *)
Theorem resolver_rejects_at_family_query :
  let ask s := (Locations.checkLocationPermission "v" "s" (Server.boot s)).1 in
  family_members Scenario.family_store
  = [ {| family_id := "f"; fm_user_id := "s" |};
      {| family_id := "f"; fm_user_id := "v" |} ]
  /\ ask Scenario.family_store = Throw (TypeError "values")
  /\ ask Scenario.granted_store = Throw (TypeError "values")
  /\ location_permissions Scenario.expired_store = [Scenario.expired_grant]
  /\ ask Scenario.expired_store = Throw (TypeError "values")
  /\ ask empty_store = Throw (TypeError "values").
Proof. repeat split; vm_compute; reflexivity. Qed.

(** *** SOS dispatch over HTTP *)

(** C1.  The owner "a" has no emergency contact.  The trigger answers 400
    with the no-contacts message, but the alert row was inserted before
    the contacts were read and stays in the store, active. *)
Theorem trigger_without_contacts_leaves_alert :
  let run := Sos.trigger Scenario.env_up "a" Scenario.request
               (Server.boot Scenario.lonely_store) in
  Query.contacts_of Scenario.lonely_store "a" = []
  /\ run.1 = Ok Sos.no_contacts
  /\ sos_alerts (db run.2)
     = [ {| a_id := 1; a_user_id := "a"; a_latitude := Some 65244;
            a_longitude := Some 33792;
            a_message := "EMERGENCY! Ada needs help!";
            a_status := Active; is_resolved := false; resolved_at := None;
            created_at := 9 |} ].
Proof. repeat split; vm_compute; reflexivity. Qed.

(** The general form of C1's failing run: whenever the alert insert is
    accepted and the owner has no contact, the answer is the no-contacts
    rejection and the store holds one more alert, active. *)
Lemma trigger_rejects_after_insert env w userId req u :
  Js.truthy_num (Sos.latitude req) = true ->
  Js.truthy_num (Sos.longitude req) = true ->
  Query.user_by_id (db w) userId = Some u ->
  insert_alert_ok env = true ->
  Query.contacts_of (db w) userId = [] ->
  exists alert w2,
    Sos.trigger env userId req w = (Ok Sos.no_contacts, w2)
    /\ sos_alerts (db w2) = (sos_alerts (db w) ++ [alert])%list
    /\ a_user_id alert = userId
    /\ a_status alert = Active.
Proof.
  intros Hlat Hlon Hu Halert Hnone.
  unfold Sos.trigger, try_catch, Db.insert_alert.
  rewrite Hlat, Hlon, Halert. cbn [negb orb].
  unfold mbind at 1, M_bind at 1, get_db at 1. cbn beta iota. rewrite Hu.
  assert (Htext : exists text,
             (match Sos.message req with
              | Some m =>
                  if Js.truthy_str m then mret m
                  else u0 ← deref "user" (Some u);
                       mret ("EMERGENCY! " ++ full_name u0 ++ " needs help!")
              | None => u0 ← deref "user" (Some u);
                        mret ("EMERGENCY! " ++ full_name u0 ++ " needs help!")
              end : M string) w = (Ok text, w)).
  { destruct (Sos.message req) as [m|]; [destruct (Js.truthy_str m)|]; eauto. }
  destruct Htext as (text & Htext).
  unfold mbind at 1, M_bind at 1. rewrite Htext.
  unfold mbind, M_bind, get_db, set_db, mret, M_ret. cbn beta iota.
  set (alert := {| a_id := Db.fresh_alert_id (db w); a_user_id := userId;
                   a_latitude := Sos.latitude req; a_longitude := Sos.longitude req;
                   a_message := text; a_status := Active; is_resolved := false;
                   resolved_at := None; created_at := now env |}).
  set (w1 := {| db := Db.add_alert alert (db w); activeUsers := activeUsers w;
                sockets := sockets w; out := out w |}).
  change (Query.contacts_of (db w1) userId) with (Query.contacts_of (db w) userId).
  rewrite Hnone. simpl. by exists alert, w1.
Qed.

(** C2.  The contact has a token and a phone.  With FCM unreachable the
    post throws, control leaves the [try] before the SMS step: one attempt
    only, no SMS, a failed row of type [sms], and the promise rejects.
    With FCM reachable the same contact gets the push and the SMS. *)
Theorem failed_push_skips_sms :
  let down := Sos.sendSOSNotification Scenario.env_fcm_down Scenario.contact_b
                (Query.user_by_id Scenario.alerted_store "a") Scenario.alert_1
                (Server.boot Scenario.alerted_store) in
  let up := Sos.sendSOSNotification Scenario.env_up Scenario.contact_b
              (Query.user_by_id Scenario.alerted_store "a") Scenario.alert_1
              (Server.boot Scenario.alerted_store) in
  Js.truthy (contact_phone Scenario.contact_b) = true
  /\ List.filter is_attempt (out down.2) = [FcmPost "tok-b" "SOS ALERT" "Ada needs help!"]
  /\ List.filter is_sms (out down.2) = []
  /\ down.1 = Throw (NetworkError "https://fcm.googleapis.com/fcm/send")
  /\ sos_notifications (db down.2)
     = [ {| sos_alert_id := 1; recipient_user_id := Some "b";
            recipient_phone := Some "+2348000000000"; recipient_email := None;
            notification_type := Sms; is_delivered := false;
            delivered_at := None |} ]
  /\ length (List.filter is_attempt (out up.2)) = 2%nat
  /\ length (List.filter is_sms (out up.2)) = 1%nat.
Proof. repeat split; vm_compute; reflexivity. Qed.

Lemma push_step_refused env c u alert l w cu token :
  Js.truthy (contact_user_id c) = true ->
  Query.user_by_opt_id (db w) (contact_user_id c) = Some cu ->
  fcm_token cu = Some token ->
  Js.truthy_str token = true ->
  fcm_ok env token = false ->
  exists e sent,
    Sos.push_step env c u alert l w = (Throw e, with_out w sent)
    /\ List.filter is_sms sent = [].
Proof.
  intros Hc Hcu Htok Htruthy Hdown.
  unfold Sos.push_step. rewrite Hc.
  unfold mbind at 1, M_bind at 1, get_db. cbn beta iota.
  rewrite Hcu. simpl. rewrite Htok, Htruthy.
  unfold Sos.sendFCMNotification. rewrite Hdown.
  destruct (a_latitude alert) as [lat|];
    [|exists (TypeError "alert.latitude"), []; by rewrite with_out_nil].
  destruct (a_longitude alert) as [lon|];
    [|exists (TypeError "alert.longitude"), []; by rewrite with_out_nil].
  eexists _, [_]. split; reflexivity.
Qed.

(** The general form of C2's failing run: a contact whose user row carries
    a token that FCM refuses gets no SMS, phone or not, and its promise
    rejects. *)
Lemma refused_push_sends_no_sms env c u alert w cu token :
  Js.truthy (contact_user_id c) = true ->
  Query.user_by_opt_id (db w) (contact_user_id c) = Some cu ->
  fcm_token cu = Some token ->
  Js.truthy_str token = true ->
  fcm_ok env token = false ->
  exists e w2,
    Sos.sendSOSNotification env c (Some u) alert w = (Throw e, w2)
    /\ List.filter is_sms (added (out w) (out w2)) = [].
Proof.
  intros Hc Hcu Htok Htruthy Hdown.
  destruct (push_step_refused env c u alert
              {| Sos.notificationType := Sms; Sos.isDelivered := false |}
              w cu token Hc Hcu Htok Htruthy Hdown) as (e & sent & Hrun & Hsms).
  unfold Sos.sendSOSNotification, try_catch.
  unfold deref at 1, mbind at 1, M_bind at 1, mret at 1, M_ret at 1.
  cbn beta iota.
  unfold mbind at 1, M_bind at 1. rewrite Hrun.
  unfold Db.insert_notification.
  destruct (insert_notification_ok env);
    unfold mbind, M_bind, set_db, throw, mret, M_ret; cbn beta iota;
    eexists e, _; (split; [reflexivity|]);
    unfold added; simpl; by rewrite drop_app_length.
Qed.

(** C6, as stated, fails: the single contact of "a" is reached over FCM
    and over SMS, two attempted channels, and gets one row. *)
Lemma two_attempts_one_record :
  ~ one_record_per_attempt Scenario.env_up (Server.boot Scenario.reachable_store)
      "a" Scenario.request.
Proof. unfold one_record_per_attempt. vm_compute. discriminate. Qed.

Lemma sendSOSNotification_one_row env c u alert w :
  insert_notification_ok env = true ->
  exists rec,
    sos_notifications (db (Sos.sendSOSNotification env c (Some u) alert w).2)
    = (sos_notifications (db w) ++ [rec])%list
    /\ sos_alert_id rec = a_id alert
    /\ recipient_user_id rec = contact_user_id c
    /\ recipient_phone rec = contact_phone c.
Proof.
  intros Hok.
  unfold Sos.sendSOSNotification, Sos.push_step, Sos.sms_step,
    Sos.sendFCMNotification, Sos.sendSMS, Db.insert_notification, try_catch,
    deref, throw, emit, set_db, get_db.
  rewrite Hok. unfold mbind, M_bind, mret, M_ret. cbn beta iota.
  repeat match goal with
         | |- context [match ?x with _ => _ end] =>
             lazymatch x with
             | context [match _ with _ => _ end] => fail
             | _ => destruct x eqn:?
             end; cbn beta iota
         end.
  all: simpl; eexists; repeat split; reflexivity.
Qed.

Lemma allSettled_cons {A} (t : M A) (rest : list (M A)) w :
  allSettled (t :: rest) w
  = match allSettled rest (t w).2 with
    | (Ok rs, w2) => (Ok ((t w).1 :: rs), w2)
    | (Throw e, w2) => (Throw e, w2)
    end.
Proof.
  cbn [allSettled]. unfold mbind, M_bind, settle.
  destruct (t w) as [r w1]. simpl.
  by destruct (allSettled rest w1) as [[rs|e] w2].
Qed.

Lemma allSettled_send env u alert contacts w :
  insert_notification_ok env = true ->
  exists rs recs,
    (allSettled (List.map (fun c => Sos.sendSOSNotification env c (Some u) alert)
                   contacts) w).1 = Ok rs
    /\ length rs = length contacts
    /\ sos_notifications
         (db (allSettled (List.map (fun c => Sos.sendSOSNotification env c (Some u) alert)
                            contacts) w).2)
       = (sos_notifications (db w) ++ recs)%list
    /\ Forall2 (record_of_contact (a_id alert)) recs contacts.
Proof.
  intros Hok. revert w. induction contacts as [|c rest IH]; intros w.
  - exists [], []. simpl. rewrite app_nil_r. repeat split. constructor.
  - destruct (sendSOSNotification_one_row env c u alert w Hok)
      as (rec & Hrec & Hid & Hu & Hp).
    destruct (IH (Sos.sendSOSNotification env c (Some u) alert w).2)
      as (rs & recs & Hrs & Hlen & Hnotes & Hall).
    cbn [List.map]. rewrite allSettled_cons.
    destruct (allSettled _ (Sos.sendSOSNotification env c (Some u) alert w).2)
      as [[rs'|e] w2]; simpl in Hrs; [|discriminate].
    injection Hrs as ->. simpl in Hnotes.
    exists ((Sos.sendSOSNotification env c (Some u) alert w).1 :: rs), (rec :: recs).
    simpl. repeat split.
    + by rewrite Hlen.
    + rewrite Hnotes, Hrec. by rewrite <- app_assoc.
    + by constructor.
Qed.

Lemma trigger_dispatches env w userId req u :
  Js.truthy_num (Sos.latitude req) = true ->
  Js.truthy_num (Sos.longitude req) = true ->
  Query.user_by_id (db w) userId = Some u ->
  insert_alert_ok env = true ->
  insert_notification_ok env = true ->
  (1 <= length (Query.contacts_of (db w) userId))%nat ->
  exists alert text (rs : list (outcome Sos.sent)) recs w2,
    Sos.trigger env userId req w
    = (Ok {| Sos.status := 200;
             Sos.json := Sos.TriggerBody (a_id alert) text
                           (length (List.filter Sos.fulfilled rs))
                           (length (Query.contacts_of (db w) userId)) alert |}, w2)
    /\ length rs = length (Query.contacts_of (db w) userId)
    /\ sos_notifications (db w2) = (sos_notifications (db w) ++ recs)%list
    /\ Forall2 (record_of_contact (a_id alert)) recs
         (Query.contacts_of (db w) userId).
Proof.
  intros Hlat Hlon Hu Halert Hnote Hn.
  unfold Sos.trigger, try_catch, Db.insert_alert.
  rewrite Hlat, Hlon, Halert. cbn [negb orb].
  unfold mbind at 1, M_bind at 1, get_db at 1. cbn beta iota. rewrite Hu.
  assert (Htext : exists text,
             (match Sos.message req with
              | Some m =>
                  if Js.truthy_str m then mret m
                  else u0 ← deref "user" (Some u);
                       mret ("EMERGENCY! " ++ full_name u0 ++ " needs help!")
              | None => u0 ← deref "user" (Some u);
                        mret ("EMERGENCY! " ++ full_name u0 ++ " needs help!")
              end : M string) w = (Ok text, w)).
  { destruct (Sos.message req) as [m|]; [destruct (Js.truthy_str m)|]; eauto. }
  destruct Htext as (text & Htext).
  unfold mbind at 1, M_bind at 1. rewrite Htext.
  unfold mbind, M_bind, get_db, set_db, mret, M_ret. cbn beta iota.
  set (alert := {| a_id := Db.fresh_alert_id (db w); a_user_id := userId;
                   a_latitude := Sos.latitude req; a_longitude := Sos.longitude req;
                   a_message := text; a_status := Active; is_resolved := false;
                   resolved_at := None; created_at := now env |}).
  set (w1 := {| db := Db.add_alert alert (db w); activeUsers := activeUsers w;
                sockets := sockets w; out := out w |}).
  change (Query.contacts_of (db w1) userId) with (Query.contacts_of (db w) userId).
  destruct (Query.contacts_of (db w) userId) as [|c0 cs] eqn:Hcs;
    [simpl in Hn; lia|]. rewrite <- Hcs in *. clear Hn.
  assert (Hlen : (length (Query.contacts_of (db w) userId) =? 0)%nat = false).
  { rewrite Hcs. reflexivity. }
  rewrite Hlen.
  destruct (allSettled_send env u alert (Query.contacts_of (db w) userId) w1 Hnote)
    as (rs & recs & Hrs & Hrlen & Hnotes & Hall).
  unfold mbind, M_bind in Hrs, Hnotes.
  destruct (allSettled _ w1) as [[rs'|e] w2]; simpl in Hrs; [|discriminate].
  injection Hrs as ->. simpl in Hnotes.
  exists alert, "SOS alert triggered", rs, recs, w2. done.
Qed.

(** C6, amended.  With valid coordinates, the owner's user row found, the
    store accepting the writes and [N >= 1] contacts, the trigger answers
    200 with [totalContacts = N] and [notificationsSent <= N], and writes
    exactly [N] notification rows that match the contacts one to one:
    one row per contact, whether the contact's delivery fulfilled or
    rejected and however many channels were attempted for it. *)
Theorem trigger_one_record_per_contact env w userId req u :
  Js.truthy_num (Sos.latitude req) = true ->
  Js.truthy_num (Sos.longitude req) = true ->
  Query.user_by_id (db w) userId = Some u ->
  insert_alert_ok env = true ->
  insert_notification_ok env = true ->
  (1 <= length (Query.contacts_of (db w) userId))%nat ->
  exists alert text sent,
    (Sos.trigger env userId req w).1
    = Ok {| Sos.status := 200;
            Sos.json := Sos.TriggerBody (a_id alert) text sent
                          (length (Query.contacts_of (db w) userId)) alert |}
    /\ (sent <= length (Query.contacts_of (db w) userId))%nat
    /\ length (new_notifications w (Sos.trigger env userId req w).2)
       = length (Query.contacts_of (db w) userId)
    /\ one_record_per_contact (a_id alert)
         (new_notifications w (Sos.trigger env userId req w).2)
         (Query.contacts_of (db w) userId).
Proof.
  intros Hlat Hlon Hu Halert Hnote Hn.
  destruct (trigger_dispatches env w userId req u Hlat Hlon Hu Halert Hnote Hn)
    as (alert & text & rs & recs & w2 & -> & Hrlen & Hnotes & Hall).
  exists alert, text, (length (List.filter Sos.fulfilled rs)).
  unfold new_notifications. simpl. rewrite Hnotes, drop_app_length.
  repeat split.
  - rewrite <- Hrlen. apply List.filter_length_le.
  - by apply Forall2_length in Hall.
  - by exists recs.
Qed.

Lemma trigger_one_record_per_contact_witness :
  Js.truthy_num (Sos.latitude Scenario.request) = true
  /\ Js.truthy_num (Sos.longitude Scenario.request) = true
  /\ Query.user_by_id (db (Server.boot Scenario.reachable_store)) "a"
     = Some Scenario.ada
  /\ insert_alert_ok Scenario.env_up = true
  /\ insert_notification_ok Scenario.env_up = true
  /\ (1 <= length (Query.contacts_of (db (Server.boot Scenario.reachable_store)) "a"))%nat
  /\ exists alert text sent,
       (Sos.trigger Scenario.env_up "a" Scenario.request
          (Server.boot Scenario.reachable_store)).1
       = Ok {| Sos.status := 200;
               Sos.json := Sos.TriggerBody (a_id alert) text sent
                 (length (Query.contacts_of
                            (db (Server.boot Scenario.reachable_store)) "a")) alert |}
       /\ (sent <= length (Query.contacts_of
                             (db (Server.boot Scenario.reachable_store)) "a"))%nat
       /\ length (new_notifications (Server.boot Scenario.reachable_store)
                    (Sos.trigger Scenario.env_up "a" Scenario.request
                       (Server.boot Scenario.reachable_store)).2)
          = length (Query.contacts_of
                      (db (Server.boot Scenario.reachable_store)) "a")
       /\ one_record_per_contact (a_id alert)
            (new_notifications (Server.boot Scenario.reachable_store)
               (Sos.trigger Scenario.env_up "a" Scenario.request
                  (Server.boot Scenario.reachable_store)).2)
            (Query.contacts_of (db (Server.boot Scenario.reachable_store)) "a").
Proof.
  assert (H1 : Js.truthy_num (Sos.latitude Scenario.request) = true) by reflexivity.
  assert (H2 : Js.truthy_num (Sos.longitude Scenario.request) = true) by reflexivity.
  assert (H3 : Query.user_by_id (db (Server.boot Scenario.reachable_store)) "a"
               = Some Scenario.ada) by (vm_compute; reflexivity).
  assert (H4 : insert_alert_ok Scenario.env_up = true) by reflexivity.
  assert (H5 : insert_notification_ok Scenario.env_up = true) by reflexivity.
  assert (H6 : (1 <= length (Query.contacts_of
                               (db (Server.boot Scenario.reachable_store)) "a"))%nat)
    by (vm_compute; lia).
  exact (conj H1 (conj H2 (conj H3 (conj H4 (conj H5 (conj H6
           (trigger_one_record_per_contact Scenario.env_up
              (Server.boot Scenario.reachable_store) "a" Scenario.request
              Scenario.ada H1 H2 H3 H4 H5 H6))))))).
Defined.

(** *** Resolution *)

(** C4, as stated, fails: the alert was resolved at time 5; the owner's
    second call at time 9 is answered 200 like the first and moves
    [resolved_at] to 9. *)
Lemma second_resolve_overwrites :
  ~ resolved_is_final Scenario.env_up Scenario.resolved_world "a" 1.
Proof.
  intros H.
  destruct (H (resolved_row Scenario.env_at_5 Scenario.alert_1)) as [Hstatus _];
    [reflexivity .. |].
  apply Hstatus. vm_compute. reflexivity.
Qed.

Lemma second_resolve_moves_resolved_at :
  resolved_at_of (db Scenario.resolved_world) 1 = Some 5
  /\ (Sos.resolve Scenario.env_up "a" 1 Scenario.resolved_world).1
     = Ok {| Sos.status := 200;
             Sos.json := Sos.MessageBody "Alert resolved successfully" |}
  /\ resolved_at_of
       (db (Sos.resolve Scenario.env_up "a" 1 Scenario.resolved_world).2) 1
     = Some 9.
Proof. repeat split; vm_compute; reflexivity. Qed.

Lemma alert_by_id_Some s alertId alert :
  Query.alert_by_id s alertId = Some alert -> a_id alert = alertId.
Proof.
  intros H%single_Some.
  assert (Hin : List.In alert (List.filter (fun a => Nat.eqb (a_id a) alertId)
                                 (sos_alerts s))) by (rewrite H; by left).
  apply List.filter_In in Hin as [_ Hid]. by apply Nat.eqb_eq.
Qed.

Lemma filter_mark_resolved env alertId l :
  List.filter (fun a => Nat.eqb (a_id a) alertId)
    (List.map (Sos.mark_resolved env alertId) l)
  = List.map (Sos.mark_resolved env alertId)
      (List.filter (fun a => Nat.eqb (a_id a) alertId) l).
Proof.
  induction l as [|a l IH]; [done|]. simpl.
  assert (Hid : a_id (Sos.mark_resolved env alertId a) = a_id a).
  { unfold Sos.mark_resolved. by destruct (Nat.eqb (a_id a) alertId). }
  rewrite Hid. destruct (Nat.eqb (a_id a) alertId); simpl; by rewrite IH.
Qed.

Lemma alert_by_id_resolved env s alertId alert :
  Query.alert_by_id s alertId = Some alert ->
  Query.alert_by_id (Db.map_alerts (Sos.mark_resolved env alertId) s) alertId
  = Some (resolved_row env alert).
Proof.
  intros H. pose proof (alert_by_id_Some _ _ _ H) as Hid.
  apply single_Some in H. unfold Query.alert_by_id. simpl.
  rewrite filter_mark_resolved, H. simpl.
  unfold Sos.mark_resolved. subst alertId. by rewrite Nat.eqb_refl.
Qed.

Lemma sendResolutionNotification_run env recipient name w :
  exists r sent,
    Sos.sendResolutionNotification env recipient name w = (r, with_out w sent).
Proof.
  unfold Sos.sendResolutionNotification, Sos.sendFCMNotification.
  unfold mbind at 1, M_bind at 1, get_db. cbn beta iota.
  destruct (Query.user_by_opt_id (db w) recipient ≫= fcm_token) as [token|].
  2:{ exists (Ok tt), []. by rewrite with_out_nil. }
  destruct (Js.truthy_str token).
  2:{ exists (Ok tt), []. by rewrite with_out_nil. }
  unfold mbind, M_bind, emit, throw, mret, M_ret. cbn beta iota.
  destruct (fcm_ok env token); eexists _, [_]; reflexivity.
Qed.

Lemma notify_resolved_run env s ns name w :
  (forall n, n ∈ ns -> Sos.owner_name s n = Some name) ->
  exists rs sent, Sos.notify_resolved env s ns w = (Ok rs, with_out w sent).
Proof.
  revert w. induction ns as [|n rest IH]; intros w Hname.
  - exists [], []. by rewrite with_out_nil.
  - cbn [Sos.notify_resolved]. rewrite (Hname n) by by left.
    destruct (sendResolutionNotification_run env (recipient_user_id n) name w)
      as (r & sent1 & Hrun).
    destruct (IH (with_out w sent1)) as (rs & sent2 & Hrest).
    { intros n' Hin. apply Hname. by right. }
    exists (r :: rs), (sent1 ++ sent2)%list.
    unfold mbind, M_bind, settle, deref, mret, M_ret. cbn beta iota.
    rewrite Hrun, Hrest. by rewrite with_out_app.
Qed.

(** C4, amended.  The handler checks ownership only, never the current
    status.  For every alert, in whatever status (so also one that is
    already resolved), the owner's call is answered 200 and leaves the alert
    resolved with [resolved_at] set to the time of this call, provided the
    store accepts the update and holds the owner's user row. *)
Theorem resolve_always_restamps env w userId alertId alert u :
  Query.alert_by_id (db w) alertId = Some alert ->
  a_user_id alert = userId ->
  Query.user_by_id (db w) userId = Some u ->
  update_alert_ok env = true ->
  (Sos.resolve env userId alertId w).1
  = Ok {| Sos.status := 200;
          Sos.json := Sos.MessageBody "Alert resolved successfully" |}
  /\ Query.alert_by_id (db (Sos.resolve env userId alertId w).2) alertId
     = Some (resolved_row env alert)
  /\ resolved_at_of (db (Sos.resolve env userId alertId w).2) alertId
     = Some (now env).
Proof.
  intros Halert Howner Hu Hok.
  set (s' := Db.map_alerts (Sos.mark_resolved env alertId) (db w)).
  set (w1 := {| db := s'; activeUsers := activeUsers w; sockets := sockets w;
                out := out w |}).
  pose proof (alert_by_id_resolved env (db w) alertId alert Halert) as Hafter.
  fold s' in Hafter.
  destruct (notify_resolved_run env s' (Query.notifications_of s' alertId)
              (full_name u) w1) as (rs & sent & Hrun).
  { intros n Hin. apply list_elem_of_In, List.filter_In in Hin as [_ Hid].
    apply Nat.eqb_eq in Hid. unfold Sos.owner_name. rewrite Hid, Hafter. simpl.
    rewrite Howner.
    change (Query.user_by_id s' userId) with (Query.user_by_id (db w) userId).
    by rewrite Hu. }
  assert (Hres : Sos.resolve env userId alertId w
                 = (Ok {| Sos.status := 200;
                          Sos.json := Sos.MessageBody "Alert resolved successfully" |},
                    with_out w1 sent)).
  { unfold Sos.resolve, try_catch, Sos.update_resolved.
    unfold mbind at 1, M_bind at 1, get_db at 1. cbn beta iota.
    rewrite Halert, Howner, String.eqb_refl, Hok. cbn [negb].
    unfold mbind, M_bind, set_db, get_db, mret, M_ret. cbn beta iota.
    fold s'. fold w1. unfold mbind, M_bind in Hrun.
    change (db w1) with s'. by rewrite Hrun. }
  rewrite Hres. simpl. unfold resolved_at_of. rewrite Hafter. done.
Qed.

Lemma resolve_always_restamps_witness :
  Query.alert_by_id (db Scenario.resolved_world) 1
  = Some (resolved_row Scenario.env_at_5 Scenario.alert_1)
  /\ a_user_id (resolved_row Scenario.env_at_5 Scenario.alert_1) = "a"
  /\ Query.user_by_id (db Scenario.resolved_world) "a" = Some Scenario.ada
  /\ update_alert_ok Scenario.env_up = true
  /\ a_status (resolved_row Scenario.env_at_5 Scenario.alert_1) = Resolved
  /\ resolved_at_of
       (db (Sos.resolve Scenario.env_up "a" 1 Scenario.resolved_world).2) 1
     = Some (now Scenario.env_up).
Proof.
  assert (H1 : Query.alert_by_id (db Scenario.resolved_world) 1
               = Some (resolved_row Scenario.env_at_5 Scenario.alert_1))
    by (vm_compute; reflexivity).
  assert (H2 : a_user_id (resolved_row Scenario.env_at_5 Scenario.alert_1) = "a")
    by reflexivity.
  assert (H3 : Query.user_by_id (db Scenario.resolved_world) "a" = Some Scenario.ada)
    by (vm_compute; reflexivity).
  assert (H4 : update_alert_ok Scenario.env_up = true) by reflexivity.
  exact (conj H1 (conj H2 (conj H3 (conj H4 (conj eq_refl
           (proj2 (proj2 (resolve_always_restamps Scenario.env_up
                            Scenario.resolved_world "a" 1 _ _ H1 H2 H3 H4)))))))).
Defined.

(** *** The [sos_alert] handler *)

Lemma add_notifications_nil s : add_notifications [] s = s.
Proof. destruct s. unfold add_notifications. simpl. by rewrite app_nil_r. Qed.

Lemma add_notifications_cons r rs s :
  add_notifications rs (Db.add_notification r s) = add_notifications (r :: rs) s.
Proof. unfold add_notifications. simpl. by rewrite <- app_assoc. Qed.

Lemma with_db_id w : with_db w (db w) = w.
Proof. by destruct w. Qed.

Lemma notify_contact_run env data alert u c w lat lon :
  Server.sd_latitude data = Some lat ->
  Server.sd_longitude data = Some lon ->
  exists sent,
    Server.notify_contact env data alert (Some u) c w
    = (Ok tt,
       with_out (with_db w (if insert_notification_ok env
                            then Db.add_notification (delivered_row env alert c) (db w)
                            else db w)) sent)
    /\ texted sent c
    /\ Forall (fun e => is_error e = false) sent.
Proof.
  intros Hlat Hlon.
  unfold Server.notify_contact, Server.push_sos, Server.fcm_sos,
    Server.sendFCMNotification, Server.post_fcm, Server.sendSMS,
    Db.insert_notification, try_catch, deref, throw, emit, set_db, get_db,
    get_active, texted, delivered_row.
  rewrite Hlat, Hlon. unfold mbind, M_bind, mret, M_ret, option_bind.
  cbn beta iota.
  repeat match goal with
         | |- context [match ?x with _ => _ end] =>
             lazymatch x with
             | context [match _ with _ => _ end] => fail
             | _ => destruct x eqn:?
             end; cbn beta iota
         end.
  all: unfold with_out, with_db; simpl; rewrite <- ?app_assoc; simpl.
  all: first
    [ eexists; split; [reflexivity|]
    | exists []; rewrite ?app_nil_r; split; [by destruct w|] ].
  all: (split;
        [ intros phone Hphone Hp;
          first [ discriminate Hphone
                | injection Hphone as <-;
                  first [ congruence
                        | eexists;
                          repeat first [ apply list_elem_of_here
                                       | apply list_elem_of_further ] ] ]
        | repeat constructor ]).
Qed.

Lemma with_out_with_db w s sent :
  with_out (with_db w s) sent = with_db (with_out w sent) s.
Proof. reflexivity. Qed.

Lemma allSettled_notify env data alert u contacts w lat lon :
  Server.sd_latitude data = Some lat ->
  Server.sd_longitude data = Some lon ->
  exists rs sent,
    allSettled (List.map (Server.notify_contact env data alert (Some u)) contacts) w
    = (Ok rs,
       with_out (with_db w (add_notifications
                              (if insert_notification_ok env
                               then List.map (delivered_row env alert) contacts
                               else []) (db w))) sent)
    /\ first_rejection rs = None
    /\ Forall (texted sent) contacts
    /\ Forall (fun e => is_error e = false) sent.
Proof.
  intros Hlat Hlon. revert w. induction contacts as [|c rest IH]; intros w.
  - exists [], []. simpl.
    rewrite with_out_nil. destruct (insert_notification_ok env);
      rewrite add_notifications_nil, with_db_id; by repeat split.
  - destruct (notify_contact_run env data alert u c w lat lon Hlat Hlon)
      as (sent1 & Hrun & Htext & Herr).
    destruct (IH (with_out (with_db w (if insert_notification_ok env
                                       then Db.add_notification
                                              (delivered_row env alert c) (db w)
                                       else db w)) sent1))
      as (rs & sent2 & Hrest & Hrs & Htexts & Herrs).
    cbn [List.map]. rewrite allSettled_cons, Hrun. simpl. rewrite Hrest.
    exists (Ok tt :: rs), (sent1 ++ sent2)%list. repeat split.
    + f_equal. unfold with_out, with_db. simpl. rewrite app_assoc. f_equal.
      destruct (insert_notification_ok env); [|done].
      by rewrite add_notifications_cons.
    + done.
    + constructor.
      * intros phone Hp Ht. destruct (Htext phone Hp Ht) as (text & Hin).
        exists text. apply elem_of_app. by left.
      * eapply Forall_impl; [exact Htexts|]. intros c' Hc' phone Hp Ht.
        destruct (Hc' phone Hp Ht) as (text & Hin).
        exists text. apply elem_of_app. by right.
    + by apply Forall_app.
Qed.

Lemma sos_alert_run env w sid data u lat lon :
  insert_alert_ok env = true ->
  Query.user_by_id (db w) (Server.sd_userId data) = Some u ->
  Server.sd_latitude data = Some lat ->
  Server.sd_longitude data = Some lon ->
  exists alert sent,
    Server.sos_alert env sid data w
    = (Ok tt,
       with_out (with_db w (add_notifications
                              (if insert_notification_ok env
                               then List.map (delivered_row env alert)
                                      (Query.contacts_of (db w) (Server.sd_userId data))
                               else [])
                              (Db.add_alert alert (db w))))
         (sent ++ [EmitSosSent sid (a_id alert)]))
    /\ a_user_id alert = Server.sd_userId data
    /\ a_status alert = Active
    /\ Forall (texted sent) (Query.contacts_of (db w) (Server.sd_userId data))
    /\ Forall (fun e => is_error e = false) sent.
Proof.
  intros Hok Hu Hlat Hlon.
  unfold Server.sos_alert, try_catch, Db.insert_alert. rewrite Hok.
  unfold mbind, M_bind, get_db, set_db, mret, M_ret.
  cbn beta iota.
  set (alert := {| a_id := Db.fresh_alert_id (db w);
                   a_user_id := Server.sd_userId data;
                   a_latitude := Server.sd_latitude data;
                   a_longitude := Server.sd_longitude data;
                   a_message := Server.message_or (Server.sd_message data)
                                  "Emergency! I need help!";
                   a_status := Active; is_resolved := false;
                   resolved_at := None; created_at := now env |}).
  set (w1 := {| db := Db.add_alert alert (db w); activeUsers := activeUsers w;
                sockets := sockets w; out := out w |}).
  change (Query.user_by_id (db w1) (Server.sd_userId data))
    with (Query.user_by_id (db w) (Server.sd_userId data)).
  change (Query.contacts_of (db w1) (Server.sd_userId data))
    with (Query.contacts_of (db w) (Server.sd_userId data)).
  rewrite Hu.
  destruct (allSettled_notify env data alert u
              (Query.contacts_of (db w) (Server.sd_userId data)) w1 lat lon Hlat Hlon)
    as (rs & sent & Hrun & Hrs & Htexts & Herrs).
  unfold promiseAll. unfold mbind, M_bind.
  unfold mbind, M_bind in Hrun. rewrite Hrun, Hrs.
  unfold mret, M_ret, emit. cbn beta iota.
  exists alert, sent. repeat split; try done.
  unfold with_out, with_db. simpl. by rewrite app_assoc.
Qed.

Section Delivered.
Variable env : Env.

#[local] Instance notes_added_refl P : Reflexive (notes_added P).
Proof. intros w. exists []. by rewrite app_nil_r. Qed.

#[local] Instance notes_added_trans P : Transitive (notes_added P).
Proof.
  intros w1 w2 w3 (r1 & E1 & F1) (r2 & E2 & F2).
  exists (r1 ++ r2)%list. split; [|by apply Forall_app].
  by rewrite E2, E1, app_assoc.
Qed.

Lemma notes_emit P e : respects (notes_added P) (emit e).
Proof. intros w. exists []. simpl. by rewrite app_nil_r. Qed.

Lemma notes_insert_notification (P : notification_row -> Prop) r :
  P r -> respects (notes_added P) (Db.insert_notification env r).
Proof.
  intros HP w. unfold Db.insert_notification.
  destruct (insert_notification_ok env); simpl.
  - exists [r]. split; [done | by apply Forall_singleton].
  - exists []. by rewrite app_nil_r.
Qed.

(** Whatever the steps before the insert do, the only row a contact's task
    can write is the delivered row of that contact. *)
Lemma notes_notify_contact (P : notification_row -> Prop) data alert user c :
  P (delivered_row env alert c) ->
  respects (notes_added P) (Server.notify_contact env data alert user c).
Proof.
  intros HP.
  unfold Server.notify_contact, Server.push_sos, Server.fcm_sos,
    Server.sendFCMNotification, Server.post_fcm, Server.sendSMS.
  frame_with ltac:(first [ apply notes_emit
                         | apply notes_insert_notification; exact HP ]).
Qed.

Lemma delivered_row_recorded alert c :
  recorded_as_delivered env c (delivered_row env alert c).
Proof. by repeat split. Qed.

Lemma sos_alert_rows w sid data :
  notes_added
    (fun r => exists c,
       c ∈ Query.contacts_of (db w) (Server.sd_userId data)
       /\ recorded_as_delivered env c r)
    w (Server.sos_alert env sid data w).2.
Proof.
  set (P := fun r => exists c,
              c ∈ Query.contacts_of (db w) (Server.sd_userId data)
              /\ recorded_as_delivered env c r).
  unfold Server.sos_alert, try_catch, Db.insert_alert.
  destruct (insert_alert_ok env).
  2:{ simpl. exists []. by rewrite app_nil_r. }
  unfold mbind, M_bind, get_db, set_db, mret, M_ret.
  cbn beta iota.
  set (alert := {| a_id := Db.fresh_alert_id (db w);
                   a_user_id := Server.sd_userId data;
                   a_latitude := Server.sd_latitude data;
                   a_longitude := Server.sd_longitude data;
                   a_message := Server.message_or (Server.sd_message data)
                                  "Emergency! I need help!";
                   a_status := Active; is_resolved := false;
                   resolved_at := None; created_at := now env |}).
  set (w1 := {| db := Db.add_alert alert (db w); activeUsers := activeUsers w;
                sockets := sockets w; out := out w |}).
  change (Query.contacts_of (db w1) (Server.sd_userId data))
    with (Query.contacts_of (db w) (Server.sd_userId data)).
  set (tasks := List.map
                  (Server.notify_contact env data alert
                     (Query.user_by_id (db w1) (Server.sd_userId data)))
                  (Query.contacts_of (db w) (Server.sd_userId data))).
  assert (Htasks : notes_added P w1 (promiseAll tasks w1).2).
  { refine (respects_promiseAll (notes_added P) tasks _ w1).
    apply List.Forall_map, List.Forall_forall. intros c Hc.
    apply notes_notify_contact. exists c.
    split; [by apply list_elem_of_In | apply delivered_row_recorded]. }
  destruct (promiseAll tasks w1) as [[rs|e] w2]; simpl in *; exact Htasks.
Qed.

End Delivered.

Lemma user_by_opt_id_users s s' id :
  users s' = users s -> Query.user_by_opt_id s' id = Query.user_by_opt_id s id.
Proof.
  intros H. destruct id as [i|]; [|done].
  unfold Query.user_by_opt_id, Query.user_by_id. by rewrite H.
Qed.

Lemma unreachable_quiet_from w w' c :
  quiet_from w w' -> unreachable w c -> unreachable w' c.
Proof.
  intros (Ha & Hu & _) [H1 H2]. split.
  - by rewrite Ha.
  - by rewrite (user_by_opt_id_users (db w) (db w') _ Hu).
Qed.

Lemma quiet_from_trans w1 w2 w3 :
  quiet_from w1 w2 -> quiet_from w2 w3 -> quiet_from w1 w3.
Proof.
  intros (Ha & Hu & s1 & E1 & F1) (Ha' & Hu' & s2 & E2 & F2).
  split; [congruence|]. split; [congruence|].
  exists (s1 ++ s2)%list. split; [|by apply Forall_app].
  by rewrite E2, E1, app_assoc.
Qed.

Lemma notify_contact_quiet env data alert user c w :
  unreachable w c ->
  quiet_from w (Server.notify_contact env data alert user c w).2.
Proof.
  intros [Hlive Htoken].
  assert (Hpush : Server.push_sos data alert user c w = (Ok tt, w)).
  { unfold Server.push_sos, mbind at 1, M_bind, get_active. cbn beta iota.
    by rewrite Hlive. }
  assert (Hfcm : Server.fcm_sos env data user c w = (Ok tt, w)).
  { unfold Server.fcm_sos, mbind at 1, M_bind, get_db. cbn beta iota.
    by rewrite Htoken. }
  unfold Server.notify_contact.
  unfold mbind at 1, M_bind at 1.
  assert (Hfirst : (if Js.truthy (contact_user_id c)
                    then _ ← Server.push_sos data alert user c;
                         Server.fcm_sos env data user c
                    else mret tt) w = (Ok tt, w)).
  { destruct (Js.truthy (contact_user_id c)); [|done].
    unfold mbind, M_bind. by rewrite Hpush, Hfcm. }
  rewrite Hfirst.
  unfold Server.sendSMS, Db.insert_notification, deref, throw, emit, set_db.
  unfold mbind, M_bind, mret, M_ret. cbn beta iota.
  repeat match goal with
         | |- context [match ?x with _ => _ end] =>
             lazymatch x with
             | context [match _ with _ => _ end] => fail
             | _ => destruct x eqn:?
             end; cbn beta iota
         end.
  all: simpl; (split; [done|]); (split; [done|]).
  all: first [ by eexists [_]; split; [reflexivity | repeat constructor]
             | by exists []; split; [by rewrite app_nil_r | constructor] ].
Qed.

Lemma allSettled_notify_quiet env data alert user contacts w :
  Forall (unreachable w) contacts ->
  quiet_from w
    (allSettled (List.map (Server.notify_contact env data alert user) contacts) w).2.
Proof.
  revert w. induction contacts as [|c rest IH]; intros w Hall.
  - simpl. split; [done|]. split; [done|]. exists []. by rewrite app_nil_r.
  - apply Forall_cons in Hall as [Hc Hrest].
    pose proof (notify_contact_quiet env data alert user c w Hc) as Hq.
    cbn [List.map]. rewrite allSettled_cons.
    assert (Hrest' : Forall (unreachable
                               (Server.notify_contact env data alert user c w).2) rest).
    { eapply Forall_impl; [exact Hrest|]. intros c' Hc'.
      by eapply unreachable_quiet_from. }
    specialize (IH _ Hrest').
    destruct (allSettled _ (Server.notify_contact env data alert user c w).2)
      as [[rs|e] w2]; simpl in *; by eapply quiet_from_trans.
Qed.

Lemma sos_alert_quiet env w sid data :
  Forall (unreachable w) (Query.contacts_of (db w) (Server.sd_userId data)) ->
  Forall (fun e => is_push e = false)
    (added (out w) (out (Server.sos_alert env sid data w).2)).
Proof.
  intros Hall.
  unfold Server.sos_alert, try_catch, Db.insert_alert.
  destruct (insert_alert_ok env).
  2:{ unfold added. simpl. rewrite drop_app_length. by repeat constructor. }
  unfold mbind, M_bind, get_db, set_db, mret, M_ret.
  cbn beta iota.
  set (alert := {| a_id := Db.fresh_alert_id (db w);
                   a_user_id := Server.sd_userId data;
                   a_latitude := Server.sd_latitude data;
                   a_longitude := Server.sd_longitude data;
                   a_message := Server.message_or (Server.sd_message data)
                                  "Emergency! I need help!";
                   a_status := Active; is_resolved := false;
                   resolved_at := None; created_at := now env |}).
  set (w1 := {| db := Db.add_alert alert (db w); activeUsers := activeUsers w;
                sockets := sockets w; out := out w |}).
  change (Query.contacts_of (db w1) (Server.sd_userId data))
    with (Query.contacts_of (db w) (Server.sd_userId data)).
  assert (Hq : quiet_from w1
                 (allSettled
                    (List.map
                       (Server.notify_contact env data alert
                          (Query.user_by_id (db w1) (Server.sd_userId data)))
                       (Query.contacts_of (db w) (Server.sd_userId data))) w1).2).
  { apply allSettled_notify_quiet.
    eapply Forall_impl; [exact Hall|]. intros c Hc. exact Hc. }
  destruct Hq as (_ & _ & sent & Hout & Hsent).
  unfold promiseAll, mbind, M_bind.
  destruct (allSettled _ w1) as [[rs|e] w2]; simpl in Hout.
  - destruct (first_rejection rs); unfold throw, mret, M_ret, emit; simpl;
      rewrite Hout; unfold added; rewrite <- app_assoc, drop_app_length;
      apply Forall_app; split; try done; by repeat constructor.
  - simpl. rewrite Hout. unfold added. rewrite <- app_assoc, drop_app_length.
    apply Forall_app; split; try done; by repeat constructor.
Qed.

(** C10.  Every row the [sos_alert] handler writes to [sos_notifications]
    is the record of one of the sender's contacts, with [is_delivered =
    true], [delivered_at] the time of the run, and type [push] exactly when
    that contact has a [contact_user_id]: the push, FCM and SMS steps have
    no say in it.  For a known sender and a payload with coordinates, with
    the store accepting the writes, such a row is written for every contact
    (one each, up to their order), whatever FCM answers and whoever is
    present.  And when no contact has a live socket or a token, no push of
    either kind goes out, while the rows of the contacts that are app users
    still say [push]. *)
Theorem sos_alert_marks_every_record_delivered env w sid data :
  let w' := (Server.sos_alert env sid data w).2 in
  let contacts := Query.contacts_of (db w) (Server.sd_userId data) in
  (forall r,
     r ∈ new_notifications w w' ->
     exists c, c ∈ contacts /\ recorded_as_delivered env c r)
  /\ (forall u lat lon,
        insert_alert_ok env = true ->
        insert_notification_ok env = true ->
        Query.user_by_id (db w) (Server.sd_userId data) = Some u ->
        Server.sd_latitude data = Some lat ->
        Server.sd_longitude data = Some lon ->
        exists recs,
          new_notifications w w' ≡ₚ recs
          /\ Forall2 (recorded_as_delivered env) contacts recs)
  /\ (Forall (unreachable w) contacts ->
      Forall (fun e => is_push e = false) (added (out w) (out w'))).
Proof.
  cbv zeta. split; [|split].
  - destruct (sos_alert_rows env w sid data) as (recs & Hrecs & Hall).
    intros r Hr. unfold new_notifications in Hr.
    rewrite Hrecs, drop_app_length in Hr.
    by apply (proj1 (Forall_forall _ _) Hall).
  - intros u lat lon Hok Hnote Hu Hlat Hlon.
    destruct (sos_alert_run env w sid data u lat lon Hok Hu Hlat Hlon)
      as (alert & sent & -> & _).
    rewrite Hnote. unfold new_notifications. simpl. rewrite drop_app_length.
    exists (List.map (delivered_row env alert)
              (Query.contacts_of (db w) (Server.sd_userId data))).
    split; [done|].
    induction (Query.contacts_of (db w) (Server.sd_userId data)) as [|c rest IH];
      simpl; constructor; [apply delivered_row_recorded | exact IH].
  - apply sos_alert_quiet.
Qed.

Lemma sos_alert_marks_every_record_delivered_witness :
  insert_alert_ok Scenario.env_fcm_down = true
  /\ insert_notification_ok Scenario.env_fcm_down = true
  /\ Query.user_by_id (db Scenario.sos_world) (Server.sd_userId Scenario.sos_sample)
     = Some Scenario.ada
  /\ Server.sd_latitude Scenario.sos_sample = Some 65244
  /\ Server.sd_longitude Scenario.sos_sample = Some 33792
  /\ Forall (unreachable Scenario.sos_world)
       (Query.contacts_of (db Scenario.sos_world) (Server.sd_userId Scenario.sos_sample))
  /\ (exists recs,
        new_notifications Scenario.sos_world
          (Server.sos_alert Scenario.env_fcm_down "k0" Scenario.sos_sample
             Scenario.sos_world).2 ≡ₚ recs
        /\ Forall2 (recorded_as_delivered Scenario.env_fcm_down)
             (Query.contacts_of (db Scenario.sos_world)
                (Server.sd_userId Scenario.sos_sample)) recs)
  /\ Forall (fun e => is_push e = false)
       (added (out Scenario.sos_world)
          (out (Server.sos_alert Scenario.env_fcm_down "k0" Scenario.sos_sample
                  Scenario.sos_world).2)).
Proof.
  assert (H1 : insert_alert_ok Scenario.env_fcm_down = true) by reflexivity.
  assert (H2 : insert_notification_ok Scenario.env_fcm_down = true) by reflexivity.
  assert (H3 : Query.user_by_id (db Scenario.sos_world)
                 (Server.sd_userId Scenario.sos_sample) = Some Scenario.ada)
    by (vm_compute; reflexivity).
  assert (H4 : Server.sd_latitude Scenario.sos_sample = Some 65244) by reflexivity.
  assert (H5 : Server.sd_longitude Scenario.sos_sample = Some 33792) by reflexivity.
  assert (H6 : Forall (unreachable Scenario.sos_world)
                 (Query.contacts_of (db Scenario.sos_world)
                    (Server.sd_userId Scenario.sos_sample))).
  { change (Query.contacts_of (db Scenario.sos_world)
              (Server.sd_userId Scenario.sos_sample))
      with [Scenario.contact_b].
    apply Forall_singleton. split; vm_compute; reflexivity. }
  destruct (sos_alert_marks_every_record_delivered Scenario.env_fcm_down
              Scenario.sos_world "k0" Scenario.sos_sample) as (_ & R2 & R3).
  exact (conj H1 (conj H2 (conj H3 (conj H4 (conj H5 (conj H6
           (conj (R2 Scenario.ada 65244 33792 H1 H2 H3 H4 H5) (R3 H6)))))))).
Defined.

(** The contact of [Scenario.sos_world] is an app user with no token and no
    live socket: nothing is pushed, only the SMS goes out, and the row is
    written as a delivered push. *)
Lemma sos_alert_push_recorded_without_push :
  let w' := (Server.sos_alert Scenario.env_up "k0" Scenario.sos_sample
               Scenario.sos_world).2 in
  added (out Scenario.sos_world) (out w')
  = [ SmsSend "+2348000000000"
        "SOS: Ada needs help! Location: https://maps.google.com/?q=65244,33792";
      EmitSosSent "k0" 1 ]
  /\ sos_notifications (db w')
     = [ {| sos_alert_id := 1; recipient_user_id := Some "b";
            recipient_phone := Some "+2348000000000"; recipient_email := None;
            notification_type := Push; is_delivered := true;
            delivered_at := Some 9 |} ].
Proof. split; vm_compute; reflexivity. Qed.

(** * Further properties of the handlers *)

(** *** [POST /trigger]: rejections and the aggregate *)

(** X1.  A request whose latitude or longitude is missing, or is exactly 0 (the
    equator, the prime meridian), is answered 400 "Location coordinates
    required" and nothing is read, written or sent. *)
Theorem trigger_rejects_zero_coordinate env w userId req :
  Sos.latitude req = None \/ Sos.latitude req = Some 0
  \/ Sos.longitude req = None \/ Sos.longitude req = Some 0 ->
  Sos.trigger env userId req w
  = (Ok {| Sos.status := 400;
           Sos.json := Sos.ErrorBody "Location coordinates required" |}, w).
Proof.
  intros H. unfold Sos.trigger, try_catch.
  assert (Hbad : negb (Js.truthy_num (Sos.latitude req))
                 || negb (Js.truthy_num (Sos.longitude req)) = true).
  { destruct H as [-> | [-> | [-> | ->]]]; simpl;
      rewrite ?orb_true_r; reflexivity. }
  by rewrite Hbad.
Qed.

Lemma trigger_rejects_zero_coordinate_witness :
  (Sos.latitude {| Sos.latitude := Some 0; Sos.longitude := Some 33792;
                   Sos.message := None |} = None
   \/ Sos.latitude {| Sos.latitude := Some 0; Sos.longitude := Some 33792;
                      Sos.message := None |} = Some 0
   \/ Sos.longitude {| Sos.latitude := Some 0; Sos.longitude := Some 33792;
                       Sos.message := None |} = None
   \/ Sos.longitude {| Sos.latitude := Some 0; Sos.longitude := Some 33792;
                       Sos.message := None |} = Some 0)
  /\ Sos.trigger Scenario.env_up "a"
       {| Sos.latitude := Some 0; Sos.longitude := Some 33792; Sos.message := None |}
       (Server.boot Scenario.reachable_store)
     = (Ok {| Sos.status := 400;
              Sos.json := Sos.ErrorBody "Location coordinates required" |},
        Server.boot Scenario.reachable_store).
Proof.
  assert (H : Sos.latitude {| Sos.latitude := Some 0; Sos.longitude := Some 33792;
                              Sos.message := None |} = None
              \/ Sos.latitude {| Sos.latitude := Some 0; Sos.longitude := Some 33792;
                                 Sos.message := None |} = Some 0
              \/ Sos.longitude {| Sos.latitude := Some 0; Sos.longitude := Some 33792;
                                  Sos.message := None |} = None
              \/ Sos.longitude {| Sos.latitude := Some 0; Sos.longitude := Some 33792;
                                  Sos.message := None |} = Some 0)
    by (right; left; reflexivity).
  exact (conj H (trigger_rejects_zero_coordinate Scenario.env_up
                   (Server.boot Scenario.reachable_store) "a" _ H)).
Defined.

Lemma allSettled_total {A} (tasks : list (M A)) w :
  exists rs w', allSettled tasks w = (Ok rs, w').
Proof.
  revert w. induction tasks as [|t rest IH]; intros w; [by eexists _, _|].
  rewrite allSettled_cons. destruct (IH (t w).2) as (rs & w' & ->). by eexists _, _.
Qed.

(** X2.  The trigger answers 500 only before it has written anything: whenever
    the answer is a 500 the world is untouched.  Once the alert row is in,
    the answer is 200 or the no-contacts 400, whatever the deliveries did. *)
Theorem trigger_500_writes_nothing env w userId req :
  exists resp w',
    Sos.trigger env userId req w = (Ok resp, w')
    /\ (Sos.status resp = 500%nat -> w' = w)
    /\ (Sos.status resp = 200%nat \/ Sos.status resp = 400%nat
        \/ Sos.status resp = 500%nat).
Proof.
  unfold Sos.trigger, try_catch.
  destruct (negb (Js.truthy_num (Sos.latitude req))
            || negb (Js.truthy_num (Sos.longitude req))).
  { eexists _, _. split; [reflexivity|]. simpl. split; [discriminate | tauto]. }
  unfold mbind at 1, M_bind at 1, get_db at 1. cbn beta iota.
  set (text := (match Sos.message req with
                | Some m =>
                    if Js.truthy_str m then mret m
                    else u ← deref "user" (Query.user_by_id (db w) userId);
                         mret ("EMERGENCY! " ++ full_name u ++ " needs help!")
                | None => u ← deref "user" (Query.user_by_id (db w) userId);
                          mret ("EMERGENCY! " ++ full_name u ++ " needs help!")
                end : M string)).
  assert (Htext : (exists t, text w = (Ok t, w)) \/ (exists e, text w = (Throw e, w))).
  { unfold text. destruct (Sos.message req) as [m|];
      [destruct (Js.truthy_str m); [left; by eexists|]|];
      destruct (Query.user_by_id (db w) userId); simpl; eauto. }
  unfold mbind at 1, M_bind at 1.
  destruct Htext as [(t & ->) | (e & ->)]; cbn beta iota.
  2:{ eexists _, _. split; [reflexivity|]. simpl. split; [intros _; reflexivity | tauto]. }
  unfold Db.insert_alert. destruct (insert_alert_ok env).
  2:{ eexists _, _. split; [reflexivity|]. simpl. split; [intros _; reflexivity | tauto]. }
  unfold mbind, M_bind, get_db, set_db, mret, M_ret. cbn beta iota.
  match goal with
  | |- context [(length ?cs =? 0)%nat] => destruct (length cs =? 0)%nat
  end.
  { eexists _, _. split; [reflexivity|]. simpl. split; [discriminate | tauto]. }
  match goal with
  | |- context [allSettled ?tasks ?w1] =>
      destruct (allSettled_total tasks w1) as (rs & w2 & Hrun)
  end.
  unfold mbind, M_bind in Hrun. rewrite Hrun.
  eexists _, _. split; [reflexivity|]. simpl. split; [discriminate | tauto].
Qed.

Lemma sendSOSNotification_outcome env c u alert w lat lon :
  a_latitude alert = Some lat ->
  a_longitude alert = Some lon ->
  exists r w',
    Sos.sendSOSNotification env c (Some u) alert w = (r, w')
    /\ Sos.fulfilled r = negb (push_refused env (db w) c)
    /\ users (db w') = users (db w).
Proof.
  intros Hlat Hlon.
  unfold Sos.sendSOSNotification, Sos.push_step, Sos.sms_step,
    Sos.sendFCMNotification, Sos.sendSMS, Db.insert_notification, try_catch,
    deref, throw, emit, set_db, get_db, push_refused.
  rewrite Hlat, Hlon. unfold mbind, M_bind, mret, M_ret, option_bind.
  cbn beta iota.
  repeat match goal with
         | |- context [match ?x with _ => _ end] =>
             lazymatch x with
             | context [match _ with _ => _ end] => fail
             | _ => destruct x eqn:?
             end; cbn beta iota
         end.
  all: simpl; eexists _, _; repeat split; reflexivity.
Qed.

Lemma allSettled_send_outcomes env u alert lat lon contacts w :
  a_latitude alert = Some lat ->
  a_longitude alert = Some lon ->
  exists rs w',
    allSettled (List.map (fun c => Sos.sendSOSNotification env c (Some u) alert)
                  contacts) w = (Ok rs, w')
    /\ List.map Sos.fulfilled rs
       = List.map (fun c => negb (push_refused env (db w) c)) contacts
    /\ users (db w') = users (db w).
Proof.
  intros Hlat Hlon. revert w. induction contacts as [|c rest IH]; intros w.
  - by exists [], w.
  - destruct (sendSOSNotification_outcome env c u alert w lat lon Hlat Hlon)
      as (r & w1 & Hrun & Hr & Hu).
    destruct (IH w1) as (rs & w2 & Hrest & Hrs & Hu2).
    cbn [List.map]. rewrite allSettled_cons, Hrun. simpl. rewrite Hrest.
    exists (r :: rs), w2. repeat split.
    + simpl. rewrite Hr, Hrs. f_equal. apply List.map_ext. intros c'.
      unfold push_refused, Query.user_by_opt_id, Query.user_by_id. by rewrite Hu.
    + congruence.
Qed.

Lemma filter_length_map {A} (f : A -> bool) (l : list A) :
  length (List.filter f l) = length (List.filter id (List.map f l)).
Proof. induction l as [|x l IH]; [done|]. simpl. destruct (f x); simpl; by rewrite IH. Qed.

(** X3.  [notificationsSent] counts the contacts whose delivery promise
    fulfilled, and a promise rejects only on a refused push: the count is
    the number of contacts that are not app users with a token FCM refuses.
    A contact with neither account nor phone, for which nothing is sent,
    counts as notified. *)
Theorem notificationsSent_counts_unrefused env w userId req u :
  Js.truthy_num (Sos.latitude req) = true ->
  Js.truthy_num (Sos.longitude req) = true ->
  Query.user_by_id (db w) userId = Some u ->
  insert_alert_ok env = true ->
  (1 <= length (Query.contacts_of (db w) userId))%nat ->
  exists alert text w',
    Sos.trigger env userId req w
    = (Ok {| Sos.status := 200;
             Sos.json := Sos.TriggerBody (a_id alert) text
               (length (List.filter (fun c => negb (push_refused env (db w) c))
                          (Query.contacts_of (db w) userId)))
               (length (Query.contacts_of (db w) userId)) alert |}, w').
Proof.
  intros Hlat Hlon Hu Halert Hn.
  unfold Sos.trigger, try_catch, Db.insert_alert.
  rewrite Hlat, Hlon, Halert. cbn [negb orb].
  unfold mbind at 1, M_bind at 1, get_db at 1. cbn beta iota. rewrite Hu.
  assert (Htext : exists text,
             (match Sos.message req with
              | Some m =>
                  if Js.truthy_str m then mret m
                  else u0 ← deref "user" (Some u);
                       mret ("EMERGENCY! " ++ full_name u0 ++ " needs help!")
              | None => u0 ← deref "user" (Some u);
                        mret ("EMERGENCY! " ++ full_name u0 ++ " needs help!")
              end : M string) w = (Ok text, w)).
  { destruct (Sos.message req) as [m|]; [destruct (Js.truthy_str m)|]; eauto. }
  destruct Htext as (text & Htext).
  unfold mbind at 1, M_bind at 1. rewrite Htext.
  unfold mbind, M_bind, get_db, set_db, mret, M_ret. cbn beta iota.
  set (alert := {| a_id := Db.fresh_alert_id (db w); a_user_id := userId;
                   a_latitude := Sos.latitude req; a_longitude := Sos.longitude req;
                   a_message := text; a_status := Active; is_resolved := false;
                   resolved_at := None; created_at := now env |}).
  set (w1 := {| db := Db.add_alert alert (db w); activeUsers := activeUsers w;
                sockets := sockets w; out := out w |}).
  change (Query.contacts_of (db w1) userId) with (Query.contacts_of (db w) userId).
  destruct (Query.contacts_of (db w) userId) as [|c0 cs] eqn:Hcs;
    [simpl in Hn; lia|]. rewrite <- Hcs in *. clear Hn.
  assert (Hlen : (length (Query.contacts_of (db w) userId) =? 0)%nat = false).
  { rewrite Hcs. reflexivity. }
  rewrite Hlen.
  destruct (Sos.latitude req) as [lat|] eqn:Elat; [|discriminate].
  destruct (Sos.longitude req) as [lon|] eqn:Elon; [|discriminate].
  destruct (allSettled_send_outcomes env u alert lat lon
              (Query.contacts_of (db w) userId) w1 eq_refl eq_refl)
    as (rs & w2 & Hrun & Hrs & _).
  unfold mbind, M_bind in Hrun. rewrite Hrun.
  exists alert, "SOS alert triggered", w2. do 3 f_equal.
  rewrite filter_length_map, Hrs.
  change (fun c => negb (push_refused env (db w1) c))
    with (fun c => negb (push_refused env (db w) c)).
  by rewrite <- filter_length_map.
Qed.

Lemma notificationsSent_counts_unrefused_witness :
  Js.truthy_num (Sos.latitude Scenario.request) = true
  /\ Js.truthy_num (Sos.longitude Scenario.request) = true
  /\ Query.user_by_id (db (Server.boot Scenario.reachable_store)) "a"
     = Some Scenario.ada
  /\ insert_alert_ok Scenario.env_fcm_down = true
  /\ (1 <= length (Query.contacts_of (db (Server.boot Scenario.reachable_store)) "a"))%nat
  /\ push_refused Scenario.env_fcm_down Scenario.reachable_store Scenario.contact_b = true
  /\ exists alert text w',
       Sos.trigger Scenario.env_fcm_down "a" Scenario.request
         (Server.boot Scenario.reachable_store)
       = (Ok {| Sos.status := 200;
                Sos.json := Sos.TriggerBody (a_id alert) text
                  (length (List.filter
                             (fun c => negb (push_refused Scenario.env_fcm_down
                                               (db (Server.boot Scenario.reachable_store)) c))
                             (Query.contacts_of
                                (db (Server.boot Scenario.reachable_store)) "a")))
                  (length (Query.contacts_of
                             (db (Server.boot Scenario.reachable_store)) "a"))
                  alert |}, w').
Proof.
  assert (H1 : Js.truthy_num (Sos.latitude Scenario.request) = true) by reflexivity.
  assert (H2 : Js.truthy_num (Sos.longitude Scenario.request) = true) by reflexivity.
  assert (H3 : Query.user_by_id (db (Server.boot Scenario.reachable_store)) "a"
               = Some Scenario.ada) by (vm_compute; reflexivity).
  assert (H4 : insert_alert_ok Scenario.env_fcm_down = true) by reflexivity.
  assert (H5 : (1 <= length (Query.contacts_of
                               (db (Server.boot Scenario.reachable_store)) "a"))%nat)
    by (vm_compute; lia).
  assert (H6 : push_refused Scenario.env_fcm_down Scenario.reachable_store
                 Scenario.contact_b = true) by (vm_compute; reflexivity).
  exact (conj H1 (conj H2 (conj H3 (conj H4 (conj H5 (conj H6
           (notificationsSent_counts_unrefused Scenario.env_fcm_down
              (Server.boot Scenario.reachable_store) "a" Scenario.request
              Scenario.ada H1 H2 H3 H4 H5))))))).
Defined.

(** X4.  When the push to a contact is refused, the row written for that
    contact says channel [sms], not delivered, although the channel that
    failed was the push and no SMS was tried. *)
Theorem refused_push_is_logged_as_failed_sms env c u alert w cu token :
  Js.truthy (contact_user_id c) = true ->
  Query.user_by_opt_id (db w) (contact_user_id c) = Some cu ->
  fcm_token cu = Some token ->
  Js.truthy_str token = true ->
  fcm_ok env token = false ->
  insert_notification_ok env = true ->
  exists e w',
    Sos.sendSOSNotification env c (Some u) alert w = (Throw e, w')
    /\ sos_notifications (db w')
       = (sos_notifications (db w) ++ [failed_row alert c])%list.
Proof.
  intros Hc Hcu Htok Htruthy Hdown Hok.
  destruct (push_step_refused env c u alert
              {| Sos.notificationType := Sms; Sos.isDelivered := false |}
              w cu token Hc Hcu Htok Htruthy Hdown) as (e & sent & Hrun & _).
  unfold Sos.sendSOSNotification, try_catch.
  unfold deref at 1, mbind at 1, M_bind at 1, mret at 1, M_ret at 1.
  cbn beta iota.
  unfold mbind at 1, M_bind at 1. rewrite Hrun.
  unfold Db.insert_notification. rewrite Hok.
  unfold mbind, M_bind, set_db, throw, mret, M_ret. cbn beta iota.
  by eexists e, _.
Qed.

Lemma refused_push_is_logged_as_failed_sms_witness :
  Js.truthy (contact_user_id Scenario.contact_b) = true
  /\ Query.user_by_opt_id (db (Server.boot Scenario.alerted_store))
       (contact_user_id Scenario.contact_b) = Some Cases.bee
  /\ fcm_token Cases.bee = Some "tok-b"
  /\ Js.truthy_str "tok-b" = true
  /\ fcm_ok Scenario.env_fcm_down "tok-b" = false
  /\ insert_notification_ok Scenario.env_fcm_down = true
  /\ exists e w',
       Sos.sendSOSNotification Scenario.env_fcm_down Scenario.contact_b
         (Some Scenario.ada) Scenario.alert_1 (Server.boot Scenario.alerted_store)
       = (Throw e, w')
       /\ sos_notifications (db w')
          = (sos_notifications (db (Server.boot Scenario.alerted_store))
             ++ [failed_row Scenario.alert_1 Scenario.contact_b])%list.
Proof.
  assert (H1 : Js.truthy (contact_user_id Scenario.contact_b) = true) by reflexivity.
  assert (H2 : Query.user_by_opt_id (db (Server.boot Scenario.alerted_store))
                 (contact_user_id Scenario.contact_b) = Some Cases.bee)
    by (vm_compute; reflexivity).
  assert (H3 : fcm_token Cases.bee = Some "tok-b") by reflexivity.
  assert (H4 : Js.truthy_str "tok-b" = true) by reflexivity.
  assert (H5 : fcm_ok Scenario.env_fcm_down "tok-b" = false) by reflexivity.
  assert (H6 : insert_notification_ok Scenario.env_fcm_down = true) by reflexivity.
  exact (conj H1 (conj H2 (conj H3 (conj H4 (conj H5 (conj H6
           (refused_push_is_logged_as_failed_sms Scenario.env_fcm_down
              Scenario.contact_b Scenario.ada Scenario.alert_1
              (Server.boot Scenario.alerted_store) Cases.bee "tok-b"
              H1 H2 H3 H4 H5 H6))))))).
Defined.

(** *** [PUT /alerts/:alertId/resolve]: what it refuses and what it touches *)

(** X5.  A caller that does not own the alert is answered 403 and nothing
    changes; so is a caller that names an alert that does not exist (there
    is no 404). *)
Theorem resolve_refuses_foreign_alert env w userId alertId :
  Query.alert_by_id (db w) alertId = None
  \/ (exists alert, Query.alert_by_id (db w) alertId = Some alert
                    /\ a_user_id alert <> userId) ->
  Sos.resolve env userId alertId w
  = (Ok {| Sos.status := 403;
           Sos.json := Sos.ErrorBody "Unauthorized to resolve this alert" |}, w).
Proof.
  intros H. unfold Sos.resolve, try_catch.
  unfold mbind at 1, M_bind at 1, get_db at 1. cbn beta iota.
  destruct H as [-> | (alert & -> & Hne)]; [reflexivity|].
  apply String.eqb_neq in Hne. by rewrite Hne.
Qed.

Lemma resolve_refuses_foreign_alert_witness :
  (Query.alert_by_id (db (Server.boot Scenario.alerted_store)) 1 = None
   \/ (exists alert,
         Query.alert_by_id (db (Server.boot Scenario.alerted_store)) 1 = Some alert
         /\ a_user_id alert <> "b"))
  /\ Sos.resolve Scenario.env_up "b" 1 (Server.boot Scenario.alerted_store)
     = (Ok {| Sos.status := 403;
              Sos.json := Sos.ErrorBody "Unauthorized to resolve this alert" |},
        Server.boot Scenario.alerted_store).
Proof.
  assert (H : Query.alert_by_id (db (Server.boot Scenario.alerted_store)) 1 = None
              \/ (exists alert,
                    Query.alert_by_id (db (Server.boot Scenario.alerted_store)) 1
                    = Some alert /\ a_user_id alert <> "b")).
  { right. exists Scenario.alert_1. split; [reflexivity | discriminate]. }
  exact (conj H (resolve_refuses_foreign_alert Scenario.env_up
                   (Server.boot Scenario.alerted_store) "b" 1 H)).
Defined.

Lemma sendResolutionNotification_posts env recipient name w :
  exists r sent,
    Sos.sendResolutionNotification env recipient name w = (r, with_out w sent)
    /\ Forall (fun e => is_fcm e = true) sent.
Proof.
  unfold Sos.sendResolutionNotification, Sos.sendFCMNotification.
  unfold mbind at 1, M_bind at 1, get_db. cbn beta iota.
  destruct (Query.user_by_opt_id (db w) recipient ≫= fcm_token) as [token|].
  2:{ exists (Ok tt), []. by rewrite with_out_nil. }
  destruct (Js.truthy_str token).
  2:{ exists (Ok tt), []. by rewrite with_out_nil. }
  unfold mbind, M_bind, emit, throw, mret, M_ret. cbn beta iota.
  destruct (fcm_ok env token); eexists _, [_];
    (split; [reflexivity | by repeat constructor]).
Qed.

Lemma notify_resolved_posts env s ns w :
  exists r sent,
    Sos.notify_resolved env s ns w = (r, with_out w sent)
    /\ Forall (fun e => is_fcm e = true) sent.
Proof.
  revert w. induction ns as [|n rest IH]; intros w.
  - exists (Ok []), []. by rewrite with_out_nil.
  - cbn [Sos.notify_resolved].
    destruct (Sos.owner_name s n) as [name|].
    2:{ eexists _, []. rewrite with_out_nil. split; [reflexivity | constructor]. }
    destruct (sendResolutionNotification_posts env (recipient_user_id n) name w)
      as (r & sent1 & Hrun & H1).
    destruct (IH (with_out w sent1)) as (rs & sent2 & Hrest & H2).
    unfold mbind, M_bind, settle, deref, mret, M_ret. cbn beta iota.
    rewrite Hrun. unfold mbind, M_bind in Hrest. rewrite Hrest.
    rewrite with_out_app.
    destruct rs as [l|e]; eexists _, _; (split; [reflexivity | by apply Forall_app]).
Qed.

Lemma other_alerts_resolved env alertId s :
  other_alerts alertId (Db.map_alerts (Sos.mark_resolved env alertId) s)
  = other_alerts alertId s.
Proof.
  unfold other_alerts. simpl. induction (sos_alerts s) as [|a l IH]; [done|].
  simpl. unfold Sos.mark_resolved at 1 2.
  destruct (Nat.eqb (a_id a) alertId) eqn:E; simpl; rewrite E; simpl; by rewrite IH.
Qed.

(** X6.  Whatever its answer, a resolve sends nothing but FCM posts (no SMS,
    nothing over a socket), leaves presence and every table other than
    [sos_alerts] as they were, and leaves every alert other than the one
    named untouched. *)
Theorem resolve_touches_one_alert env w userId alertId :
  exists r sent w',
    Sos.resolve env userId alertId w = (r, w')
    /\ out w' = (out w ++ sent)%list
    /\ Forall (fun e => is_fcm e = true) sent
    /\ same_but_alerts (db w) (db w')
    /\ other_alerts alertId (db w') = other_alerts alertId (db w)
    /\ same_presence w w'.
Proof.
  assert (Hsame : forall r : outcome Sos.response,
             exists sent w',
               (r, w) = (r, w') /\ out w' = (out w ++ sent)%list
               /\ Forall (fun e => is_fcm e = true) sent
               /\ same_but_alerts (db w) (db w')
               /\ other_alerts alertId (db w') = other_alerts alertId (db w)
               /\ same_presence w w').
  { intros r. exists [], w. rewrite app_nil_r. by repeat split. }
  unfold Sos.resolve, try_catch.
  unfold mbind at 1, M_bind at 1, get_db at 1. cbn beta iota.
  destruct (Query.alert_by_id (db w) alertId) as [alert|];
    [|eexists; apply Hsame].
  destruct (negb (String.eqb (a_user_id alert) userId)); [eexists; apply Hsame|].
  unfold Sos.update_resolved. destruct (update_alert_ok env);
    [|eexists; apply Hsame].
  unfold mbind at 1 2, M_bind at 1 2, set_db, get_db. cbn beta iota.
  set (w1 := {| db := Db.map_alerts (Sos.mark_resolved env alertId) (db w);
                activeUsers := activeUsers w; sockets := sockets w; out := out w |}).
  destruct (notify_resolved_posts env (db w1) (Query.notifications_of (db w1) alertId) w1)
    as (r & sent & Hrun & Hfcm).
  unfold mbind, M_bind. rewrite Hrun.
  destruct r as [l|e]; eexists _, sent, (with_out w1 sent);
    (split; [reflexivity|]); simpl; repeat split; try done;
    apply other_alerts_resolved.
Qed.

(** *** [GET /active] after a trigger and after a resolve *)

Lemma elem_of_active s a o :
  (a, o) ∈ Views.active s
  <-> a ∈ sos_alerts s /\ a_status a = Active /\ o = Query.user_by_id s (a_user_id a).
Proof.
  unfold Views.active. rewrite list_elem_of_In, List.in_map_iff. split.
  - intros (a' & [= <- <-] & Hin).
    apply list_elem_of_In in Hin. rewrite merge_sort_Permutation in Hin.
    apply list_elem_of_In, List.filter_In in Hin as [Hin Hst].
    apply bool_decide_eq_true in Hst. by rewrite list_elem_of_In.
  - intros (Hin & Hst & ->). exists a. split; [done|].
    apply list_elem_of_In. rewrite merge_sort_Permutation.
    apply list_elem_of_In, List.filter_In. split; [by apply list_elem_of_In|].
    by apply bool_decide_eq_true.
Qed.

Lemma trigger_no_contacts_run env w userId req u :
  Js.truthy_num (Sos.latitude req) = true ->
  Js.truthy_num (Sos.longitude req) = true ->
  Query.user_by_id (db w) userId = Some u ->
  insert_alert_ok env = true ->
  Query.contacts_of (db w) userId = [] ->
  exists alert,
    Sos.trigger env userId req w
    = (Ok Sos.no_contacts,
       {| db := Db.add_alert alert (db w); activeUsers := activeUsers w;
          sockets := sockets w; out := out w |})
    /\ a_user_id alert = userId
    /\ a_status alert = Active.
Proof.
  intros Hlat Hlon Hu Halert Hnone.
  unfold Sos.trigger, try_catch, Db.insert_alert.
  rewrite Hlat, Hlon, Halert. cbn [negb orb].
  unfold mbind at 1, M_bind at 1, get_db at 1. cbn beta iota. rewrite Hu.
  assert (Htext : exists text,
             (match Sos.message req with
              | Some m =>
                  if Js.truthy_str m then mret m
                  else u0 ← deref "user" (Some u);
                       mret ("EMERGENCY! " ++ full_name u0 ++ " needs help!")
              | None => u0 ← deref "user" (Some u);
                        mret ("EMERGENCY! " ++ full_name u0 ++ " needs help!")
              end : M string) w = (Ok text, w)).
  { destruct (Sos.message req) as [m|]; [destruct (Js.truthy_str m)|]; eauto. }
  destruct Htext as (text & Htext).
  unfold mbind at 1, M_bind at 1. rewrite Htext.
  unfold mbind, M_bind, get_db, set_db, mret, M_ret. cbn beta iota.
  set (alert := {| a_id := Db.fresh_alert_id (db w); a_user_id := userId;
                   a_latitude := Sos.latitude req; a_longitude := Sos.longitude req;
                   a_message := text; a_status := Active; is_resolved := false;
                   resolved_at := None; created_at := now env |}).
  set (w1 := {| db := Db.add_alert alert (db w); activeUsers := activeUsers w;
                sockets := sockets w; out := out w |}).
  change (Query.contacts_of (db w1) userId) with (Query.contacts_of (db w) userId).
  rewrite Hnone. simpl. by exists alert.
Qed.

(** X7.  A trigger that is rejected for lack of contacts still shows in
    [GET /active]: the list served to any authenticated caller then holds
    an active alert of that owner, joined with the owner's user row, that
    was not there before. *)
Theorem rejected_trigger_shows_as_active env w userId req u :
  Js.truthy_num (Sos.latitude req) = true ->
  Js.truthy_num (Sos.longitude req) = true ->
  Query.user_by_id (db w) userId = Some u ->
  insert_alert_ok env = true ->
  Query.contacts_of (db w) userId = [] ->
  exists alert w',
    Sos.trigger env userId req w = (Ok Sos.no_contacts, w')
    /\ (alert, Some u) ∈ Views.active (db w')
    /\ a_user_id alert = userId
    /\ length (Views.active (db w')) = S (length (Views.active (db w))).
Proof.
  intros Hlat Hlon Hu Halert Hnone.
  destruct (trigger_no_contacts_run env w userId req u Hlat Hlon Hu Halert Hnone)
    as (alert & -> & Howner & Hactive).
  eexists alert, _. split; [reflexivity|]. simpl. repeat split; [|done|].
  - apply elem_of_active. simpl. repeat split; [|done|].
    + apply elem_of_app. right. by apply list_elem_of_singleton.
    + rewrite Howner.
      change (Query.user_by_id (Db.add_alert alert (db w)) userId)
        with (Query.user_by_id (db w) userId). by rewrite Hu.
  - unfold Views.active. rewrite !List.length_map.
    rewrite !(Permutation_length (merge_sort_Permutation _ _)).
    simpl. rewrite List.filter_app, List.length_app. simpl.
    rewrite Hactive. simpl. lia.
Qed.

Lemma rejected_trigger_shows_as_active_witness :
  Js.truthy_num (Sos.latitude Scenario.request) = true
  /\ Js.truthy_num (Sos.longitude Scenario.request) = true
  /\ Query.user_by_id (db (Server.boot Scenario.lonely_store)) "a" = Some Scenario.ada
  /\ insert_alert_ok Scenario.env_up = true
  /\ Query.contacts_of (db (Server.boot Scenario.lonely_store)) "a" = []
  /\ exists alert w',
       Sos.trigger Scenario.env_up "a" Scenario.request
         (Server.boot Scenario.lonely_store) = (Ok Sos.no_contacts, w')
       /\ (alert, Some Scenario.ada) ∈ Views.active (db w')
       /\ a_user_id alert = "a"
       /\ length (Views.active (db w'))
          = S (length (Views.active (db (Server.boot Scenario.lonely_store)))).
Proof.
  assert (H1 : Js.truthy_num (Sos.latitude Scenario.request) = true) by reflexivity.
  assert (H2 : Js.truthy_num (Sos.longitude Scenario.request) = true) by reflexivity.
  assert (H3 : Query.user_by_id (db (Server.boot Scenario.lonely_store)) "a"
               = Some Scenario.ada) by (vm_compute; reflexivity).
  assert (H4 : insert_alert_ok Scenario.env_up = true) by reflexivity.
  assert (H5 : Query.contacts_of (db (Server.boot Scenario.lonely_store)) "a" = [])
    by (vm_compute; reflexivity).
  exact (conj H1 (conj H2 (conj H3 (conj H4 (conj H5
           (rejected_trigger_shows_as_active Scenario.env_up
              (Server.boot Scenario.lonely_store) "a" Scenario.request
              Scenario.ada H1 H2 H3 H4 H5)))))).
Defined.

Lemma resolve_accepted_run env w userId alertId alert u :
  Query.alert_by_id (db w) alertId = Some alert ->
  a_user_id alert = userId ->
  Query.user_by_id (db w) userId = Some u ->
  update_alert_ok env = true ->
  exists sent,
    Sos.resolve env userId alertId w
    = (Ok {| Sos.status := 200;
             Sos.json := Sos.MessageBody "Alert resolved successfully" |},
       with_out {| db := Db.map_alerts (Sos.mark_resolved env alertId) (db w);
                   activeUsers := activeUsers w; sockets := sockets w;
                   out := out w |} sent).
Proof.
  intros Halert Howner Hu Hok.
  set (s' := Db.map_alerts (Sos.mark_resolved env alertId) (db w)).
  set (w1 := {| db := s'; activeUsers := activeUsers w; sockets := sockets w;
                out := out w |}).
  pose proof (alert_by_id_resolved env (db w) alertId alert Halert) as Hafter.
  fold s' in Hafter.
  destruct (notify_resolved_run env s' (Query.notifications_of s' alertId)
              (full_name u) w1) as (rs & sent & Hrun).
  { intros n Hin. apply list_elem_of_In, List.filter_In in Hin as [_ Hid].
    apply Nat.eqb_eq in Hid. unfold Sos.owner_name. rewrite Hid, Hafter. simpl.
    rewrite Howner.
    change (Query.user_by_id s' userId) with (Query.user_by_id (db w) userId).
    by rewrite Hu. }
  exists sent.
  unfold Sos.resolve, try_catch, Sos.update_resolved.
  unfold mbind at 1, M_bind at 1, get_db at 1. cbn beta iota.
  rewrite Halert, Howner, String.eqb_refl, Hok. cbn [negb].
  unfold mbind, M_bind, set_db, get_db, mret, M_ret. cbn beta iota.
  fold s'. fold w1. unfold mbind, M_bind in Hrun.
  change (db w1) with s'. by rewrite Hrun.
Qed.

Lemma elem_of_map_mark_resolved env alertId a l :
  a ∈ List.map (Sos.mark_resolved env alertId) l ->
  (a_id a = alertId /\ a_status a = Resolved) \/ (a_id a <> alertId /\ a ∈ l).
Proof.
  rewrite list_elem_of_In, List.in_map_iff. intros (a0 & <- & Hin).
  apply list_elem_of_In in Hin. unfold Sos.mark_resolved.
  destruct (Nat.eqb (a_id a0) alertId) eqn:E.
  - left. simpl. split; [by apply Nat.eqb_eq | done].
  - right. split; [by apply Nat.eqb_neq | done].
Qed.

(** X8.  When the owner's resolve is accepted, [GET /active] afterwards lists
    exactly what it listed before minus the resolved alert: that alert is
    gone, no other entry appears, disappears or changes. *)
Theorem resolved_alert_leaves_active_list env w userId alertId alert u :
  Query.alert_by_id (db w) alertId = Some alert ->
  a_user_id alert = userId ->
  Query.user_by_id (db w) userId = Some u ->
  update_alert_ok env = true ->
  exists w',
    Sos.resolve env userId alertId w
    = (Ok {| Sos.status := 200;
             Sos.json := Sos.MessageBody "Alert resolved successfully" |}, w')
    /\ forall e, e ∈ Views.active (db w')
                 <-> e ∈ Views.active (db w) /\ a_id e.1 <> alertId.
Proof.
  intros Halert Howner Hu Hok.
  destruct (resolve_accepted_run env w userId alertId alert u Halert Howner Hu Hok)
    as (sent & ->).
  eexists. split; [reflexivity|]. intros [a o]. simpl.
  rewrite !elem_of_active. simpl.
  change (Query.user_by_id (Db.map_alerts (Sos.mark_resolved env alertId) (db w))
            (a_user_id a))
    with (Query.user_by_id (db w) (a_user_id a)).
  split.
  - intros (Hin & Hst & Ho).
    apply elem_of_map_mark_resolved in Hin as [[_ Hres] | [Hne Hin]];
      [congruence | done].
  - intros ((Hin & Hst & Ho) & Hne). repeat split; try done.
    apply list_elem_of_In, List.in_map_iff. exists a.
    split; [|by apply list_elem_of_In].
    unfold Sos.mark_resolved. apply Nat.eqb_neq in Hne. by rewrite Hne.
Qed.

Lemma resolved_alert_leaves_active_list_witness :
  Query.alert_by_id (db (Server.boot Scenario.alerted_store)) 1 = Some Scenario.alert_1
  /\ a_user_id Scenario.alert_1 = "a"
  /\ Query.user_by_id (db (Server.boot Scenario.alerted_store)) "a" = Some Scenario.ada
  /\ update_alert_ok Scenario.env_up = true
  /\ exists w',
       Sos.resolve Scenario.env_up "a" 1 (Server.boot Scenario.alerted_store)
       = (Ok {| Sos.status := 200;
                Sos.json := Sos.MessageBody "Alert resolved successfully" |}, w')
       /\ forall e, e ∈ Views.active (db w')
                    <-> e ∈ Views.active (db (Server.boot Scenario.alerted_store))
                        /\ a_id e.1 <> 1%nat.
Proof.
  assert (H1 : Query.alert_by_id (db (Server.boot Scenario.alerted_store)) 1
               = Some Scenario.alert_1) by (vm_compute; reflexivity).
  assert (H2 : a_user_id Scenario.alert_1 = "a") by reflexivity.
  assert (H3 : Query.user_by_id (db (Server.boot Scenario.alerted_store)) "a"
               = Some Scenario.ada) by (vm_compute; reflexivity).
  assert (H4 : update_alert_ok Scenario.env_up = true) by reflexivity.
  exact (conj H1 (conj H2 (conj H3 (conj H4
           (resolved_alert_leaves_active_list Scenario.env_up
              (Server.boot Scenario.alerted_store) "a" 1 Scenario.alert_1
              Scenario.ada H1 H2 H3 H4))))).
Defined.

(** *** From the trigger to the resolution *)

#[global] Instance keeps_alerts_refl : Reflexive keeps_alerts_and_users.
Proof. by intros w. Qed.

#[global] Instance keeps_alerts_trans : Transitive keeps_alerts_and_users.
Proof. intros w1 w2 w3 [H1 H2] [H3 H4]. split; congruence. Qed.

Lemma keeps_alerts_emit e : respects keeps_alerts_and_users (emit e).
Proof. by intros w. Qed.

Lemma keeps_alerts_add_notification r :
  respects keeps_alerts_and_users (set_db (Db.add_notification r)).
Proof. by intros w. Qed.

Lemma keeps_alerts_send env c user alert :
  respects keeps_alerts_and_users (Sos.sendSOSNotification env c user alert).
Proof.
  unfold Sos.sendSOSNotification, Sos.push_step, Sos.sms_step,
    Sos.sendFCMNotification, Sos.sendSMS, Db.insert_notification.
  frame_with ltac:(first [ apply keeps_alerts_emit
                         | apply keeps_alerts_add_notification ]).
Qed.

Lemma fresh_alert_id_above s a :
  a ∈ sos_alerts s -> (a_id a < Db.fresh_alert_id s)%nat.
Proof.
  unfold Db.fresh_alert_id. induction (sos_alerts s) as [|b l IH]; intros Hin.
  - by apply elem_of_nil in Hin.
  - apply elem_of_cons in Hin as [-> | Hin]; simpl; [lia|].
    specialize (IH Hin). lia.
Qed.

Lemma filter_none {A} (f : A -> bool) (l : list A) :
  (forall x, x ∈ l -> f x = false) -> List.filter f l = [].
Proof.
  induction l as [|x l IH]; intros H; [done|]. simpl.
  rewrite (H x) by by left. apply IH. intros y Hy. apply H. by right.
Qed.

Lemma alert_by_id_appended s l alert :
  l = (sos_alerts s ++ [alert])%list ->
  a_id alert = Db.fresh_alert_id s ->
  Query.single (List.filter (fun a => Nat.eqb (a_id a) (a_id alert)) l) = Some alert.
Proof.
  intros -> Hid. rewrite List.filter_app. simpl. rewrite Nat.eqb_refl.
  assert (Hnone : List.filter (fun a => Nat.eqb (a_id a) (a_id alert)) (sos_alerts s) = []).
  { apply filter_none. intros a Hin. apply fresh_alert_id_above in Hin.
    apply Nat.eqb_neq. lia. }
  by rewrite Hnone.
Qed.

Lemma trigger_stores_alert env w userId req u :
  Js.truthy_num (Sos.latitude req) = true ->
  Js.truthy_num (Sos.longitude req) = true ->
  Query.user_by_id (db w) userId = Some u ->
  insert_alert_ok env = true ->
  (1 <= length (Query.contacts_of (db w) userId))%nat ->
  exists alert text sent w',
    Sos.trigger env userId req w
    = (Ok {| Sos.status := 200;
             Sos.json := Sos.TriggerBody (a_id alert) text sent
                           (length (Query.contacts_of (db w) userId)) alert |}, w')
    /\ a_user_id alert = userId
    /\ a_id alert = Db.fresh_alert_id (db w)
    /\ sos_alerts (db w') = (sos_alerts (db w) ++ [alert])%list
    /\ users (db w') = users (db w).
Proof.
  intros Hlat Hlon Hu Halert Hn.
  unfold Sos.trigger, try_catch, Db.insert_alert.
  rewrite Hlat, Hlon, Halert. cbn [negb orb].
  unfold mbind at 1, M_bind at 1, get_db at 1. cbn beta iota. rewrite Hu.
  assert (Htext : exists text,
             (match Sos.message req with
              | Some m =>
                  if Js.truthy_str m then mret m
                  else u0 ← deref "user" (Some u);
                       mret ("EMERGENCY! " ++ full_name u0 ++ " needs help!")
              | None => u0 ← deref "user" (Some u);
                        mret ("EMERGENCY! " ++ full_name u0 ++ " needs help!")
              end : M string) w = (Ok text, w)).
  { destruct (Sos.message req) as [m|]; [destruct (Js.truthy_str m)|]; eauto. }
  destruct Htext as (text & Htext).
  unfold mbind at 1, M_bind at 1. rewrite Htext.
  unfold mbind, M_bind, get_db, set_db, mret, M_ret. cbn beta iota.
  set (alert := {| a_id := Db.fresh_alert_id (db w); a_user_id := userId;
                   a_latitude := Sos.latitude req; a_longitude := Sos.longitude req;
                   a_message := text; a_status := Active; is_resolved := false;
                   resolved_at := None; created_at := now env |}).
  set (w1 := {| db := Db.add_alert alert (db w); activeUsers := activeUsers w;
                sockets := sockets w; out := out w |}).
  change (Query.contacts_of (db w1) userId) with (Query.contacts_of (db w) userId).
  destruct (Query.contacts_of (db w) userId) as [|c0 cs] eqn:Hcs;
    [simpl in Hn; lia|]. rewrite <- Hcs in *. clear Hn.
  assert (Hlen : (length (Query.contacts_of (db w) userId) =? 0)%nat = false).
  { rewrite Hcs. reflexivity. }
  rewrite Hlen.
  set (tasks := List.map (fun c => Sos.sendSOSNotification env c (Some u) alert)
                  (Query.contacts_of (db w) userId)).
  destruct (allSettled_total tasks w1) as (rs & w2 & Hrun).
  assert (Hkeep : keeps_alerts_and_users w1 (allSettled tasks w1).2).
  { apply respects_allSettled; [apply _ ..|].
    apply List.Forall_map, List.Forall_forall. intros c _. apply keeps_alerts_send. }
  rewrite Hrun in Hkeep. destruct Hkeep as [Ha Hus]. simpl in Ha, Hus.
  unfold mbind, M_bind in Hrun. rewrite Hrun.
  by eexists alert, _, _, w2.
Qed.

(** X9.  The [alertId] a successful trigger returns can be resolved by the
    owner, who is answered 200, and by nobody else: any other caller is
    answered 403 and changes nothing. *)
Theorem triggered_alert_is_resolvable_by_owner_only env env' w userId req u :
  Js.truthy_num (Sos.latitude req) = true ->
  Js.truthy_num (Sos.longitude req) = true ->
  Query.user_by_id (db w) userId = Some u ->
  insert_alert_ok env = true ->
  (1 <= length (Query.contacts_of (db w) userId))%nat ->
  update_alert_ok env' = true ->
  exists alert text sent w',
    Sos.trigger env userId req w
    = (Ok {| Sos.status := 200;
             Sos.json := Sos.TriggerBody (a_id alert) text sent
                           (length (Query.contacts_of (db w) userId)) alert |}, w')
    /\ (exists w'',
          Sos.resolve env' userId (a_id alert) w'
          = (Ok {| Sos.status := 200;
                   Sos.json := Sos.MessageBody "Alert resolved successfully" |}, w''))
    /\ (forall other, other <> userId ->
          Sos.resolve env' other (a_id alert) w'
          = (Ok {| Sos.status := 403;
                   Sos.json := Sos.ErrorBody "Unauthorized to resolve this alert" |},
             w')).
Proof.
  intros Hlat Hlon Hu Halert Hn Hupd.
  destruct (trigger_stores_alert env w userId req u Hlat Hlon Hu Halert Hn)
    as (alert & text & sent & w' & Hrun & Howner & Hid & Halerts & Husers).
  assert (Hfound : Query.alert_by_id (db w') (a_id alert) = Some alert).
  { unfold Query.alert_by_id. by apply (alert_by_id_appended (db w)). }
  assert (Hu' : Query.user_by_id (db w') userId = Some u).
  { unfold Query.user_by_id in *. by rewrite Husers. }
  exists alert, text, sent, w'. split; [exact Hrun|]. split.
  - destruct (resolve_accepted_run env' w' userId (a_id alert) alert u
                Hfound Howner Hu' Hupd) as (out' & Hres).
    eexists. exact Hres.
  - intros other Hne. unfold Sos.resolve, try_catch.
    unfold mbind at 1, M_bind at 1, get_db at 1. cbn beta iota.
    rewrite Hfound, Howner.
    assert (Hneq : String.eqb userId other = false) by (apply String.eqb_neq; congruence).
    by rewrite Hneq.
Qed.

Lemma triggered_alert_is_resolvable_by_owner_only_witness :
  Js.truthy_num (Sos.latitude Scenario.request) = true
  /\ Js.truthy_num (Sos.longitude Scenario.request) = true
  /\ Query.user_by_id (db (Server.boot Scenario.reachable_store)) "a"
     = Some Scenario.ada
  /\ insert_alert_ok Scenario.env_fcm_down = true
  /\ (1 <= length (Query.contacts_of (db (Server.boot Scenario.reachable_store)) "a"))%nat
  /\ update_alert_ok Scenario.env_up = true
  /\ exists alert text sent w',
       Sos.trigger Scenario.env_fcm_down "a" Scenario.request
         (Server.boot Scenario.reachable_store)
       = (Ok {| Sos.status := 200;
                Sos.json := Sos.TriggerBody (a_id alert) text sent
                  (length (Query.contacts_of
                             (db (Server.boot Scenario.reachable_store)) "a")) alert |},
          w')
       /\ (exists w'',
             Sos.resolve Scenario.env_up "a" (a_id alert) w'
             = (Ok {| Sos.status := 200;
                      Sos.json := Sos.MessageBody "Alert resolved successfully" |}, w''))
       /\ (forall other, other <> "a" ->
             Sos.resolve Scenario.env_up other (a_id alert) w'
             = (Ok {| Sos.status := 403;
                      Sos.json := Sos.ErrorBody "Unauthorized to resolve this alert" |},
                w')).
Proof.
  assert (H1 : Js.truthy_num (Sos.latitude Scenario.request) = true) by reflexivity.
  assert (H2 : Js.truthy_num (Sos.longitude Scenario.request) = true) by reflexivity.
  assert (H3 : Query.user_by_id (db (Server.boot Scenario.reachable_store)) "a"
               = Some Scenario.ada) by (vm_compute; reflexivity).
  assert (H4 : insert_alert_ok Scenario.env_fcm_down = true) by reflexivity.
  assert (H5 : (1 <= length (Query.contacts_of
                               (db (Server.boot Scenario.reachable_store)) "a"))%nat)
    by (vm_compute; lia).
  assert (H6 : update_alert_ok Scenario.env_up = true) by reflexivity.
  exact (conj H1 (conj H2 (conj H3 (conj H4 (conj H5 (conj H6
           (triggered_alert_is_resolvable_by_owner_only Scenario.env_fcm_down
              Scenario.env_up (Server.boot Scenario.reachable_store) "a"
              Scenario.request Scenario.ada H1 H2 H3 H4 H5 H6))))))).
Defined.

(** *** The [sos_alert] handler: delivery over the socket path *)

(** X10.  Over the socket the SMS is unconditional: for a known sender and a
    payload with coordinates, every contact with a phone number is sent an
    SMS whatever FCM answers, no error is emitted, and the sender is
    acknowledged with [sos_sent]. *)
Theorem sos_alert_texts_every_phone env w sid data u lat lon :
  insert_alert_ok env = true ->
  Query.user_by_id (db w) (Server.sd_userId data) = Some u ->
  Server.sd_latitude data = Some lat ->
  Server.sd_longitude data = Some lon ->
  exists sent alertId w',
    Server.sos_alert env sid data w = (Ok tt, w')
    /\ out w' = (out w ++ sent ++ [EmitSosSent sid alertId])%list
    /\ Forall (texted sent) (Query.contacts_of (db w) (Server.sd_userId data))
    /\ Forall (fun e => is_error e = false) sent.
Proof.
  intros Hok Hu Hlat Hlon.
  destruct (sos_alert_run env w sid data u lat lon Hok Hu Hlat Hlon)
    as (alert & sent & -> & _ & _ & Htexts & Herrs).
  by eexists sent, (a_id alert), _.
Qed.

Lemma sos_alert_texts_every_phone_witness :
  insert_alert_ok Scenario.env_fcm_down = true
  /\ Query.user_by_id (db Cases.reachable_world) (Server.sd_userId Scenario.sos_sample)
     = Some Scenario.ada
  /\ Server.sd_latitude Scenario.sos_sample = Some 65244
  /\ Server.sd_longitude Scenario.sos_sample = Some 33792
  /\ exists sent alertId w',
       Server.sos_alert Scenario.env_fcm_down "k0" Scenario.sos_sample
         Cases.reachable_world = (Ok tt, w')
       /\ out w' = (out Cases.reachable_world ++ sent ++ [EmitSosSent "k0" alertId])%list
       /\ Forall (texted sent)
            (Query.contacts_of (db Cases.reachable_world)
               (Server.sd_userId Scenario.sos_sample))
       /\ Forall (fun e => is_error e = false) sent.
Proof.
  assert (H1 : insert_alert_ok Scenario.env_fcm_down = true) by reflexivity.
  assert (H2 : Query.user_by_id (db Cases.reachable_world)
                 (Server.sd_userId Scenario.sos_sample) = Some Scenario.ada)
    by (vm_compute; reflexivity).
  assert (H3 : Server.sd_latitude Scenario.sos_sample = Some 65244) by reflexivity.
  assert (H4 : Server.sd_longitude Scenario.sos_sample = Some 33792) by reflexivity.
  exact (conj H1 (conj H2 (conj H3 (conj H4
           (sos_alert_texts_every_phone Scenario.env_fcm_down Cases.reachable_world
              "k0" Scenario.sos_sample Scenario.ada 65244 33792 H1 H2 H3 H4))))).
Defined.

(** X11.  Over the socket the handler stores one active alert and writes one
    row per contact, each marked as delivered, whatever the push, FCM and
    SMS steps did. *)
Theorem sos_alert_writes_one_row_per_contact env w sid data u lat lon :
  insert_alert_ok env = true ->
  insert_notification_ok env = true ->
  Query.user_by_id (db w) (Server.sd_userId data) = Some u ->
  Server.sd_latitude data = Some lat ->
  Server.sd_longitude data = Some lon ->
  exists alert w',
    Server.sos_alert env sid data w = (Ok tt, w')
    /\ sos_alerts (db w') = (sos_alerts (db w) ++ [alert])%list
    /\ a_user_id alert = Server.sd_userId data
    /\ a_status alert = Active
    /\ sos_notifications (db w')
       ≡ₚ (sos_notifications (db w)
           ++ List.map (delivered_row env alert)
                (Query.contacts_of (db w) (Server.sd_userId data)))%list.
Proof.
  intros Hok Hnote Hu Hlat Hlon.
  destruct (sos_alert_run env w sid data u lat lon Hok Hu Hlat Hlon)
    as (alert & sent & -> & Howner & Hactive & _ & _).
  eexists alert, _. split; [reflexivity|]. rewrite Hnote. by simpl.
Qed.

Lemma sos_alert_writes_one_row_per_contact_witness :
  insert_alert_ok Scenario.env_fcm_down = true
  /\ insert_notification_ok Scenario.env_fcm_down = true
  /\ Query.user_by_id (db Cases.reachable_world) (Server.sd_userId Scenario.sos_sample)
     = Some Scenario.ada
  /\ Server.sd_latitude Scenario.sos_sample = Some 65244
  /\ Server.sd_longitude Scenario.sos_sample = Some 33792
  /\ exists alert w',
       Server.sos_alert Scenario.env_fcm_down "k0" Scenario.sos_sample
         Cases.reachable_world = (Ok tt, w')
       /\ sos_alerts (db w') = (sos_alerts (db Cases.reachable_world) ++ [alert])%list
       /\ a_user_id alert = Server.sd_userId Scenario.sos_sample
       /\ a_status alert = Active
       /\ sos_notifications (db w')
          ≡ₚ (sos_notifications (db Cases.reachable_world)
             ++ List.map (delivered_row Scenario.env_fcm_down alert)
                  (Query.contacts_of (db Cases.reachable_world)
                     (Server.sd_userId Scenario.sos_sample)))%list.
Proof.
  assert (H1 : insert_alert_ok Scenario.env_fcm_down = true) by reflexivity.
  assert (H0 : insert_notification_ok Scenario.env_fcm_down = true) by reflexivity.
  assert (H2 : Query.user_by_id (db Cases.reachable_world)
                 (Server.sd_userId Scenario.sos_sample) = Some Scenario.ada)
    by (vm_compute; reflexivity).
  assert (H3 : Server.sd_latitude Scenario.sos_sample = Some 65244) by reflexivity.
  assert (H4 : Server.sd_longitude Scenario.sos_sample = Some 33792) by reflexivity.
  exact (conj H1 (conj H0 (conj H2 (conj H3 (conj H4
           (sos_alert_writes_one_row_per_contact Scenario.env_fcm_down
              Cases.reachable_world "k0" Scenario.sos_sample Scenario.ada
              65244 33792 H1 H0 H2 H3 H4)))))).
Defined.

(** X12.  Over the socket there is no no-contacts rejection: an SOS from a user
    without emergency contacts is stored as an active alert and
    acknowledged with [sos_sent]; nothing else is sent and no notification
    row is written. *)
Theorem sos_alert_without_contacts_reports_success env w sid data :
  insert_alert_ok env = true ->
  Query.contacts_of (db w) (Server.sd_userId data) = [] ->
  exists alert,
    Server.sos_alert env sid data w
    = (Ok tt, with_out (with_db w (Db.add_alert alert (db w)))
                [EmitSosSent sid (a_id alert)])
    /\ a_user_id alert = Server.sd_userId data
    /\ a_status alert = Active.
Proof.
  intros Hok Hnone.
  unfold Server.sos_alert, try_catch, Db.insert_alert. rewrite Hok.
  unfold mbind, M_bind, get_db, set_db, mret, M_ret.
  cbn beta iota.
  set (alert := {| a_id := Db.fresh_alert_id (db w);
                   a_user_id := Server.sd_userId data;
                   a_latitude := Server.sd_latitude data;
                   a_longitude := Server.sd_longitude data;
                   a_message := Server.message_or (Server.sd_message data)
                                  "Emergency! I need help!";
                   a_status := Active; is_resolved := false;
                   resolved_at := None; created_at := now env |}).
  set (w1 := {| db := Db.add_alert alert (db w); activeUsers := activeUsers w;
                sockets := sockets w; out := out w |}).
  change (Query.contacts_of (db w1) (Server.sd_userId data))
    with (Query.contacts_of (db w) (Server.sd_userId data)).
  rewrite Hnone. by exists alert.
Qed.

Lemma sos_alert_without_contacts_reports_success_witness :
  insert_alert_ok Scenario.env_up = true
  /\ Query.contacts_of (db (Server.boot Scenario.lonely_store))
       (Server.sd_userId Scenario.sos_sample) = []
  /\ exists alert,
       Server.sos_alert Scenario.env_up "k0" Scenario.sos_sample
         (Server.boot Scenario.lonely_store)
       = (Ok tt, with_out (with_db (Server.boot Scenario.lonely_store)
                             (Db.add_alert alert
                                (db (Server.boot Scenario.lonely_store))))
                   [EmitSosSent "k0" (a_id alert)])
       /\ a_user_id alert = Server.sd_userId Scenario.sos_sample
       /\ a_status alert = Active.
Proof.
  assert (H1 : insert_alert_ok Scenario.env_up = true) by reflexivity.
  assert (H2 : Query.contacts_of (db (Server.boot Scenario.lonely_store))
                 (Server.sd_userId Scenario.sos_sample) = [])
    by (vm_compute; reflexivity).
  exact (conj H1 (conj H2
           (sos_alert_without_contacts_reports_success Scenario.env_up
              (Server.boot Scenario.lonely_store) "k0" Scenario.sos_sample H1 H2))).
Defined.

(** *** The presence map over whole traces *)

Lemma step_lookup_origin env w ev u sid :
  Server.lookup (Server.step env w ev) u = Some sid ->
  Server.lookup w u = Some sid \/ ev = Server.Join sid u.
Proof.
  unfold Server.lookup.
  assert (Hframe : forall m : M unit,
             respects same_presence m ->
             activeUsers (m w).2 !! u = Some sid -> activeUsers w !! u = Some sid).
  { intros m Hm. by destruct (Hm w) as [-> _]. }
  destruct ev as [k|k v|k data|k data|k]; simpl;
    try case_decide; simpl; auto.
  - rewrite lookup_insert. case_decide as Hv; [|auto].
    intros [= ->]. right. by rewrite Hv.
  - intros Hl. left. by apply (Hframe _ (presence_location_update env k data)).
  - intros Hl. left. by apply (Hframe _ (presence_sos_alert env k data)).
  - destruct (sockets w !! k ≫= id) as [v|]; [|auto].
    destruct (Js.truthy_str v); [|auto].
    rewrite lookup_delete. case_decide; [done | auto].
Qed.

Lemma run_lookup_origin env evs w u sid :
  Server.lookup (Server.run env w evs) u = Some sid ->
  Server.lookup w u = Some sid \/ Server.Join sid u ∈ evs.
Proof.
  revert w. induction evs as [|ev evs IH]; intros w; [by left|].
  simpl. intros H. destruct (IH _ H) as [Hw | Hin].
  - destruct (step_lookup_origin env w ev u sid Hw) as [? | ->]; [by left|].
    right. by left.
  - right. by right.
Qed.

(** X13.  Whatever the clients send after start-up, an entry [u -> sid] of the
    presence map is there only because socket [sid] sent [join u]: no
    handler invents one, and the data handlers add none. *)
Theorem presence_entries_come_from_joins env s evs u sid :
  Server.lookup (Server.run env (Server.boot s) evs) u = Some sid ->
  Server.Join sid u ∈ evs.
Proof.
  intros H. destruct (run_lookup_origin env evs (Server.boot s) u sid H) as [Hb | Hin];
    [|exact Hin].
  unfold Server.lookup, Server.boot in Hb. simpl in Hb.
  by rewrite lookup_empty in Hb.
Qed.

Lemma presence_entries_come_from_joins_witness :
  Server.lookup
    (Server.run Scenario.env_up (Server.boot empty_store)
       [Server.Connection "h1"; Server.Join "h1" "alice"]) "alice" = Some "h1"
  /\ Server.Join "h1" "alice" ∈ [Server.Connection "h1"; Server.Join "h1" "alice"].
Proof.
  assert (H : Server.lookup
                (Server.run Scenario.env_up (Server.boot empty_store)
                   [Server.Connection "h1"; Server.Join "h1" "alice"]) "alice"
              = Some "h1") by (vm_compute; reflexivity).
  exact (conj H (presence_entries_come_from_joins Scenario.env_up empty_store
                   [Server.Connection "h1"; Server.Join "h1" "alice"]
                   "alice" "h1" H)).
Defined.

Lemma run_data_events env evs w :
  Forall (fun ev => carries_data ev = true) evs ->
  same_presence w (Server.run env w evs).
Proof.
  intros H. revert w. induction H as [|ev evs Hev _ IH]; intros w; [done|].
  simpl. etrans; [|apply IH].
  destruct ev as [k|k v|k data|k data|k]; try discriminate; simpl;
    case_decide; try done.
  - apply presence_location_update.
  - apply presence_sos_alert.
Qed.

(** X14.  Location updates and SOS alerts, accepted or not, never change who is
    present nor which sockets are open: only [connection], [join] and
    [disconnect] do. *)
Theorem data_events_keep_presence env evs w :
  Forall (fun ev => carries_data ev = true) evs ->
  activeUsers (Server.run env w evs) = activeUsers w
  /\ sockets (Server.run env w evs) = sockets w.
Proof. intros H. exact (run_data_events env evs w H). Qed.

Lemma data_events_keep_presence_witness :
  Forall (fun ev => carries_data ev = true)
    [Server.SosAlert "k0" Scenario.sos_sample;
     Server.LocationUpdate "k0" Scenario.sample]
  /\ activeUsers
       (Server.run Scenario.env_fcm_down Cases.reachable_world
          [Server.SosAlert "k0" Scenario.sos_sample;
           Server.LocationUpdate "k0" Scenario.sample])
     = activeUsers Cases.reachable_world.
Proof.
  assert (H : Forall (fun ev => carries_data ev = true)
                [Server.SosAlert "k0" Scenario.sos_sample;
                 Server.LocationUpdate "k0" Scenario.sample])
    by (repeat constructor).
  exact (conj H (proj1 (data_events_keep_presence Scenario.env_fcm_down
                          [Server.SosAlert "k0" Scenario.sos_sample;
                           Server.LocationUpdate "k0" Scenario.sample]
                          Cases.reachable_world H))).
Defined.

(** The invariant of orderly traces: the presence map and the user ids of
    the open sockets say the same. *)
Lemma step_keeps_exact env w ev :
  exact_presence w -> orderly_event w ev -> exact_presence (Server.step env w ev).
Proof.
  intros [H1 H2] Hev.
  destruct ev as [k|k v|k data|k data|k]; simpl in *.
  - (* connection *)
    split.
    + intros u sid Hu; simpl in *. destruct (H1 u sid Hu) as [Hs Ht]. split; [|done].
      rewrite lookup_insert_ne; [done|]. intros ->. congruence.
    + intros sid u Hs; simpl in *. rewrite lookup_insert in Hs. case_decide; [done|]. by apply H2.
  - (* join *)
    destruct Hev as (Hopen & Habsent & Htruthy).
    rewrite decide_True by (rewrite Hopen; eauto). simpl. split.
    + intros u sid Hu; simpl in *. rewrite lookup_insert in Hu. case_decide as Huv.
      * injection Hu as <-. subst u. by rewrite lookup_insert_eq.
      * destruct (H1 u sid Hu) as [Hs Ht]. split; [|done].
        rewrite lookup_insert_ne; [done|]. intros ->. congruence.
    + intros sid u Hs; simpl in *. rewrite lookup_insert in Hs. case_decide as Hk.
      * injection Hs as <-. subst sid. by rewrite lookup_insert_eq.
      * pose proof (H2 sid u Hs) as Hu.
        rewrite lookup_insert_ne; [done|]. intros ->. congruence.
  - (* location_update *)
    case_decide; [|done].
    destruct (presence_location_update env k data w) as [Ha Hs].
    split; intros ? ?; simpl; rewrite ?Ha, ?Hs; [apply H1 | apply H2].
  - (* sos_alert *)
    case_decide; [|done].
    destruct (presence_sos_alert env k data w) as [Ha Hs].
    split; intros ? ?; simpl; rewrite ?Ha, ?Hs; [apply H1 | apply H2].
  - (* disconnect *)
    case_decide as Hopen; [|done]. simpl.
    destruct (sockets w !! k) as [[v|]|] eqn:Hk; simpl.
    + pose proof (H2 k v Hk) as Hv. destruct (H1 v k Hv) as [_ Ht]. rewrite Ht.
      split.
      * intros u sid Hu; simpl in *. rewrite lookup_delete in Hu. case_decide as Huv; [done|].
        destruct (H1 u sid Hu) as [Hs Htu]. split; [|done].
        rewrite lookup_delete_ne; [done|]. intros ->. congruence.
      * intros sid u Hs; simpl in *. rewrite lookup_delete in Hs. case_decide as Hsk; [done|].
        pose proof (H2 sid u Hs) as Hu.
        rewrite lookup_delete_ne; [done|]. intros ->. congruence.
    + split.
      * intros u sid Hu; simpl in *. destruct (H1 u sid Hu) as [Hs Htu]. split; [|done].
        rewrite lookup_delete_ne; [done|]. intros ->. congruence.
      * intros sid u Hs; simpl in *. rewrite lookup_delete in Hs. case_decide; [done|].
        by apply H2.
    + by destruct Hopen.
Qed.

Lemma run_keeps_exact env evs w :
  exact_presence w -> orderly env w evs -> exact_presence (Server.run env w evs).
Proof.
  revert w. induction evs as [|ev evs IH]; intros w Hw Hevs; [done|].
  destruct Hevs as [Hev Hrest]. simpl. apply IH; [|done].
  by apply step_keeps_exact.
Qed.

(** X15.  As long as the clients behave as the mobile app does (a fresh socket
    per connection, one [join] per socket with a non-empty user id, a user
    joining only while absent), the presence map is exact: [u] is mapped to
    [sid] exactly when socket [sid] is open and joined as [u]. *)
Theorem orderly_presence_is_exact env s evs u sid :
  orderly env (Server.boot s) evs ->
  Server.lookup (Server.run env (Server.boot s) evs) u = Some sid
  <-> sockets (Server.run env (Server.boot s) evs) !! sid = Some (Some u).
Proof.
  intros Hevs.
  assert (Hboot : exact_presence (Server.boot s)).
  { split; intros ? ?; simpl; by rewrite lookup_empty. }
  destruct (run_keeps_exact env evs (Server.boot s) Hboot Hevs) as [H1 H2].
  split; [intros H; by apply H1 | apply H2].
Qed.

Lemma orderly_presence_is_exact_witness :
  orderly Scenario.env_up (Server.boot empty_store)
    [Server.Connection "h1"; Server.Join "h1" "alice";
     Server.Connection "h2"; Server.Join "h2" "bob"; Server.Disconnect "h1"]
  /\ (Server.lookup
        (Server.run Scenario.env_up (Server.boot empty_store)
           [Server.Connection "h1"; Server.Join "h1" "alice";
            Server.Connection "h2"; Server.Join "h2" "bob"; Server.Disconnect "h1"])
        "bob" = Some "h2"
      <-> sockets
            (Server.run Scenario.env_up (Server.boot empty_store)
               [Server.Connection "h1"; Server.Join "h1" "alice";
                Server.Connection "h2"; Server.Join "h2" "bob"; Server.Disconnect "h1"])
          !! "h2" = Some (Some "bob")).
Proof.
  assert (H : orderly Scenario.env_up (Server.boot empty_store)
                [Server.Connection "h1"; Server.Join "h1" "alice";
                 Server.Connection "h2"; Server.Join "h2" "bob";
                 Server.Disconnect "h1"])
    by (repeat split; vm_compute; reflexivity).
  exact (conj H (orderly_presence_is_exact Scenario.env_up empty_store _ "bob" "h2" H)).
Defined.

(** *** [checkLocationPermission]: what it answers *)

(** X16.  [checkLocationPermission] answers [true] exactly for the user
    themself and for two users that exactly one accepted connection row
    links, whoever requested it; for every other pair it rejects at the
    family query and it never answers [false].  The outcome is the same in
    both directions, and the store is left as it was. *)
Theorem resolver_outcome_is_symmetric a b w :
  Locations.checkLocationPermission a b w = Locations.checkLocationPermission b a w
  /\ (Locations.checkLocationPermission a b w).2 = w
  /\ ((Locations.checkLocationPermission a b w).1 = Ok true
      <-> a = b
          \/ exists c, List.filter (Locations.accepted_between a b)
                         (user_connections (db w)) = [c])
  /\ ((Locations.checkLocationPermission a b w).1 = Throw (TypeError "values")
      <-> ~ (a = b
             \/ exists c, List.filter (Locations.accepted_between a b)
                            (user_connections (db w)) = [c])).
Proof.
  rewrite !checkLocationPermission_run.
  rewrite (List.filter_ext _ _ (accepted_between_comm b a)).
  rewrite (String.eqb_sym b a). cbn [fst snd].
  split; [reflexivity|]. split; [reflexivity|].
  assert (Hiff : String.eqb a b
                 || bool_decide
                      (is_Some (Query.single
                                  (List.filter (Locations.accepted_between a b)
                                     (user_connections (db w))))) = true
                 <-> a = b
                     \/ exists c, List.filter (Locations.accepted_between a b)
                                    (user_connections (db w)) = [c]).
  { by rewrite orb_true_iff, String.eqb_eq, bool_decide_eq_true, single_is_Some. }
  destruct (String.eqb a b || _) eqn:Hd.
  - split; [tauto|]. split; [discriminate|]. intros Hn. exfalso. tauto.
  - split.
    + split; [discriminate|]. intros H. apply Hiff in H. discriminate.
    + split; [|done]. intros _ H. apply Hiff in H. discriminate.
Qed.

(** *** The paged read routes *)

Section Page.
Context {A : Type} (R : relation A) `{!RelDecision R, !Transitive R, !Total R}.

Lemma newest_page (f : A -> bool) (l : list A) (n : nat) :
  let page := take n (merge_sort R (List.filter f l)) in
  (forall x, x ∈ page -> x ∈ l /\ f x = true)
  /\ (length page <= n)%nat
  /\ StronglySorted R page
  /\ (forall x, x ∈ l -> f x = true -> x ∉ page -> forall y, y ∈ page -> R y x).
Proof.
  set (sorted := merge_sort R (List.filter f l)). simpl.
  assert (Hsorted : StronglySorted R (take n sorted ++ drop n sorted)).
  { rewrite take_drop. apply StronglySorted_merge_sort; apply _. }
  apply StronglySorted_app in Hsorted as (Hcross & Hpage & _).
  assert (Hmem : forall x, x ∈ sorted <-> x ∈ l /\ f x = true).
  { intros x. unfold sorted. rewrite merge_sort_Permutation.
    by rewrite !list_elem_of_In, List.filter_In. }
  repeat split.
  - apply Hmem. rewrite <- (take_drop n sorted). apply elem_of_app. by left.
  - apply Hmem. rewrite <- (take_drop n sorted). apply elem_of_app. by left.
  - rewrite length_take. lia.
  - exact Hpage.
  - intros x Hx Hf Hout y Hy. apply Hcross; [done|].
    assert (Hin : x ∈ sorted) by by apply Hmem.
    rewrite <- (take_drop n sorted) in Hin.
    apply elem_of_app in Hin as [Hin | Hin]; [by destruct Hout | done].
Qed.
End Page.

#[global] Instance newest_sample_first_trans : Transitive Views.newest_sample_first.
Proof. intros a b c. unfold Views.newest_sample_first. lia. Qed.

#[global] Instance newest_sample_first_total : Total Views.newest_sample_first.
Proof. intros a b. unfold Views.newest_sample_first. lia. Qed.

#[global] Instance newest_alert_first_trans : Transitive Views.newest_alert_first.
Proof. intros a b c. unfold Views.newest_alert_first. lia. Qed.

#[global] Instance newest_alert_first_total : Total Views.newest_alert_first.
Proof. intros a b. unfold Views.newest_alert_first. lia. Qed.

(** X18.  [GET /history] serves only samples of the caller that lie in the
    requested range, at most [limit] of them (100 when no limit is given),
    newest first; what the limit cuts off is never newer than what is
    served. *)
Theorem history_serves_own_newest_samples s userId startDate endDate limit :
  let page := Views.history s userId startDate endDate limit in
  (forall r, r ∈ page ->
     r ∈ user_locations s /\ l_user_id r = userId
     /\ Views.in_range startDate endDate r = true)
  /\ (length page <= default 100%nat limit)%nat
  /\ StronglySorted Views.newest_sample_first page
  /\ (forall r, r ∈ user_locations s -> l_user_id r = userId ->
        Views.in_range startDate endDate r = true -> r ∉ page ->
        forall r', r' ∈ page -> l_timestamp r <= l_timestamp r').
Proof.
  destruct (newest_page Views.newest_sample_first
              (fun r => String.eqb (l_user_id r) userId
                        && Views.in_range startDate endDate r)
              (user_locations s) (default 100%nat limit))
    as (Hmem & Hlen & Hsorted & Hcut).
  unfold Views.history. simpl. repeat split; try done.
  - by apply Hmem.
  - destruct (Hmem r H) as [_ Hf]. apply andb_prop in Hf as [Hu _].
    by apply String.eqb_eq.
  - destruct (Hmem r H) as [_ Hf]. by apply andb_prop in Hf as [_ ?].
  - intros r Hin Hu Hrange Hout r' Hin'.
    apply (Hcut r); try done.
    apply andb_true_intro. split; [by apply String.eqb_eq | done].
Qed.

(** X19.  [GET /alerts] serves only alerts of the caller, of the requested
    status when one is given, at most [limit] of them (50 when no limit is
    given), newest first; what the limit cuts off is never newer than what
    is served. *)
Theorem alerts_serves_own_newest_alerts s userId status limit :
  let page := Views.alerts s userId status limit in
  (forall a, a ∈ page ->
     a ∈ sos_alerts s /\ a_user_id a = userId /\ Views.status_filter status a = true)
  /\ (length page <= default 50%nat limit)%nat
  /\ StronglySorted Views.newest_alert_first page
  /\ (forall a, a ∈ sos_alerts s -> a_user_id a = userId ->
        Views.status_filter status a = true -> a ∉ page ->
        forall a', a' ∈ page -> created_at a <= created_at a').
Proof.
  destruct (newest_page Views.newest_alert_first
              (fun a => String.eqb (a_user_id a) userId && Views.status_filter status a)
              (sos_alerts s) (default 50%nat limit))
    as (Hmem & Hlen & Hsorted & Hcut).
  unfold Views.alerts. simpl. repeat split; try done.
  - by apply Hmem.
  - destruct (Hmem a H) as [_ Hf]. apply andb_prop in Hf as [Hu _].
    by apply String.eqb_eq.
  - destruct (Hmem a H) as [_ Hf]. by apply andb_prop in Hf as [_ ?].
  - intros a Hin Hu Hst Hout a' Hin'.
    apply (Hcut a); try done.
    apply andb_true_intro. split; [by apply String.eqb_eq | done].
Qed.

(** *** The grouping of [GET /family/:familyId] *)

Lemma has_key_true {V} k (acc : list (string * V)) :
  Views.has_key k acc = true <-> k ∈ List.map fst acc.
Proof.
  unfold Views.has_key. rewrite List.existsb_exists, list_elem_of_In, List.in_map_iff.
  split.
  - intros (e & Hin & He). exists e. split; [by apply String.eqb_eq | done].
  - intros (e & He & Hin). exists e. split; [done | by apply String.eqb_eq].
Qed.

Lemma group_first_spec {V} (rows acc : list (string * V)) :
  NoDup (List.map fst acc) ->
  NoDup (List.map fst (Views.group_first acc rows))
  /\ (forall k, k ∈ List.map fst (Views.group_first acc rows)
                <-> k ∈ List.map fst acc \/ k ∈ List.map fst rows)
  /\ (forall k v, (k, v) ∈ Views.group_first acc rows ->
        (k, v) ∈ acc
        \/ ((k ∉ List.map fst acc)
            /\ exists pre post, rows = (pre ++ ((k, v) :: post))%list
                                /\ k ∉ List.map fst pre)).
Proof.
  revert acc. induction rows as [|[k0 v0] rest IH]; intros acc Hnd.
  - simpl. repeat split; try done.
    + by left.
    + intros [?|Hk]; [done|]. by apply elem_of_nil in Hk.
    + intros k v Hin. by left.
  - cbn [Views.group_first].
    destruct (Views.has_key k0 acc) eqn:Hk0.
    + apply has_key_true in Hk0.
      destruct (IH acc Hnd) as (H1 & H2 & H3). repeat split; [done| | |].
      * rewrite H2. simpl. intros [?|?]; [by left | by right; right].
      * rewrite H2. simpl. intros [?|Hk]; [by left|].
        apply elem_of_cons in Hk as [-> | Hk]; [by left | by right].
      * intros k v Hin. destruct (H3 k v Hin) as [? | (Hk & pre & post & -> & Hpre)];
          [by left|]. right. split; [done|].
        exists ((k0, v0) :: pre), post. split; [done|]. simpl.
        intros Hc. apply elem_of_cons in Hc as [-> | Hc]; [by apply Hk | by apply Hpre].
    + assert (Hfresh : k0 ∉ List.map fst acc).
      { intros Hc. apply has_key_true in Hc. congruence. }
      assert (Hnd' : NoDup (List.map fst (acc ++ [(k0, v0)]))).
      { rewrite List.map_app. simpl. apply NoDup_app. repeat split; [done| |].
        - intros k Hk Hc. apply list_elem_of_singleton in Hc as ->. by apply Hfresh.
        - apply NoDup_singleton. }
      destruct (IH _ Hnd') as (H1 & H2 & H3). repeat split; [done| | |].
      * rewrite H2, List.map_app, elem_of_app. simpl.
        intros [[?|Hk]|?]; [by left | | by right; right].
        apply list_elem_of_singleton in Hk as ->. right. by left.
      * rewrite H2, List.map_app, elem_of_app. simpl. intros [?|Hk]; [by left; left|].
        apply elem_of_cons in Hk as [-> | Hk]; [|by right].
        left. right. by apply list_elem_of_singleton.
      * intros k v Hin. destruct (H3 k v Hin) as [Hacc | (Hk & pre & post & -> & Hpre)].
        -- apply elem_of_app in Hacc as [? | Hnew]; [by left|].
           apply list_elem_of_singleton in Hnew as [= -> ->].
           right. split; [done|]. exists [], rest. split; [done|]. simpl.
           by intros ?%elem_of_nil.
        -- rewrite List.map_app, elem_of_app in Hk. right. split; [tauto|].
           exists ((k0, v0) :: pre), post. split; [done|]. simpl.
           intros Hc. apply elem_of_cons in Hc as [-> | Hc]; [|by apply Hpre].
           apply Hk. right. by apply list_elem_of_singleton.
Qed.

(** X20.  The family map keeps one entry per user: the entry of each user that
    occurs in the rows is built from the first row of that user, later rows
    of the same user are ignored, and no user is lost. *)
Theorem latestLocations_keeps_first_row_per_user {V} (rows : list (string * V)) :
  NoDup (List.map fst (Views.group_first [] rows))
  /\ (forall k, k ∈ List.map fst (Views.group_first [] rows) <-> k ∈ List.map fst rows)
  /\ (forall k v, (k, v) ∈ Views.group_first [] rows ->
        exists pre post, rows = (pre ++ ((k, v) :: post))%list /\ k ∉ List.map fst pre)
  /\ length (Views.latestLocations rows) = length (Views.group_first [] rows).
Proof.
  destruct (group_first_spec rows [] (NoDup_nil_2)) as (H1 & H2 & H3).
  repeat split; [done| | | |].
  - rewrite H2. intros [Hk|?]; [by apply elem_of_nil in Hk | done].
  - intros Hk. apply H2. by right.
  - intros k v Hin. destruct (H3 k v Hin) as [Hk | [_ ?]]; [by apply elem_of_nil in Hk | done].
  - unfold Views.latestLocations. by rewrite List.length_map.
Qed.

(** *** The FCM token: registration, logout and the next SOS *)

Lemma filter_set_token userId t id l :
  List.filter (fun u => String.eqb (u_id u) id) (List.map (Auth.set_token userId t) l)
  = List.map (Auth.set_token userId t) (List.filter (fun u => String.eqb (u_id u) id) l).
Proof.
  induction l as [|u l IH]; [done|]. simpl.
  assert (Hid : u_id (Auth.set_token userId t u) = u_id u).
  { unfold Auth.set_token. by destruct (String.eqb (u_id u) userId). }
  rewrite Hid. destruct (String.eqb (u_id u) id); simpl; by rewrite IH.
Qed.

Lemma user_by_id_set_token userId t id s :
  Query.user_by_id (Auth.map_users (Auth.set_token userId t) s) id
  = Auth.set_token userId t <$> Query.user_by_id s id.
Proof.
  unfold Query.user_by_id. simpl. rewrite filter_set_token.
  by destruct (List.filter _ (users s)) as [|u [|u' l]].
Qed.

Lemma user_by_id_is u s id : Query.user_by_id s id = Some u -> u_id u = id.
Proof.
  intros H%single_Some.
  assert (Hin : List.In u (List.filter (fun u => String.eqb (u_id u) id) (users s)))
    by (rewrite H; by left).
  apply List.filter_In in Hin as [_ Hid]. by apply String.eqb_eq.
Qed.

Lemma push_step_posts env c u alert l w token lat lon :
  Js.truthy (contact_user_id c) = true ->
  Query.user_by_opt_id (db w) (contact_user_id c) ≫= fcm_token = Some token ->
  Js.truthy_str token = true ->
  a_latitude alert = Some lat ->
  a_longitude alert = Some lon ->
  Sos.push_step env c u alert l w
  = ((if fcm_ok env token
      then Ok {| Sos.notificationType := Push; Sos.isDelivered := true |}
      else Throw (NetworkError "https://fcm.googleapis.com/fcm/send")),
     with_out w [FcmPost token "SOS ALERT" (full_name u ++ " needs help!")]).
Proof.
  intros Hc Hrow Htok Hlat Hlon.
  unfold Sos.push_step. rewrite Hc.
  unfold mbind at 1, M_bind at 1, get_db. cbn beta iota.
  rewrite Hrow, Htok, Hlat, Hlon. simpl.
  unfold Sos.sendFCMNotification.
  unfold mbind, M_bind, emit, throw, mret, M_ret. cbn beta iota.
  by destruct (fcm_ok env token).
Qed.

(** X21.  After a user registered a token with [POST /update-fcm-token], an SOS
    that names this user as a contact posts to FCM with exactly that token
    before anything else is tried for the contact; the other users' tokens
    are as they were. *)
Theorem registered_token_is_the_one_pushed env w userId token ub c u alert lat lon :
  Js.truthy_str token = true ->
  Query.user_by_id (db w) userId = Some ub ->
  contact_user_id c = Some userId ->
  Js.truthy_str userId = true ->
  a_latitude alert = Some lat ->
  a_longitude alert = Some lon ->
  exists w1 r w2 rest,
    Auth.update_fcm_token true userId (Some token) w
    = (Ok {| Sos.status := 200;
             Sos.json := Sos.MessageBody "FCM token updated successfully" |}, w1)
    /\ (forall other, other <> userId ->
          Query.user_by_id (db w1) other = Query.user_by_id (db w) other)
    /\ Sos.sendSOSNotification env c (Some u) alert w1 = (r, w2)
    /\ out w2 = (out w ++ FcmPost token "SOS ALERT" (full_name u ++ " needs help!")
                         :: rest)%list.
Proof.
  intros Htok Hub Hc Hu Hlat Hlon.
  pose proof (user_by_id_is _ _ _ Hub) as Hid.
  set (w1 := with_db w (Auth.map_users (Auth.set_token userId (Some token)) (db w))).
  assert (Hreg : Auth.update_fcm_token true userId (Some token) w
                 = (Ok {| Sos.status := 200;
                          Sos.json := Sos.MessageBody "FCM token updated successfully" |},
                    w1)).
  { unfold Auth.update_fcm_token, try_catch. simpl. by rewrite Htok. }
  assert (Hrow : Query.user_by_opt_id (db w1) (contact_user_id c) ≫= fcm_token
                 = Some token).
  { rewrite Hc. simpl. rewrite user_by_id_set_token, Hub. simpl.
    unfold Auth.set_token. by rewrite Hid, String.eqb_refl. }
  assert (Hothers : forall other, other <> userId ->
             Query.user_by_id (db w1) other = Query.user_by_id (db w) other).
  { intros other Hne. simpl. rewrite user_by_id_set_token.
    destruct (Query.user_by_id (db w) other) as [uo|] eqn:Ho; [|done].
    simpl. unfold Auth.set_token.
    rewrite (user_by_id_is _ _ _ Ho). apply String.eqb_neq in Hne. by rewrite Hne. }
  assert (Htruthy : Js.truthy (contact_user_id c) = true) by (by rewrite Hc).
  pose proof (push_step_posts env c u alert
                {| Sos.notificationType := Sms; Sos.isDelivered := false |}
                w1 token lat lon Htruthy Hrow Htok Hlat Hlon) as Hpush.
  assert (Hsend : exists r w2 rest,
             Sos.sendSOSNotification env c (Some u) alert w1 = (r, w2)
             /\ out w2 = (out w1 ++ FcmPost token "SOS ALERT"
                                      (full_name u ++ " needs help!") :: rest)%list).
  { unfold Sos.sendSOSNotification, try_catch.
    unfold deref at 1, mbind at 1, M_bind at 1, mret at 1, M_ret at 1.
    cbn beta iota.
    unfold mbind at 1, M_bind at 1. rewrite Hpush.
    unfold Sos.sms_step, Sos.sendSMS, Db.insert_notification, throw, emit, set_db.
    unfold mbind, M_bind, mret, M_ret. cbn beta iota.
    repeat match goal with
           | |- context [match ?x with _ => _ end] =>
               lazymatch x with
               | context [match _ with _ => _ end] => fail
               | _ => destruct x eqn:?
               end; cbn beta iota
           end.
    all: eexists _, _, _; (split; [reflexivity|]); simpl; rewrite <- ?app_assoc;
      reflexivity. }
  destruct Hsend as (r & w2 & rest & Hsend & Hout).
  exists w1, r, w2, rest. by repeat split.
Qed.

Lemma registered_token_is_the_one_pushed_witness :
  Js.truthy_str "tok-new" = true
  /\ Query.user_by_id (db (Server.boot Scenario.alerted_store)) "b" = Some Cases.bee
  /\ contact_user_id Scenario.contact_b = Some "b"
  /\ Js.truthy_str "b" = true
  /\ a_latitude Scenario.alert_1 = Some 65244
  /\ a_longitude Scenario.alert_1 = Some 33792
  /\ exists w1 r w2 rest,
       Auth.update_fcm_token true "b" (Some "tok-new") (Server.boot Scenario.alerted_store)
       = (Ok {| Sos.status := 200;
                Sos.json := Sos.MessageBody "FCM token updated successfully" |}, w1)
       /\ (forall other, other <> "b" ->
             Query.user_by_id (db w1) other
             = Query.user_by_id (db (Server.boot Scenario.alerted_store)) other)
       /\ Sos.sendSOSNotification Scenario.env_up Scenario.contact_b
            (Some Scenario.ada) Scenario.alert_1 w1 = (r, w2)
       /\ out w2 = (out (Server.boot Scenario.alerted_store)
                    ++ FcmPost "tok-new" "SOS ALERT"
                         (full_name Scenario.ada ++ " needs help!") :: rest)%list.
Proof.
  assert (H1 : Js.truthy_str "tok-new" = true) by reflexivity.
  assert (H2 : Query.user_by_id (db (Server.boot Scenario.alerted_store)) "b"
               = Some Cases.bee) by (vm_compute; reflexivity).
  assert (H3 : contact_user_id Scenario.contact_b = Some "b") by reflexivity.
  assert (H4 : Js.truthy_str "b" = true) by reflexivity.
  assert (H5 : a_latitude Scenario.alert_1 = Some 65244) by reflexivity.
  assert (H6 : a_longitude Scenario.alert_1 = Some 33792) by reflexivity.
  exact (conj H1 (conj H2 (conj H3 (conj H4 (conj H5 (conj H6
           (registered_token_is_the_one_pushed Scenario.env_up
              (Server.boot Scenario.alerted_store) "b" "tok-new" Cases.bee
              Scenario.contact_b Scenario.ada Scenario.alert_1 65244 33792
              H1 H2 H3 H4 H5 H6))))))).
Defined.

Lemma push_step_no_token env c u alert l w :
  Query.user_by_opt_id (db w) (contact_user_id c) ≫= fcm_token = None ->
  Sos.push_step env c u alert l w = (Ok l, w).
Proof.
  intros Hrow. unfold Sos.push_step.
  destruct (Js.truthy (contact_user_id c)); [|done].
  unfold mbind at 1, M_bind at 1, get_db. cbn beta iota. by rewrite Hrow.
Qed.

(** X22.  After a user logged out, an SOS that names this user as a contact
    posts nothing to FCM for it, whatever FCM would answer; the contact's
    delivery fulfils and the SMS still goes out when the contact has a
    phone number. *)
Theorem logout_stops_the_push env w userId c u alert :
  contact_user_id c = Some userId ->
  exists w1 r w2,
    Auth.logout true userId w
    = (Ok {| Sos.status := 200; Sos.json := Sos.MessageBody "Logged out successfully" |},
       w1)
    /\ Sos.sendSOSNotification env c (Some u) alert w1 = (Ok r, w2)
    /\ List.filter is_fcm (added (out w) (out w2)) = []
    /\ texted (added (out w) (out w2)) c.
Proof.
  intros Hc.
  set (w1 := with_db w (Auth.map_users (Auth.set_token userId None) (db w))).
  assert (Hrow : Query.user_by_opt_id (db w1) (contact_user_id c) ≫= fcm_token = None).
  { rewrite Hc. simpl. rewrite user_by_id_set_token.
    destruct (Query.user_by_id (db w) userId) as [ub|] eqn:Hub; [|done].
    simpl. unfold Auth.set_token.
    by rewrite (user_by_id_is _ _ _ Hub), String.eqb_refl. }
  pose proof (push_step_no_token env c u alert
                {| Sos.notificationType := Sms; Sos.isDelivered := false |}
                w1 Hrow) as Hpush.
  exists w1. unfold texted, added.
  unfold Sos.sendSOSNotification, try_catch.
  unfold deref at 1, mbind at 1, M_bind at 1, mret at 1, M_ret at 1.
  cbn beta iota.
  unfold mbind at 1, M_bind at 1. rewrite Hpush.
  unfold Sos.sms_step, Sos.sendSMS, Db.insert_notification, throw, emit, set_db.
  unfold mbind, M_bind, mret, M_ret. cbn beta iota.
  repeat match goal with
         | |- context [match ?x with _ => _ end] =>
             lazymatch x with
             | context [match _ with _ => _ end] => fail
             | _ => destruct x eqn:?
             end; cbn beta iota
         end.
  all: eexists _, _; (split; [reflexivity|]); (split; [reflexivity|]); simpl.
  all: rewrite ?drop_app_length, ?drop_all; simpl.
  all: (split; [reflexivity|]); intros phone Hphone Hp;
    first [ discriminate Hphone
          | injection Hphone as <-;
            first [ congruence | eexists; apply list_elem_of_here ] ].
Qed.

Lemma logout_stops_the_push_witness :
  contact_user_id Scenario.contact_b = Some "b"
  /\ exists w1 r w2,
       Auth.logout true "b" (Server.boot Scenario.alerted_store)
       = (Ok {| Sos.status := 200;
                Sos.json := Sos.MessageBody "Logged out successfully" |}, w1)
       /\ Sos.sendSOSNotification Scenario.env_fcm_down Scenario.contact_b
            (Some Scenario.ada) Scenario.alert_1 w1 = (Ok r, w2)
       /\ List.filter is_fcm (added (out (Server.boot Scenario.alerted_store)) (out w2)) = []
       /\ texted (added (out (Server.boot Scenario.alerted_store)) (out w2))
            Scenario.contact_b.
Proof.
  assert (H : contact_user_id Scenario.contact_b = Some "b") by reflexivity.
  exact (conj H (logout_stops_the_push Scenario.env_fcm_down
                   (Server.boot Scenario.alerted_store) "b" Scenario.contact_b
                   Scenario.ada Scenario.alert_1 H)).
Defined.
